(** * Lifecycle adapters of the azurerm provider: a shallow embedding

    The development follows the Go sources:
    - the container registry cache rule resource (Create/Read/Update/Delete),
    - the container app environment resource,
    - the container registry credential set resource (unimplemented),
    - the managed HSM URI helper,
    - the firewall policy identifier codec exercised by its tests,
    - the cache rule name validation declared in the schema.

    Go functions that return [error] are written in a small monad over the
    request-scoped metadata: a statement either falls through, returns, or
    panics.  Remote clients are response oracles carried by the metadata, and
    every call issued to them is appended to a log, so that "no call was
    issued" is a statement about that log. *)

From Stdlib Require Import String Ascii List Bool Arith Lia.
From stdpp Require Import base option strings gmap.

Import ListNotations.

(** ** Resource identifiers of the Azure SDK

    The SDK's identifier structs and their [New...ID] constructors. *)

Module ids.

Record RegistryId := mkRegistryId {
  Registry_SubscriptionId : string;
  Registry_ResourceGroupName : string;
  Registry_RegistryName : string }.

Record CacheRuleId := mkCacheRuleId {
  CacheRule_SubscriptionId : string;
  CacheRule_ResourceGroupName : string;
  CacheRule_RegistryName : string;
  CacheRule_CacheRuleName : string }.

Record ManagedEnvironmentId := mkManagedEnvironmentId {
  Env_SubscriptionId : string;
  Env_ResourceGroupName : string;
  Env_ManagedEnvironmentName : string }.

Record WorkspaceId := mkWorkspaceId {
  Workspace_SubscriptionId : string;
  Workspace_ResourceGroupName : string;
  Workspace_WorkspaceName : string }.

Definition NewRegistryID (subscriptionId resourceGroupName registryName : string) : RegistryId :=
  mkRegistryId subscriptionId resourceGroupName registryName.

Definition NewCacheRuleID (subscriptionId resourceGroupName registryName cacheRuleName : string)
  : CacheRuleId :=
  mkCacheRuleId subscriptionId resourceGroupName registryName cacheRuleName.

Definition NewManagedEnvironmentID (subscriptionId resourceGroupName name : string)
  : ManagedEnvironmentId :=
  mkManagedEnvironmentId subscriptionId resourceGroupName name.

(** The [resourceids.Id] interface: any of the identifiers above. *)
Inductive ResourceId :=
| OfRegistry (id : RegistryId)
| OfCacheRule (id : CacheRuleId)
| OfManagedEnvironment (id : ManagedEnvironmentId)
| OfWorkspace (id : WorkspaceId).

End ids.

(** ** Errors, HTTP responses and the statement monad *)

Module sdk.

(** A Go [error] value.  [fmt.Errorf] is kept unevaluated: the format string
    and its arguments, among them the wrapped cause. *)
Inductive error :=
| RemoteError (statusCode : nat) (msg : string)
| LocalError (msg : string)
| Errorf (format : string) (args : list fmt_arg)
| ImportRequired (resourceType : string) (id : ids.ResourceId)
with fmt_arg :=
| ArgString (s : string)
| ArgId (id : ids.ResourceId)
| ArgError (e : error).

(** The remote cause an error carries, if it wraps one. *)
Fixpoint wraps (cause : error) (e : error) : Prop :=
  match e with
  | Errorf _ args =>
      (fix any (l : list fmt_arg) : Prop :=
         match l with
         | [] => False
         | ArgError e' :: rest => e' = cause \/ wraps cause e' \/ any rest
         | _ :: rest => any rest
         end) args
  | _ => False
  end.

Record http_Response := { StatusCode : nat }.

Definition StatusNotFound : nat := 404.

(** [response.WasNotFound]: a nil response is not a not-found. *)
Definition WasNotFound (resp : option http_Response) : bool :=
  match resp with
  | Some r => StatusCode r =? StatusNotFound
  | None => false
  end.

(** Not-found as carried by an error (delete-and-poll returns no response). *)
Definition ErrorWasNotFound (e : error) : bool :=
  match e with
  | RemoteError code _ => code =? StatusNotFound
  | _ => false
  end.

Record GetOperationResponse (T : Type) := {
  HttpResponse : option http_Response;
  Model : option T }.
Arguments HttpResponse {T} _.
Arguments Model {T} _.

(** How one Go statement ends: it falls through to the next one, returns
    from the enclosing function with a result, or panics. *)
Inductive Flow (R A : Type) : Type :=
| Next (a : A)
| Return (r : R)
| Panic (msg : string).
Arguments Next {R A} a.
Arguments Return {R A} r.
Arguments Panic {R A} msg.

(** How a function call ends. *)
Inductive Outcome (R : Type) : Type :=
| Returned (r : R)
| Panicked (msg : string).
Arguments Returned {R} r.
Arguments Panicked {R} msg.

(** Statements of a function with result type [R] over a state [S]. *)
Definition M (S R A : Type) : Type := S -> Flow R A * S.

Definition ret {S R A} (a : A) : M S R A := fun s => (Next a, s).

Definition bind {S R A B} (m : M S R A) (k : A -> M S R B) : M S R B :=
  fun s =>
    match m s with
    | (Next a, s') => k a s'
    | (Return r, s') => (Return r, s')
    | (Panic msg, s') => (Panic msg, s')
    end.

#[global] Instance M_ret {S R} : MRet (M S R) := @ret S R.
#[global] Instance M_bind {S R} : MBind (M S R) := fun A B k m => bind m k.

Definition return_ {S R A} (r : R) : M S R A := fun s => (Return r, s).

Definition panic {S R A} (msg : string) : M S R A := fun s => (Panic msg, s).

Definition get {S R} : M S R S := fun s => (Next s, s).

Definition modify {S R} (f : S -> S) : M S R unit := fun s => (Next tt, f s).

(** A function body ends in [return] or [panic], never by falling through. *)
Definition run {S R} (body : M S R Empty_set) (s : S) : Outcome R * S :=
  match body s with
  | (Next a, _) => match a with end
  | (Return r, s') => (Returned r, s')
  | (Panic msg, s') => (Panicked msg, s')
  end.

(** Calling a function from the body of another: its result is a value of
    the caller, its panic unwinds the caller. *)
Definition call {S R R'} (body : M S R Empty_set) : M S R' R :=
  fun s =>
    match run body s with
    | (Returned r, s') => (Next r, s')
    | (Panicked msg, s') => (Panic msg, s')
    end.

(** [*p] and [p.f] on a pointer. *)
Definition deref {S R A} (p : option A) : M S R A :=
  match p with
  | Some a => ret a
  | None => panic "invalid memory address or nil pointer dereference"
  end.

(** [if err != nil { ... }] and [if cond { ... }] with no else branch. *)
Definition if_err {S R} (err : option error) (body : error -> M S R unit) : M S R unit :=
  match err with
  | Some e => body e
  | None => ret tt
  end.

Definition when {S R} (cond : bool) (body : M S R unit) : M S R unit :=
  if cond then body else ret tt.

(** Modelled from the spec: [metadata.ResourceRequiresImport] of the
    provider's sdk package is not among the sources; the spec has Create
    fail with an import-required error when the resource already exists. *)
Definition ResourceRequiresImport (resourceType : string) (id : ids.ResourceId)
  : option error :=
  Some (ImportRequired resourceType id).

(** Modelled from the spec: [metadata.MarkAsGone] of the provider's sdk
    package is not among the sources; the spec has it signal the host runtime
    to drop the resource from state, which is not an error.  [drop] is how
    the metadata at hand records that signal. *)
Definition MarkAsGone {S R} (drop : S -> S) (id : ids.ResourceId) : M S R (option error) :=
  bind (modify drop) (fun _ => ret None).

End sdk.

Import sdk.

(** ** Schema declarations and the validators of the plugin SDK *)

Module pluginsdk.

Inductive ValueType := TypeString | TypeBool | TypeList.

Definition SchemaValidateFunc : Type := string -> string -> list string * list error.

Record Schema := {
  Type_ : ValueType;
  Required : bool;
  Optional : bool;
  ForceNew : bool;
  Description : string;
  ValidateFunc : option SchemaValidateFunc }.

End pluginsdk.

(** The identifier functions of the SDK the adapters call: parsers of the
    persisted identifier string, the [ID()] formatter and the schema validator
    of registry identifiers.  They live in the
    SDK, not in this repository, so the adapters are stated over any of them. *)
Class IdFunctions := {
  ParseRegistryID : string -> error + ids.RegistryId;
  ParseCacheRuleID : string -> error + ids.CacheRuleId;
  ParseManagedEnvironmentID : string -> error + ids.ManagedEnvironmentId;
  ParseWorkspaceID : string -> error + ids.WorkspaceId;
  ID : ids.ResourceId -> string;
  ValidateRegistryID : pluginsdk.SchemaValidateFunc }.

Module validation.

(** [validation.StringLenBetween(min, max)] of the plugin SDK: one error when
    the length of the value lies outside [min..max], none otherwise.  The
    schema field has type string, so the value is a string. *)
Definition StringLenBetween (min max : nat) : pluginsdk.SchemaValidateFunc :=
  fun v k =>
    if (String.length v <? min) || (max <? String.length v)
    then ([], [Errorf "expected length of %s to be in the range (%d - %d), got %s"
                 [ArgString k; ArgString v]])
    else ([], []).

End validation.

(** ** The container registry cache rule resource *)

Module ContainerRegistryCacheRule.
Import ids pluginsdk.

(** The SDK's models, with the fields the adapter touches. *)
Record CacheRuleProperties := {
  SourceRepository : option string;
  TargetRepository : option string }.

Record CacheRule := {
  Name : option string;
  Properties : option CacheRuleProperties }.

Record CacheRuleUpdateProperties := {
  CredentialSetResourceId : option string }.

Record CacheRuleUpdateParameters := {
  UpdateProperties : option CacheRuleUpdateProperties }.

(** A call issued to a remote client. *)
Inductive Call :=
| Registries_Get (id : RegistryId)
| CacheRules_Get (id : CacheRuleId)
| CacheRules_CreateThenPoll (id : CacheRuleId) (parameters : CacheRule)
| CacheRules_UpdateThenPoll (id : CacheRuleId) (parameters : CacheRuleUpdateParameters)
| CacheRules_DeleteThenPoll (id : CacheRuleId).

(** [metadata.Client]: what each remote operation answers. *)
Record Client := {
  Account_SubscriptionId : string;
  registries_Get : RegistryId -> GetOperationResponse unit * option error;
  cacheRules_Get : CacheRuleId -> GetOperationResponse CacheRule * option error;
  cacheRules_CreateThenPoll : CacheRuleId -> CacheRule -> option error;
  cacheRules_UpdateThenPoll : CacheRuleId -> CacheRuleUpdateParameters -> option error;
  cacheRules_DeleteThenPoll : CacheRuleId -> option error }.

(** What the adapter hands to [ResourceData.Set]: a string, a pointer to a
    string, or a registry identifier, which is a struct. *)
Inductive Value :=
| VString (s : string)
| VStringPtr (p : option string)
| VRegistryId (id : RegistryId).

(** [Sets] records every [ResourceData.Set] call, in order, whether the
    value was stored or refused. *)
Record ResourceMetaData := {
  client : Client;
  ResourceData_Id : string;
  ResourceData_fields : gmap string Value;
  Gone : bool;
  Calls : list Call;
  Sets : list (string * Value) }.

Definition with_Id (id : string) (md : ResourceMetaData) : ResourceMetaData :=
  {| client := client md; ResourceData_Id := id;
     ResourceData_fields := ResourceData_fields md; Gone := Gone md; Calls := Calls md;
     Sets := Sets md |}.

Definition with_field (k : string) (v : Value) (md : ResourceMetaData) : ResourceMetaData :=
  {| client := client md; ResourceData_Id := ResourceData_Id md;
     ResourceData_fields := <[k := v]> (ResourceData_fields md); Gone := Gone md;
     Calls := Calls md; Sets := Sets md |}.

Definition without_field (k : string) (md : ResourceMetaData) : ResourceMetaData :=
  {| client := client md; ResourceData_Id := ResourceData_Id md;
     ResourceData_fields := delete k (ResourceData_fields md); Gone := Gone md;
     Calls := Calls md; Sets := Sets md |}.

Definition with_Set (k : string) (v : Value) (md : ResourceMetaData) : ResourceMetaData :=
  {| client := client md; ResourceData_Id := ResourceData_Id md;
     ResourceData_fields := ResourceData_fields md; Gone := Gone md;
     Calls := Calls md; Sets := Sets md ++ [(k, v)] |}.

Definition with_Gone (md : ResourceMetaData) : ResourceMetaData :=
  {| client := client md; ResourceData_Id := ResourceData_Id md;
     ResourceData_fields := ResourceData_fields md; Gone := true; Calls := Calls md;
     Sets := Sets md |}.

Definition with_Call (c : Call) (md : ResourceMetaData) : ResourceMetaData :=
  {| client := client md; ResourceData_Id := ResourceData_Id md;
     ResourceData_fields := ResourceData_fields md; Gone := Gone md;
     Calls := Calls md ++ [c]; Sets := Sets md |}.

(** [metadata.ResourceData.Get(k).(string)]: the zero value when the field is
    unset, a panic when the stored value is no string ([ResourceData.Set]
    below stores strings only: see [string_fields]). *)
Definition ResourceData_Get_string {R} (k : string) : M ResourceMetaData R string :=
  metadata ← get;
  match ResourceData_fields metadata !! k with
  | None => mret ""%string
  | Some (VString s) => mret s
  | Some _ => panic "interface conversion: interface {} is not string"
  end.

(** The states the SDK can hold for this schema: every stored value is a
    string. *)
Definition string_fields (md : ResourceMetaData) : Prop :=
  forall k v, ResourceData_fields md !! k = Some v -> exists s, v = VString s.

(** Remote calls: log the call, answer as the client does. *)
Definition registryClient_Get {R} (id : RegistryId)
  : M ResourceMetaData R (GetOperationResponse unit * option error) :=
  metadata ← get;
  modify (with_Call (Registries_Get id));;
  mret (registries_Get (client metadata) id).

Definition cacheRulesClient_Get {R} (id : CacheRuleId)
  : M ResourceMetaData R (GetOperationResponse CacheRule * option error) :=
  metadata ← get;
  modify (with_Call (CacheRules_Get id));;
  mret (cacheRules_Get (client metadata) id).

Definition cacheRulesClient_CreateThenPoll {R} (id : CacheRuleId) (parameters : CacheRule)
  : M ResourceMetaData R (option error) :=
  metadata ← get;
  modify (with_Call (CacheRules_CreateThenPoll id parameters));;
  mret (cacheRules_CreateThenPoll (client metadata) id parameters).

Definition cacheRulesClient_UpdateThenPoll {R} (id : CacheRuleId)
  (parameters : CacheRuleUpdateParameters) : M ResourceMetaData R (option error) :=
  metadata ← get;
  modify (with_Call (CacheRules_UpdateThenPoll id parameters));;
  mret (cacheRules_UpdateThenPoll (client metadata) id parameters).

Definition cacheRulesClient_DeleteThenPoll {R} (id : CacheRuleId)
  : M ResourceMetaData R (option error) :=
  metadata ← get;
  modify (with_Call (CacheRules_DeleteThenPoll id));;
  mret (cacheRules_DeleteThenPoll (client metadata) id).

Section Lifecycle.
Context `{IdFunctions}.

(** Modelled from the spec: [metadata.SetID] of the provider's sdk package is
    not among the sources; the spec has the identifier persisted as the new
    state handle. *)
Definition SetID {R} (id : ResourceId) : M ResourceMetaData R unit :=
  modify (with_Id (ID id)).

Definition ResourceType : string := "azurerm_container_registry_cache_rule".

Definition Arguments : gmap string Schema :=
  {[ "name" :=
       {| Type_ := TypeString; Required := true; Optional := false; ForceNew := true;
          Description := "The name of the cache rule.";
          ValidateFunc := Some (validation.StringLenBetween 5 40) |};
     "credential_set_id" :=
       {| Type_ := TypeString; Required := false; Optional := true; ForceNew := false;
          Description := "Credential set ID";
          ValidateFunc := None |};
     "container_registry_id" :=
       {| Type_ := TypeString; Required := true; Optional := false; ForceNew := true;
          Description := "Resource ID of the parent container registry.";
          ValidateFunc := Some ValidateRegistryID |};
     "source_repo" :=
       {| Type_ := TypeString; Required := true; Optional := false; ForceNew := true;
          Description := "The full source repository path such as 'docker.io/library/ubuntu'.";
          ValidateFunc := None |};
     "target_repo" :=
       {| Type_ := TypeString; Required := true; Optional := false; ForceNew := true;
          Description := "The target repository namespace such as 'ubuntu'.";
          ValidateFunc := None |} ]}.

Definition Attributes : gmap string Schema := ∅.

(** [metadata.ResourceData.Set(k, v)] of the plugin SDK: the value is decoded
    to the type the schema declares for [k].  Every field of this resource is
    a string: a string is stored; a pointer to a string is stored
    dereferenced, and a nil pointer removes the value; any other value, a
    struct among them, is refused with an error and the field keeps the value
    it had. *)
Definition ResourceData_Set {R} (k : string) (v : Value)
  : M ResourceMetaData R (option error) :=
  modify (with_Set k v);;
  match Type_ <$> Arguments !! k with
  | Some TypeString =>
    match v with
    | VString s | VStringPtr (Some s) => modify (with_field k (VString s));; mret None
    | VStringPtr None => modify (without_field k);; mret None
    | VRegistryId _ =>
      mret (Some (Errorf "%s: expected type 'string', got unconvertible type 'registries.RegistryId'"
                    [ArgString k]))
    end
  | Some _ => mret (Some (Errorf "%s: unsupported value for the field" [ArgString k]))
  | None => mret (Some (Errorf "Invalid address to set: %s" [ArgString k]))
  end.

Definition Create : M ResourceMetaData (option error) Empty_set :=
  metadata ← get;
  let subscriptionId := Account_SubscriptionId (client metadata) in
  raw ← ResourceData_Get_string "container_registry_id";
  match ParseRegistryID raw with
  | inl err => return_ (Some err)
  | inr registryId =>
    '(_, err) ← registryClient_Get registryId;
    if_err err (fun err =>
      return_ (Some (Errorf "getting registry %s: %+v"
                       [ArgId (OfRegistry registryId); ArgError err])));;
    name ← ResourceData_Get_string "name";
    let id := NewCacheRuleID subscriptionId
                (Registry_ResourceGroupName registryId)
                (Registry_RegistryName registryId)
                name in
    '(existing, err) ← cacheRulesClient_Get id;
    if_err err (fun err =>
      when (negb (WasNotFound (HttpResponse existing)))
        (return_ (Some (Errorf "checking for presence of existing %s: %s"
                          [ArgId (OfCacheRule id); ArgError err]))));;
    when (negb (WasNotFound (HttpResponse existing)))
      (return_ (ResourceRequiresImport ResourceType (OfCacheRule id)));;
    targetRepo ← ResourceData_Get_string "target_repo";
    sourceRepo ← ResourceData_Get_string "source_repo";
    let parameters :=
      {| Name := Some (CacheRule_CacheRuleName id);
         Properties := Some {| SourceRepository := Some sourceRepo;
                               TargetRepository := Some targetRepo |} |} in
    err ← cacheRulesClient_CreateThenPoll id parameters;
    if_err err (fun err =>
      return_ (Some (Errorf "creating Container Registry Cache Rule %s: %+v"
                       [ArgId (OfCacheRule id); ArgError err])));;
    SetID (OfCacheRule id);;
    return_ None
  end.

Definition Read : M ResourceMetaData (option error) Empty_set :=
  metadata ← get;
  match ParseCacheRuleID (ResourceData_Id metadata) with
  | inl err => return_ (Some err)
  | inr id =>
    '(resp, err) ← cacheRulesClient_Get id;
    if_err err (fun err =>
      when (WasNotFound (HttpResponse resp))
        (gone ← MarkAsGone with_Gone (OfCacheRule id); return_ gone);;
      return_ (Some (Errorf "retrieving Container Registry Cache Rule %s: %+v"
                       [ArgId (OfCacheRule id); ArgError err])));;
    ResourceData_Set "name" (VString (CacheRule_CacheRuleName id));;
    let registryId := NewRegistryID (CacheRule_SubscriptionId id)
                        (CacheRule_SubscriptionId id)
                        (CacheRule_RegistryName id) in
    (* the error this [Set] returns is dropped in the source *)
    ResourceData_Set "container_registry_id" (VRegistryId registryId);;
    match Model resp with
    | Some model =>
      match Properties model with
      | Some properties =>
        ResourceData_Set "source_repo" (VStringPtr (SourceRepository properties));;
        ResourceData_Set "target_repo" (VStringPtr (TargetRepository properties));;
        mret tt
      | None => mret tt
      end
    | None => mret tt
    end;;
    return_ None
  end.

Definition Update : M ResourceMetaData (option error) Empty_set :=
  metadata ← get;
  match ParseCacheRuleID (ResourceData_Id metadata) with
  | inl err => return_ (Some err)
  | inr id =>
    (* TODO in the source: only the credential set can be updated; to be implemented *)
    let parameters :=
      {| UpdateProperties := Some {| CredentialSetResourceId := None |} |} in
    err ← cacheRulesClient_UpdateThenPoll id parameters;
    if_err err (fun err =>
      return_ (Some (Errorf "updating %s: %+v" [ArgId (OfCacheRule id); ArgError err])));;
    SetID (OfCacheRule id);;
    return_ None
  end.

Definition Delete : M ResourceMetaData (option error) Empty_set :=
  metadata ← get;
  match ParseCacheRuleID (ResourceData_Id metadata) with
  | inl err => return_ (Some err)
  | inr id =>
    err ← cacheRulesClient_DeleteThenPoll id;
    if_err err (fun err =>
      return_ (Some (Errorf "deleting Container Registry Cache Rule %s: %+v"
                       [ArgId (OfCacheRule id); ArgError err])));;
    return_ None
  end.

End Lifecycle.

End ContainerRegistryCacheRule.

(** ** The container registry credential set resource

    Every lifecycle function of this resource is [panic("unimplemented")]. *)

Module ContainerRegistryCredentialSet.

Section Lifecycle.
Context {ResourceMetaData : Type}.

Definition ResourceType : string := "azurerm_container_registry_credential_set".

Definition Create : M ResourceMetaData (option error) Empty_set :=
  panic "unimplemented".

Definition Read : M ResourceMetaData (option error) Empty_set :=
  panic "unimplemented".

Definition Update : M ResourceMetaData (option error) Empty_set :=
  panic "unimplemented".

Definition Delete : M ResourceMetaData (option error) Empty_set :=
  panic "unimplemented".

End Lifecycle.

End ContainerRegistryCredentialSet.

(** ** The container app environment resource *)

Module ContainerAppEnvironment.
Import ids.

Definition LogDestinationMissing : string := "".
Definition LogDestinationNone : string := "none".
Definition LogDestinationLogAnalytics : string := "log-analytics".
Definition LogDestinationAzureMonitor : string := "azure-monitor".

(** [tags.Expand] and [tags.Flatten] of the helper library: tags are a map of
    strings on both sides; the expanded pointer is never nil and a nil pointer
    flattens to the empty map. *)
Definition tags_Expand (t : gmap string string) : option (gmap string string) := Some t.
Definition tags_Flatten (t : option (gmap string string)) : gmap string string := default ∅ t.

(** [pointer.From]: the zero value for a nil pointer. *)
Definition From_string (p : option string) : string := default ""%string p.
Definition From_bool (p : option bool) : bool := default false p.

(** The workload profile types and their conversions live in the provider's
    helpers package and in the SDK; [location.Normalize] in the helper
    library.  The adapter is stated over any of them. *)
Class Helpers := {
  WorkloadProfileModel : Type;
  WorkloadProfile : Type;
  ExpandWorkloadProfiles : list WorkloadProfileModel -> option (list WorkloadProfile);
  FlattenWorkloadProfiles : option (list WorkloadProfile) -> list WorkloadProfileModel;
  location_Normalize : string -> string }.

Section Adapter.
Context `{IdFunctions} `{Helpers}.

Record ContainerAppEnvironmentModel := mkModel {
  Name : string;
  ResourceGroup : string;
  Location : string;
  DaprApplicationInsightsConnectionString : string;
  LogDestination : string;
  LogAnalyticsWorkspaceId : string;
  InfrastructureSubnetId : string;
  InternalLoadBalancerEnabled : bool;
  ZoneRedundant : bool;
  Tags : gmap string string;
  WorkloadProfiles : list WorkloadProfileModel;
  DefaultDomain : string;
  DockerBridgeCidr : string;
  PlatformReservedCidr : string;
  PlatformReservedDnsIP : string;
  StaticIP : string }.

(** [var state ContainerAppEnvironmentModel]: every field at its zero value. *)
Definition zero_Model : ContainerAppEnvironmentModel :=
  mkModel "" "" "" "" "" "" "" false false ∅ [] "" "" "" "" "".

(** Field assignments [state.F = v]. *)
Definition set_Name (v : string) '(mkModel a b c d e f g h i j k l m n o p) :=
  mkModel v b c d e f g h i j k l m n o p.
Definition set_ResourceGroup (v : string) '(mkModel a b c d e f g h i j k l m n o p) :=
  mkModel a v c d e f g h i j k l m n o p.
Definition set_Location (v : string) '(mkModel a b c d e f g h i j k l m n o p) :=
  mkModel a b v d e f g h i j k l m n o p.
Definition set_DaprApplicationInsightsConnectionString (v : string)
  '(mkModel a b c d e f g h i j k l m n o p) :=
  mkModel a b c v e f g h i j k l m n o p.
Definition set_LogDestination (v : string) '(mkModel a b c d e f g h i j k l m n o p) :=
  mkModel a b c d v f g h i j k l m n o p.
Definition set_LogAnalyticsWorkspaceId (v : string) '(mkModel a b c d e f g h i j k l m n o p) :=
  mkModel a b c d e v g h i j k l m n o p.
Definition set_InfrastructureSubnetId (v : string) '(mkModel a b c d e f g h i j k l m n o p) :=
  mkModel a b c d e f v h i j k l m n o p.
Definition set_InternalLoadBalancerEnabled (v : bool) '(mkModel a b c d e f g h i j k l m n o p) :=
  mkModel a b c d e f g v i j k l m n o p.
Definition set_ZoneRedundant (v : bool) '(mkModel a b c d e f g h i j k l m n o p) :=
  mkModel a b c d e f g h v j k l m n o p.
Definition set_Tags (v : gmap string string) '(mkModel a b c d e f g h i j k l m n o p) :=
  mkModel a b c d e f g h i v k l m n o p.
Definition set_WorkloadProfiles (v : list WorkloadProfileModel)
  '(mkModel a b c d e f g h i j k l m n o p) :=
  mkModel a b c d e f g h i j v l m n o p.
Definition set_DefaultDomain (v : string) '(mkModel a b c d e f g h i j k l m n o p) :=
  mkModel a b c d e f g h i j k v m n o p.
Definition set_DockerBridgeCidr (v : string) '(mkModel a b c d e f g h i j k l m n o p) :=
  mkModel a b c d e f g h i j k l v n o p.
Definition set_PlatformReservedCidr (v : string) '(mkModel a b c d e f g h i j k l m n o p) :=
  mkModel a b c d e f g h i j k l m v o p.
Definition set_PlatformReservedDnsIP (v : string) '(mkModel a b c d e f g h i j k l m n o p) :=
  mkModel a b c d e f g h i j k l m n v p.
Definition set_StaticIP (v : string) '(mkModel a b c d e f g h i j k l m n o p) :=
  mkModel a b c d e f g h i j k l m n o v.

(** The SDK's models of the managed environment, with the fields the adapter
    touches. *)
Record LogAnalyticsConfiguration := {
  CustomerId : option string;
  SharedKey : option string }.

Record AppLogsConfiguration := {
  Destination : option string;
  LogAnalyticsConfiguration_ : option LogAnalyticsConfiguration }.

Record VnetConfiguration := {
  Vnet_InfrastructureSubnetId : option string;
  Vnet_Internal : option bool;
  Vnet_DockerBridgeCidr : option string;
  Vnet_PlatformReservedCidr : option string;
  Vnet_PlatformReservedDnsIP : option string }.

Record ManagedEnvironmentProperties := mkProperties {
  AppLogsConfiguration_ : option AppLogsConfiguration;
  DaprAIConnectionString : option string;
  Props_DefaultDomain : option string;
  Props_StaticIP : option string;
  VnetConfiguration_ : option VnetConfiguration;
  Props_WorkloadProfiles : option (list WorkloadProfile);
  Props_ZoneRedundant : option bool }.

Record ManagedEnvironment := mkManagedEnvironment {
  Env_Location : string;
  Env_Name : option string;
  Env_Properties : option ManagedEnvironmentProperties;
  Env_Tags : option (gmap string string) }.

Definition set_AppLogsConfiguration (v : option AppLogsConfiguration)
  '(mkProperties a b c d e f g) := mkProperties v b c d e f g.
Definition set_Env_Properties (v : option ManagedEnvironmentProperties)
  '(mkManagedEnvironment a b c d) := mkManagedEnvironment a b v d.
Definition set_Env_Tags (v : option (gmap string string))
  '(mkManagedEnvironment a b c d) := mkManagedEnvironment a b c v.

(** The log analytics workspace as the shared-key client answers. *)
Record WorkspaceProperties := {
  Workspace_CustomerId : option string }.

Record Workspace := {
  Workspace_Properties : option WorkspaceProperties }.

Record SharedKeys := {
  PrimarySharedKey : option string }.

(** A call issued to a remote client. *)
Inductive Call :=
| ManagedEnvironments_Get (id : ManagedEnvironmentId)
| ManagedEnvironments_CreateOrUpdateThenPoll (id : ManagedEnvironmentId)
    (input : ManagedEnvironment)
| ManagedEnvironments_DeleteThenPoll (id : ManagedEnvironmentId)
| Workspaces_Get (id : WorkspaceId)
| Workspaces_SharedKeysGetSharedKeys (id : WorkspaceId).

(** [metadata.Client]: what each remote operation answers. *)
Record Client := {
  Account_SubscriptionId : string;
  managedEnvironments_Get :
    ManagedEnvironmentId -> GetOperationResponse ManagedEnvironment * option error;
  managedEnvironments_CreateOrUpdateThenPoll :
    ManagedEnvironmentId -> ManagedEnvironment -> option error;
  managedEnvironments_DeleteThenPoll : ManagedEnvironmentId -> option error;
  workspaces_Get : WorkspaceId -> GetOperationResponse Workspace * option error;
  workspaces_SharedKeysGetSharedKeys :
    WorkspaceId -> GetOperationResponse SharedKeys * option error }.

(** The request-scoped metadata.  [ResourceData] holds the configuration and
    state the host runtime hands over, read through its typed view;
    [DecodeError] and [EncodeError] are what [Decode] and [Encode] answer;
    [HasChange] is the host's per-field diff. *)
Record ResourceMetaData := mkMetaData {
  client : Client;
  ResourceData_Id : string;
  ResourceData : ContainerAppEnvironmentModel;
  DecodeError : option error;
  EncodeError : option error;
  HasChange : string -> bool;
  Gone : bool;
  Calls : list Call }.

Definition with_Id (v : string) '(mkMetaData a b c d e f g h) := mkMetaData a v c d e f g h.
Definition with_ResourceData (v : ContainerAppEnvironmentModel)
  '(mkMetaData a b c d e f g h) := mkMetaData a b v d e f g h.
Definition with_Gone '(mkMetaData a b c d e f g h) := mkMetaData a b c d e f true h.
Definition with_Call (v : Call) '(mkMetaData a b c d e f g h) :=
  mkMetaData a b c d e f g (h ++ [v]).

(** [metadata.Decode(&model)] *)
Definition Decode {R} : M ResourceMetaData R (option error * ContainerAppEnvironmentModel) :=
  metadata ← get;
  match DecodeError metadata with
  | Some err => mret (Some err, zero_Model)
  | None => mret (None, ResourceData metadata)
  end.

(** [metadata.Encode(&state)] *)
Definition Encode {R} (state : ContainerAppEnvironmentModel)
  : M ResourceMetaData R (option error) :=
  metadata ← get;
  match EncodeError metadata with
  | Some err => mret (Some err)
  | None => modify (with_ResourceData state);; mret None
  end.

Definition client_Get {R} (id : ManagedEnvironmentId)
  : M ResourceMetaData R (GetOperationResponse ManagedEnvironment * option error) :=
  metadata ← get;
  modify (with_Call (ManagedEnvironments_Get id));;
  mret (managedEnvironments_Get (client metadata) id).

Definition client_CreateOrUpdateThenPoll {R} (id : ManagedEnvironmentId)
  (input : ManagedEnvironment) : M ResourceMetaData R (option error) :=
  metadata ← get;
  modify (with_Call (ManagedEnvironments_CreateOrUpdateThenPoll id input));;
  mret (managedEnvironments_CreateOrUpdateThenPoll (client metadata) id input).

Definition client_DeleteThenPoll {R} (id : ManagedEnvironmentId)
  : M ResourceMetaData R (option error) :=
  metadata ← get;
  modify (with_Call (ManagedEnvironments_DeleteThenPoll id));;
  mret (managedEnvironments_DeleteThenPoll (client metadata) id).

Definition logAnalyticsClient_Get {R} (id : WorkspaceId)
  : M ResourceMetaData R (GetOperationResponse Workspace * option error) :=
  metadata ← get;
  modify (with_Call (Workspaces_Get id));;
  mret (workspaces_Get (client metadata) id).

Definition logAnalyticsClient_SharedKeysGetSharedKeys {R} (id : WorkspaceId)
  : M ResourceMetaData R (GetOperationResponse SharedKeys * option error) :=
  metadata ← get;
  modify (with_Call (Workspaces_SharedKeysGetSharedKeys id));;
  mret (workspaces_SharedKeysGetSharedKeys (client metadata) id).

(** Modelled from the spec: [metadata.SetID] of the provider's sdk package is
    not among the sources; the spec has the identifier persisted as the new
    state handle. *)
Definition SetID {R} (id : ResourceId) : M ResourceMetaData R unit :=
  modify (with_Id (ID id)).

Definition ResourceType : string := "azurerm_container_app_environment".

Definition constructAppLogsConfigurationFromModel (id : ManagedEnvironmentId)
  (model : ContainerAppEnvironmentModel)
  : M ResourceMetaData (option AppLogsConfiguration * option error) Empty_set :=
  if String.eqb (LogDestination model) LogDestinationNone then
    return_ (None, None)
  else if String.eqb (LogDestination model) LogDestinationAzureMonitor then
    return_ (Some {| Destination := Some LogDestinationAzureMonitor;
                     LogAnalyticsConfiguration_ := None |}, None)
  else if String.eqb (LogDestination model) LogDestinationLogAnalytics then
    match ParseWorkspaceID (LogAnalyticsWorkspaceId model) with
    | inl err => return_ (None, Some err)
    | inr logAnalyticsId =>
      '(workspace, err) ← logAnalyticsClient_Get logAnalyticsId;
      if_err err (fun err =>
        return_ (None, Some (Errorf "retrieving %s for %s: %+v"
                               [ArgId (OfWorkspace logAnalyticsId);
                                ArgId (OfManagedEnvironment id); ArgError err])));;
      match Model workspace ≫= Workspace_Properties with
      | None =>
        return_ (None, Some (Errorf "reading customer ID from %s"
                               [ArgId (OfWorkspace logAnalyticsId)]))
      | Some properties =>
        when (bool_decide (Workspace_CustomerId properties = None))
          (return_ (None, Some (Errorf "reading customer ID from %s, `customer_id` is nil"
                                  [ArgId (OfWorkspace logAnalyticsId)])));;
        '(keys, err) ← logAnalyticsClient_SharedKeysGetSharedKeys logAnalyticsId;
        if_err err (fun err =>
          return_ (None, Some (Errorf "retrieving access keys to %s for %s: %+v"
                                 [ArgId (OfWorkspace logAnalyticsId);
                                  ArgId (OfManagedEnvironment id); ArgError err])));;
        keys_Model ← deref (Model keys);
        when (bool_decide (PrimarySharedKey keys_Model = None))
          (return_ (None, Some (Errorf "reading shared key for %s in %s"
                                  [ArgId (OfWorkspace logAnalyticsId);
                                   ArgId (OfManagedEnvironment id)])));;
        return_ (Some {| Destination := Some LogDestinationLogAnalytics;
                         LogAnalyticsConfiguration_ :=
                           Some {| CustomerId := Workspace_CustomerId properties;
                                   SharedKey := PrimarySharedKey keys_Model |} |}, None)
      end
    end
  else
    return_ (None, Some (Errorf "invalid log destination %s"
                           [ArgString (LogDestination model)])).

Definition Create : M ResourceMetaData (option error) Empty_set :=
  metadata ← get;
  let subscriptionId := Account_SubscriptionId (client metadata) in
  '(err, containerAppEnvironment) ← Decode;
  if_err err (fun err => return_ (Some err));;
  let id := NewManagedEnvironmentID subscriptionId
              (ResourceGroup containerAppEnvironment) (Name containerAppEnvironment) in
  '(existing, err) ← client_Get id;
  if_err err (fun err =>
    when (negb (WasNotFound (HttpResponse existing)))
      (return_ (Some (Errorf "checking for presence of existing %s: %+v"
                        [ArgId (OfManagedEnvironment id); ArgError err]))));;
  when (negb (WasNotFound (HttpResponse existing)))
    (return_ (ResourceRequiresImport ResourceType (OfManagedEnvironment id)));;
  '(appLogsConfiguration, err) ←
    call (constructAppLogsConfigurationFromModel id containerAppEnvironment);
  if_err err (fun err => return_ (Some err));;
  let vnet :=
    if String.eqb (InfrastructureSubnetId containerAppEnvironment) "" then
      {| Vnet_InfrastructureSubnetId := None; Vnet_Internal := None;
         Vnet_DockerBridgeCidr := None; Vnet_PlatformReservedCidr := None;
         Vnet_PlatformReservedDnsIP := None |}
    else
      {| Vnet_InfrastructureSubnetId := Some (InfrastructureSubnetId containerAppEnvironment);
         Vnet_Internal := Some (InternalLoadBalancerEnabled containerAppEnvironment);
         Vnet_DockerBridgeCidr := None; Vnet_PlatformReservedCidr := None;
         Vnet_PlatformReservedDnsIP := None |} in
  let managedEnvironment :=
    {| Env_Location := Location containerAppEnvironment;
       Env_Name := Some (Name containerAppEnvironment);
       Env_Properties := Some
         {| AppLogsConfiguration_ := appLogsConfiguration;
            DaprAIConnectionString :=
              if String.eqb (DaprApplicationInsightsConnectionString containerAppEnvironment) ""
              then None
              else Some (DaprApplicationInsightsConnectionString containerAppEnvironment);
            Props_DefaultDomain := None;
            Props_StaticIP := None;
            VnetConfiguration_ := Some vnet;
            Props_WorkloadProfiles :=
              ExpandWorkloadProfiles (WorkloadProfiles containerAppEnvironment);
            Props_ZoneRedundant := Some (ZoneRedundant containerAppEnvironment) |};
       Env_Tags := tags_Expand (Tags containerAppEnvironment) |} in
  err ← client_CreateOrUpdateThenPoll id managedEnvironment;
  if_err err (fun err =>
    return_ (Some (Errorf "creating %s: %+v" [ArgId (OfManagedEnvironment id); ArgError err])));;
  SetID (OfManagedEnvironment id);;
  return_ None.

(** The state [Read] assembles from a successful Get. *)
Definition Read_state (id : ManagedEnvironmentId) (existing_Model : option ManagedEnvironment)
  (prior : ContainerAppEnvironmentModel) : ContainerAppEnvironmentModel :=
  let state := zero_Model in
  let state :=
    match existing_Model with
    | None => state
    | Some model =>
      let state := set_Name (Env_ManagedEnvironmentName id) state in
      let state := set_ResourceGroup (Env_ResourceGroupName id) state in
      let state := set_Location (location_Normalize (Env_Location model)) state in
      let state := set_Tags (tags_Flatten (Env_Tags model)) state in
      match Env_Properties model with
      | None => state
      | Some props =>
        let state :=
          match VnetConfiguration_ props with
          | None => state
          | Some vnet =>
            let state :=
              set_InfrastructureSubnetId (From_string (Vnet_InfrastructureSubnetId vnet)) state in
            let state :=
              set_InternalLoadBalancerEnabled (From_bool (Vnet_Internal vnet)) state in
            let state := set_DockerBridgeCidr (From_string (Vnet_DockerBridgeCidr vnet)) state in
            let state :=
              set_PlatformReservedCidr (From_string (Vnet_PlatformReservedCidr vnet)) state in
            set_PlatformReservedDnsIP (From_string (Vnet_PlatformReservedDnsIP vnet)) state
          end in
        let state := set_ZoneRedundant (From_bool (Props_ZoneRedundant props)) state in
        let state := set_StaticIP (From_string (Props_StaticIP props)) state in
        let state := set_DefaultDomain (From_string (Props_DefaultDomain props)) state in
        let state :=
          set_WorkloadProfiles (FlattenWorkloadProfiles (Props_WorkloadProfiles props)) state in
        match AppLogsConfiguration_ props ≫= Destination with
        | Some destination =>
          let state := set_LogDestination destination state in
          if String.eqb (LogDestination state) LogDestinationLogAnalytics then
            (* the workspace cannot be read back: taken from the configuration *)
            if String.eqb (LogAnalyticsWorkspaceId prior) "" then state
            else set_LogAnalyticsWorkspaceId (LogAnalyticsWorkspaceId prior) state
          else state
        | None => set_LogDestination LogDestinationNone state
        end
      end
    end in
  (* the connection string is sensitive and not returned by the API *)
  if String.eqb (DaprApplicationInsightsConnectionString prior) "" then state
  else set_DaprApplicationInsightsConnectionString
         (DaprApplicationInsightsConnectionString prior) state.

Definition Read : M ResourceMetaData (option error) Empty_set :=
  metadata ← get;
  match ParseManagedEnvironmentID (ResourceData_Id metadata) with
  | inl err => return_ (Some err)
  | inr id =>
    '(existing, err) ← client_Get id;
    if_err err (fun err =>
      when (WasNotFound (HttpResponse existing))
        (gone ← MarkAsGone with_Gone (OfManagedEnvironment id); return_ gone);;
      return_ (Some (Errorf "reading %s: %+v" [ArgId (OfManagedEnvironment id); ArgError err])));;
    let state := Read_state id (Model existing) (ResourceData metadata) in
    err ← Encode state;
    if_err err (fun err => return_ (Some (Errorf "encoding: %+v" [ArgError err])));;
    return_ None
  end.

Definition Delete : M ResourceMetaData (option error) Empty_set :=
  metadata ← get;
  match ParseManagedEnvironmentID (ResourceData_Id metadata) with
  | inl err => return_ (Some err)
  | inr id =>
    err ← client_DeleteThenPoll id;
    if_err err (fun err =>
      return_ (Some (Errorf "deleting %s: %+v" [ArgId (OfManagedEnvironment id); ArgError err])));;
    return_ None
  end.

(** The destination [Update] works with: an unset [log_destination] means
    log analytics when a workspace is configured and none otherwise. *)
Definition desired_LogDestination (state : ContainerAppEnvironmentModel)
  : ContainerAppEnvironmentModel :=
  if String.eqb (LogDestination state) LogDestinationMissing then
    if String.eqb (LogAnalyticsWorkspaceId state) "" then
      set_LogDestination LogDestinationNone state
    else
      set_LogDestination LogDestinationLogAnalytics state
  else state.

(** The destination the remote representation has. *)
Definition remote_LogDestination (appLogs : option AppLogsConfiguration) : string :=
  match appLogs with
  | Some appLogs =>
    match Destination appLogs with
    | Some destination => destination
    | None => LogDestinationNone
    end
  | None => LogDestinationNone
  end.

Definition Update : M ResourceMetaData (option error) Empty_set :=
  metadata ← get;
  match ParseManagedEnvironmentID (ResourceData_Id metadata) with
  | inl err => return_ (Some err)
  | inr id =>
    '(err, state) ← Decode;
    if_err err (fun err => return_ (Some (Errorf "decoding: %+v" [ArgError err])));;
    '(existing, err) ← client_Get id;
    if_err err (fun err =>
      return_ (Some (Errorf "reading %s: %+v" [ArgId (OfManagedEnvironment id); ArgError err])));;
    existing_Model ←
      (if HasChange metadata "tags" then
         model ← deref (Model existing);
         mret (Some (set_Env_Tags (tags_Expand (Tags state)) model))
       else mret (Model existing));
    let state := desired_LogDestination state in
    model ← deref existing_Model;
    properties ← deref (Env_Properties model);
    let appLogDestination := remote_LogDestination (AppLogsConfiguration_ properties) in
    appLogs ←
      (if String.eqb (LogDestination state) appLogDestination then
         if String.eqb (LogDestination state) LogDestinationLogAnalytics then
           (* not updatable, and the read does not return the key: removed *)
           mret None
         else
           mret None
       else if String.eqb (LogDestination state) LogDestinationNone then
         mret (Some {| Destination := None; LogAnalyticsConfiguration_ := None |})
       else
         '(appLogsFromState, err) ← call (constructAppLogsConfigurationFromModel id state);
         if_err err (fun err => return_ (Some err));;
         mret appLogsFromState);
    let model :=
      set_Env_Properties (Some (set_AppLogsConfiguration appLogs properties)) model in
    err ← client_CreateOrUpdateThenPoll id model;
    if_err err (fun err =>
      return_ (Some (Errorf "updating %s: %+v" [ArgId (OfManagedEnvironment id); ArgError err])));;
    return_ None
  end.

(** What [Update] hands to create-or-update-and-poll, field by field: the
    re-read model, with the tags of the configuration when the host reports
    them changed, and with [appLogs] as its logs configuration. *)
Definition Update_input (md : ResourceMetaData) (model : ManagedEnvironment)
  (properties : ManagedEnvironmentProperties) (appLogs : option AppLogsConfiguration)
  : ManagedEnvironment :=
  {| Env_Location := Env_Location model;
     Env_Name := Env_Name model;
     Env_Properties := Some
       {| AppLogsConfiguration_ := appLogs;
          DaprAIConnectionString := DaprAIConnectionString properties;
          Props_DefaultDomain := Props_DefaultDomain properties;
          Props_StaticIP := Props_StaticIP properties;
          VnetConfiguration_ := VnetConfiguration_ properties;
          Props_WorkloadProfiles := Props_WorkloadProfiles properties;
          Props_ZoneRedundant := Props_ZoneRedundant properties |};
     Env_Tags :=
       if HasChange md "tags" then tags_Expand (Tags (ResourceData md)) else Env_Tags model |}.

(** The request that switches application logs off: it carries a logs
    configuration without destination (the [none] branch of [Update]). *)
Definition clears_AppLogs (input : ManagedEnvironment) : Prop :=
  exists properties appLogs,
    Env_Properties input = Some properties ∧
    AppLogsConfiguration_ properties = Some appLogs ∧
    Destination appLogs = None.

(** The request sends a logs configuration again. *)
Definition resends_AppLogs (input : ManagedEnvironment) : Prop :=
  exists properties appLogs,
    Env_Properties input = Some properties ∧
    AppLogsConfiguration_ properties = Some appLogs.

(** How a lifecycle function ends after its last remote call answered. *)
Definition wrapped (format : string) (id : ManagedEnvironmentId) (answer : option error)
  : option error :=
  match answer with
  | Some cause => Some (Errorf format [ArgId (OfManagedEnvironment id); ArgError cause])
  | None => None
  end.

(** The calls to the log analytics workspace client. *)
Definition is_workspace_call (c : Call) : bool :=
  match c with
  | Workspaces_Get _ | Workspaces_SharedKeysGetSharedKeys _ => true
  | _ => false
  end.

End Adapter.

End ContainerAppEnvironment.

(** ** The managed HSM URI helper *)

Module strings.

(** Go's [strings.HasPrefix]. *)
Fixpoint HasPrefix (s prefix : string) {struct prefix} : bool :=
  match prefix, s with
  | EmptyString, _ => true
  | String p prefix', String c s' => Ascii.eqb p c && HasPrefix s' prefix'
  | String _ _, EmptyString => false
  end.

(** [s[n:]] *)
Fixpoint drop (n : nat) (s : string) : string :=
  match n, s with
  | O, _ => s
  | S n', String _ s' => drop n' s'
  | S _, EmptyString => EmptyString
  end.

(** Go's [strings.Cut]: [s] around the first instance of [sep]; when [sep]
    does not occur, [s], the empty string and false. *)
Fixpoint Cut (s sep : string) : string * string * bool :=
  if HasPrefix s sep then (EmptyString, drop (String.length sep) s, true)
  else
    match s with
    | EmptyString => (EmptyString, EmptyString, false)
    | String c s' =>
      let '(before, after, found) := Cut s' sep in
      if found then (String c before, after, true) else (s, EmptyString, false)
    end.

(** The character [c] occurs in [s]. *)
Fixpoint Contains (c : ascii) (s : string) : bool :=
  match s with
  | EmptyString => false
  | String c' s' => Ascii.eqb c' c || Contains c s'
  end.

End strings.

Module ManagedHSM.

(** [environments.Environment] of the SDK, reduced to what the helper asks of
    it: [env.ManagedHSM.DomainSuffix()] answers a suffix or not found. *)
Record Environment := {
  ManagedHSM_DomainSuffix : option string }.

Definition DomainSuffixForManagedHSM (env : Environment) : string :=
  match ManagedHSM_DomainSuffix env with
  | Some ret => ret
  | None => "managedhsm.azure.net"
  end.

Section Helper.

(** Go's [net/url]: the parsed URL, [url.Parse] and [URL.Hostname]. *)
Variable URL : Type.
Variable url_Parse : string -> error + URL.
Variable Hostname : URL -> string.

Definition IsManagedHSMURI (env : Environment) (uri : string)
  : bool * option error * string * string :=
  match url_Parse uri with
  | inl err =>
    (false, Some (Errorf "Error parsing %s as URI: %+v" [ArgString uri; ArgError err]),
     ""%string, ""%string)
  | inr url =>
    let '(instanceName, domainSuffix, found) := strings.Cut (Hostname url) "." in
    if negb found then
      (false,
       Some (Errorf "Key vault URI hostname does not have the right number of components: %s"
               [ArgString (Hostname url)]),
       ""%string, ""%string)
    else
      let expectedDomainSuffix := DomainSuffixForManagedHSM env in
      if String.eqb domainSuffix expectedDomainSuffix then
        (true, None, instanceName, domainSuffix)
      else
        (false, None, ""%string, ""%string)
  end.

End Helper.

End ManagedHSM.

(** ** The identifier codec

    Modelled from the spec: the firewall policy identifier functions
    ([NewFirewallPolicyID], [ID], [FirewallPolicyID]) are not among the
    sources, only their tests are.  The spec describes the codec: an
    identifier is a path of fixed literal tokens and variable segments;
    [Format] writes each segment after a separator, with the literal tokens
    in their canonical spelling; [Parse] fails when the string is empty,
    lacks the leading separator, misses a segment, has an empty value for a
    segment, or has a literal token that does not match exactly. *)

Module resourceid.

Inductive Segment :=
| StaticSegment (token : string)
| UserSpecifiedSegment (name : string).

(** Modelled from the spec: formatting of the components along a fixed shape. *)
Fixpoint Format (shape : list Segment) (components : list string) : string :=
  match shape with
  | [] => ""
  | StaticSegment token :: shape' => "/" +:+ token +:+ Format shape' components
  | UserSpecifiedSegment _ :: shape' =>
    match components with
    | value :: components' => "/" +:+ value +:+ Format shape' components'
    | [] => "/" +:+ Format shape' []
    end
  end.

(** [strings.Split(s, "/")] *)
Fixpoint Split (s : string) : list string :=
  match s with
  | EmptyString => [EmptyString]
  | String c s' =>
    if Ascii.eqb c "/" then EmptyString :: Split s'
    else
      match Split s' with
      | part :: parts => String c part :: parts
      | [] => [String c EmptyString]
      end
  end.

(** Modelled from the spec: the path segments against the shape. *)
Fixpoint match_segments (shape : list Segment) (parts : list string) : option (list string) :=
  match shape, parts with
  | [], [] => Some []
  | StaticSegment token :: shape', part :: parts' =>
    if String.eqb part token then match_segments shape' parts' else None
  | UserSpecifiedSegment _ :: shape', part :: parts' =>
    if String.eqb part "" then None
    else
      match match_segments shape' parts' with
      | Some values => Some (part :: values)
      | None => None
      end
  | _, _ => None
  end.

(** Modelled from the spec: parsing of an identifier string along a shape. *)
Definition Parse (shape : list Segment) (input : string) : option (list string) :=
  match Split input with
  | EmptyString :: parts => match_segments shape parts
  | _ => None
  end.

(** A component is valid when it is not empty and holds no separator. *)
Definition valid_component (value : string) : bool :=
  negb (String.eqb value "") && negb (strings.Contains "/" value).

Definition user_segments (shape : list Segment) : nat :=
  List.length (List.filter (fun s => match s with UserSpecifiedSegment _ => true | _ => false end)
                 shape).

Definition wf_shape (shape : list Segment) : bool :=
  forallb (fun s => match s with
                    | StaticSegment token => negb (strings.Contains "/" token)
                    | UserSpecifiedSegment _ => true
                    end) shape.

Definition valid_components (shape : list Segment) (components : list string) : bool :=
  (List.length components =? user_segments shape) && forallb valid_component components.

(** The path segments [Format] writes, in order. *)
Fixpoint parts (shape : list Segment) (components : list string) : list string :=
  match shape with
  | [] => []
  | StaticSegment token :: shape' => token :: parts shape' components
  | UserSpecifiedSegment _ :: shape' =>
    match components with
    | value :: components' => value :: parts shape' components'
    | [] => EmptyString :: parts shape' []
    end
  end.

End resourceid.

Module FirewallPolicy.
Import resourceid.

Record FirewallPolicyId := {
  ResourceGroup : string;
  Name : string }.

Definition shape : list Segment :=
  [ StaticSegment "subscriptions"; UserSpecifiedSegment "subscriptionId";
    StaticSegment "resourceGroups"; UserSpecifiedSegment "resourceGroup";
    StaticSegment "providers"; StaticSegment "Microsoft.Network";
    StaticSegment "firewallPolicies"; UserSpecifiedSegment "name" ].

Definition NewFirewallPolicyID (resourceGroup name : string) : FirewallPolicyId :=
  {| ResourceGroup := resourceGroup; Name := name |}.

(** Modelled from the spec: [FirewallPolicyId.ID(subscriptionId)]. *)
Definition ID (id : FirewallPolicyId) (subscriptionId : string) : string :=
  Format shape [subscriptionId; ResourceGroup id; Name id].

(** Modelled from the spec: [FirewallPolicyID(input)]; [None] is the error. *)
Definition FirewallPolicyID (input : string) : option FirewallPolicyId :=
  match Parse shape input with
  | Some [_; resourceGroup; name] => Some {| ResourceGroup := resourceGroup; Name := name |}
  | _ => None
  end.

(** The table of [TestFirewallPolicyID]: input and the expected result. *)
Definition testData : list (string * option FirewallPolicyId) :=
  [ ("", None);
    ("/subscriptions/00000000-0000-0000-0000-000000000000", None);
    ("/subscriptions/00000000-0000-0000-0000-000000000000/resourceGroups/", None);
    ("/subscriptions/00000000-0000-0000-0000-000000000000/resourceGroups/group1/", None);
    ("/subscriptions/00000000-0000-0000-0000-000000000000/resourceGroups/group1/providers/Microsoft.Network/firewallPolicies", None);
    ("/subscriptions/00000000-0000-0000-0000-000000000000/resourceGroups/group1/providers/Microsoft.Network/foo/bar/firewallPolicies/policy1", None);
    ("subscriptions/00000000-0000-0000-0000-000000000000/resourceGroups/group1/providers/Microsoft.Network/firewallPolicies/policy1", None);
    ("/subscriptions/00000000-0000-0000-0000-000000000000/resourceGroups/group1/providers/Microsoft.Network/firewallPolicies/policy1",
     Some {| ResourceGroup := "group1"; Name := "policy1" |}) ].

End FirewallPolicy.

(** ** The cache rule name cases of the validation test *)

Module NameValidation.

(** The table of [TestAccContainerRegistryCacheRuleName_validation]: the
    value and the number of errors the test expects. *)
Definition cases : list (string * nat) :=
  [ ("", 2);
    ("four", 1);
    ("5five", 0);
    ("hello-world", 0);
    ("hello-world-foo-bar-12345", 0);
    ("hello_world", 1);
    ("helloWorld", 0);
    ("helloworld12", 0);
    ("hello@world", 1);
    ("qfvbdsbvipqdbwsbddbdcwqffewsqwcdw21ddwqwd3324120", 0);
    ("qfvbdsbvipqdbwsbddbdcwqffewsqwcdw21ddwqwd33241202", 0);
    ("qfvbdsbvipqdbwsbddbdcwqfjjfewsqwcdw21ddwqwd3324120", 1) ].

(** The number of errors a validator reports for a value. *)
Definition ErrCount (validate : pluginsdk.SchemaValidateFunc) (value : string) : nat :=
  List.length (snd (validate value "azurerm_container_registry_cache_rule")).

(** The validator the schema declares for a field, if any. *)
Definition validator_of (schema : gmap string pluginsdk.Schema) (field : string)
  : option pluginsdk.SchemaValidateFunc :=
  schema !! field ≫= pluginsdk.ValidateFunc.

End NameValidation.

(** ** Concrete collaborators

    One instance of each collaborator the adapters are stated over, for
    running the adapters on concrete requests. *)

Module Example.
Import ids resourceid.

Definition registry_shape : list Segment :=
  [ StaticSegment "subscriptions"; UserSpecifiedSegment "subscriptionId";
    StaticSegment "resourceGroups"; UserSpecifiedSegment "resourceGroupName";
    StaticSegment "providers"; StaticSegment "Microsoft.ContainerRegistry";
    StaticSegment "registries"; UserSpecifiedSegment "registryName" ].

Definition cacheRule_shape : list Segment :=
  registry_shape ++ [ StaticSegment "cacheRules"; UserSpecifiedSegment "cacheRuleName" ].

Definition managedEnvironment_shape : list Segment :=
  [ StaticSegment "subscriptions"; UserSpecifiedSegment "subscriptionId";
    StaticSegment "resourceGroups"; UserSpecifiedSegment "resourceGroupName";
    StaticSegment "providers"; StaticSegment "Microsoft.App";
    StaticSegment "managedEnvironments"; UserSpecifiedSegment "managedEnvironmentName" ].

Definition workspace_shape : list Segment :=
  [ StaticSegment "subscriptions"; UserSpecifiedSegment "subscriptionId";
    StaticSegment "resourceGroups"; UserSpecifiedSegment "resourceGroupName";
    StaticSegment "providers"; StaticSegment "Microsoft.OperationalInsights";
    StaticSegment "workspaces"; UserSpecifiedSegment "workspaceName" ].

Definition parse_as {A} (shape : list Segment) (build : list string -> option A)
  (input : string) : error + A :=
  match Parse shape input ≫= build with
  | Some id => inr id
  | None => inl (LocalError "parsing the identifier")
  end.

Definition idFunctions : IdFunctions := {|
  ParseRegistryID := parse_as registry_shape (fun values =>
    match values with
    | [s; g; r] => Some (mkRegistryId s g r)
    | _ => None
    end);
  ParseCacheRuleID := parse_as cacheRule_shape (fun values =>
    match values with
    | [s; g; r; c] => Some (mkCacheRuleId s g r c)
    | _ => None
    end);
  ParseManagedEnvironmentID := parse_as managedEnvironment_shape (fun values =>
    match values with
    | [s; g; n] => Some (mkManagedEnvironmentId s g n)
    | _ => None
    end);
  ParseWorkspaceID := parse_as workspace_shape (fun values =>
    match values with
    | [s; g; n] => Some (mkWorkspaceId s g n)
    | _ => None
    end);
  ID := fun id =>
    match id with
    | OfRegistry (mkRegistryId s g r) => Format registry_shape [s; g; r]
    | OfCacheRule (mkCacheRuleId s g r c) => Format cacheRule_shape [s; g; r; c]
    | OfManagedEnvironment (mkManagedEnvironmentId s g n) =>
      Format managedEnvironment_shape [s; g; n]
    | OfWorkspace (mkWorkspaceId s g n) => Format workspace_shape [s; g; n]
    end;
  ValidateRegistryID := fun v k =>
    match Parse registry_shape v with
    | Some _ => ([], [])
    | None => ([], [Errorf "parsing %q as a registry id" [ArgString v]])
    end |}.

#[local] Existing Instance idFunctions.

Definition subscription : string := "12345678-1234-5678-1234-123456789012".

Definition registryId : RegistryId := mkRegistryId subscription "group1" "testacccr123".

Definition cacheRuleId : CacheRuleId :=
  mkCacheRuleId subscription "group1" "testacccr123" "testacc-cr-cache-rule-123".

Definition cacheRule : ContainerRegistryCacheRule.CacheRule :=
  {| ContainerRegistryCacheRule.Name := Some "testacc-cr-cache-rule-123"%string;
     ContainerRegistryCacheRule.Properties := Some
       {| ContainerRegistryCacheRule.SourceRepository := Some "docker.io/hello-world"%string;
          ContainerRegistryCacheRule.TargetRepository := Some "target"%string |} |}.

Definition ok {T} (model : T) : GetOperationResponse T * option error :=
  ({| HttpResponse := Some {| StatusCode := 200 |}; Model := Some model |}, None).

Definition notFound {T} : GetOperationResponse T * option error :=
  ({| HttpResponse := Some {| StatusCode := 404 |}; Model := None |},
   Some (RemoteError 404 "ResourceNotFound")).

Definition serverError {T} : GetOperationResponse T * option error :=
  ({| HttpResponse := Some {| StatusCode := 500 |}; Model := None |},
   Some (RemoteError 500 "InternalServerError")).

(** A registry client that finds the registry, and a cache rule client that
    answers every Get with [get] and every delete-and-poll with [delete]. *)
Definition cacheRuleClient
  (get : GetOperationResponse ContainerRegistryCacheRule.CacheRule * option error)
  (delete : option error) : ContainerRegistryCacheRule.Client :=
  {| ContainerRegistryCacheRule.Account_SubscriptionId := subscription;
     ContainerRegistryCacheRule.registries_Get := fun _ => ok tt;
     ContainerRegistryCacheRule.cacheRules_Get := fun _ => get;
     ContainerRegistryCacheRule.cacheRules_CreateThenPoll := fun _ _ => None;
     ContainerRegistryCacheRule.cacheRules_UpdateThenPoll := fun _ _ => None;
     ContainerRegistryCacheRule.cacheRules_DeleteThenPoll := fun _ => delete |}.

(** The configuration of the acceptance test, before the resource has an
    identifier. *)
Definition cacheRuleConfig : gmap string ContainerRegistryCacheRule.Value :=
  {[ "name" := ContainerRegistryCacheRule.VString "testacc-cr-cache-rule-123";
     "container_registry_id" := ContainerRegistryCacheRule.VString (ID (OfRegistry registryId));
     "source_repo" := ContainerRegistryCacheRule.VString "docker.io/hello-world";
     "target_repo" := ContainerRegistryCacheRule.VString "target" ]}.

Definition cacheRuleMetaData (c : ContainerRegistryCacheRule.Client) (id : string)
  : ContainerRegistryCacheRule.ResourceMetaData :=
  {| ContainerRegistryCacheRule.client := c;
     ContainerRegistryCacheRule.ResourceData_Id := id;
     ContainerRegistryCacheRule.ResourceData_fields := cacheRuleConfig;
     ContainerRegistryCacheRule.Gone := false;
     ContainerRegistryCacheRule.Calls := [];
     ContainerRegistryCacheRule.Sets := [] |}.

Definition helpers : ContainerAppEnvironment.Helpers := {|
  ContainerAppEnvironment.WorkloadProfileModel := string;
  ContainerAppEnvironment.WorkloadProfile := string;
  ContainerAppEnvironment.ExpandWorkloadProfiles := fun profiles => Some profiles;
  ContainerAppEnvironment.FlattenWorkloadProfiles := default [];
  ContainerAppEnvironment.location_Normalize := fun location => location |}.

#[local] Existing Instance helpers.

Definition environmentId : ManagedEnvironmentId :=
  mkManagedEnvironmentId subscription "group1" "env1".

(** A configuration of the environment with the given log settings. *)
Definition environmentConfig (logDestination logAnalyticsWorkspaceId : string)
  : ContainerAppEnvironment.ContainerAppEnvironmentModel :=
  ContainerAppEnvironment.mkModel "env1" "group1" "westeurope" ""
    logDestination logAnalyticsWorkspaceId "" false false {[ "env" := "test"%string ]} []
    "" "" "" "" "".

(** The environment as the remote service holds it, with the given logs
    configuration. *)
Definition remoteEnvironment (appLogs : option ContainerAppEnvironment.AppLogsConfiguration)
  : ContainerAppEnvironment.ManagedEnvironment :=
  {| ContainerAppEnvironment.Env_Location := "westeurope";
     ContainerAppEnvironment.Env_Name := Some "env1"%string;
     ContainerAppEnvironment.Env_Properties := Some
       {| ContainerAppEnvironment.AppLogsConfiguration_ := appLogs;
          ContainerAppEnvironment.DaprAIConnectionString := None;
          ContainerAppEnvironment.Props_DefaultDomain := Some "env1.westeurope.example"%string;
          ContainerAppEnvironment.Props_StaticIP := Some "10.0.0.4"%string;
          ContainerAppEnvironment.VnetConfiguration_ := None;
          ContainerAppEnvironment.Props_WorkloadProfiles := None;
          ContainerAppEnvironment.Props_ZoneRedundant := Some false |};
     ContainerAppEnvironment.Env_Tags := Some {[ "env" := "test"%string ]} |}.

(** The logs configuration the remote service reports for a destination: the
    shared key is never returned. *)
Definition remoteAppLogs (destination : string) : ContainerAppEnvironment.AppLogsConfiguration :=
  {| ContainerAppEnvironment.Destination := Some destination;
     ContainerAppEnvironment.LogAnalyticsConfiguration_ :=
       if String.eqb destination ContainerAppEnvironment.LogDestinationLogAnalytics
       then Some {| ContainerAppEnvironment.CustomerId := Some "customer"%string;
                    ContainerAppEnvironment.SharedKey := None |}
       else None |}.

Definition workspaceId : string :=
  ID (OfWorkspace (mkWorkspaceId subscription "group1" "workspace1")).

(** An environment client that answers every Get with [get] and every
    delete-and-poll with [delete]; the workspace exists and has a key. *)
Definition environmentClient
  (get : GetOperationResponse ContainerAppEnvironment.ManagedEnvironment * option error)
  (delete : option error) : ContainerAppEnvironment.Client :=
  {| ContainerAppEnvironment.Account_SubscriptionId := subscription;
     ContainerAppEnvironment.managedEnvironments_Get := fun _ => get;
     ContainerAppEnvironment.managedEnvironments_CreateOrUpdateThenPoll := fun _ _ => None;
     ContainerAppEnvironment.managedEnvironments_DeleteThenPoll := fun _ => delete;
     ContainerAppEnvironment.workspaces_Get := fun _ =>
       ok {| ContainerAppEnvironment.Workspace_Properties := Some
               {| ContainerAppEnvironment.Workspace_CustomerId := Some "customer"%string |} |};
     ContainerAppEnvironment.workspaces_SharedKeysGetSharedKeys := fun _ =>
       ok {| ContainerAppEnvironment.PrimarySharedKey := Some "key"%string |} |}.

Definition environmentMetaData (c : ContainerAppEnvironment.Client) (id : string)
  (config : ContainerAppEnvironment.ContainerAppEnvironmentModel) (tagsChanged : bool)
  : ContainerAppEnvironment.ResourceMetaData :=
  ContainerAppEnvironment.mkMetaData c id config None None
    (fun field => tagsChanged && String.eqb field "tags") false [].

End Example.

Module CR := ContainerRegistryCacheRule.
Module CAE := ContainerAppEnvironment.


(** ** Concrete requests *)

Module Scenario.
Import ids Example.

(** Create of the acceptance test's cache rule while the rule exists. *)
Definition cacheRule_exists : CR.ResourceMetaData :=
  cacheRuleMetaData (cacheRuleClient (ok cacheRule) None) "".

(** A persisted cache rule whose Get answers [get] and whose
    delete-and-poll answers [delete]. *)
Definition cacheRule_persisted
  (get : GetOperationResponse CR.CacheRule * option error) (delete : option error)
  : CR.ResourceMetaData :=
  cacheRuleMetaData (cacheRuleClient get delete) (@ID idFunctions (OfCacheRule cacheRuleId)).

(** Create of an environment while it exists. *)
Definition environment_exists : @CAE.ResourceMetaData helpers :=
  environmentMetaData (environmentClient (ok (remoteEnvironment None)) None) ""
    (environmentConfig "" "") false.

(** A persisted environment with the given configuration, whose Get answers
    [get] and whose delete-and-poll answers [delete]. *)
Definition environment_persisted
  (get : GetOperationResponse (@CAE.ManagedEnvironment helpers) * option error)
  (delete : option error) (config : @CAE.ContainerAppEnvironmentModel helpers)
  : @CAE.ResourceMetaData helpers :=
  environmentMetaData (environmentClient get delete)
    (@ID idFunctions (OfManagedEnvironment environmentId)) config false.

(** A persisted cache rule whose configuration now names a credential set. *)
Definition cacheRule_update : CR.ResourceMetaData :=
  CR.with_field "credential_set_id"
    (CR.VString "/subscriptions/12345678-1234-5678-1234-123456789012/resourceGroups/group1/providers/Microsoft.ContainerRegistry/registries/testacccr123/credentialSets/cs1")
    (cacheRule_persisted (ok cacheRule) None).

End Scenario.

(** ** The acceptance test's existence check of the cache rule *)

Module ContainerRegistryCacheRuleTest.
Import ids.

Section Check.
Context `{IdFunctions}.

(** [ContainerRegistryCacheRuleResource.Exists]: the instance state's ID is
    the identifier string of the metadata. *)
Definition Exists : M CR.ResourceMetaData (option bool * option error) Empty_set :=
  state ← get;
  match ParseCacheRuleID (CR.ResourceData_Id state) with
  | inl err => return_ (None, Some err)
  | inr id =>
    '(resp, err) ← CR.cacheRulesClient_Get id;
    if_err err (fun err =>
      return_ (None, Some (Errorf "retrieving %s: %+v" [ArgId (OfCacheRule id); ArgError err])));;
    return_ (Some (bool_decide (Model resp <> None)), None)
  end.

End Check.

End ContainerRegistryCacheRuleTest.

(** ** The plan-time check of the container app environment *)

Module ContainerAppEnvironmentDiff.
Import ids.

(** A value of type [interface{}] as [ResourceDiff.GetOk] hands it out. *)
Inductive any :=
| AnyString (s : string)
| AnyBool (b : bool)
| AnyNil.

(** [v != c] for an interface value [v] and a string constant [c]: they are
    equal only when [v] holds that string. *)
Definition any_neq_string (v : any) (c : string) : bool :=
  match v with
  | AnyString s => negb (String.eqb s c)
  | _ => true
  end.

Section Diff.
Context `{CAE.Helpers}.

(** The metadata of a plan: what [DecodeDiff] answers and what
    [ResourceDiff.GetOk] answers for a field. *)
Record DiffMetaData := {
  ResourceDiff : CAE.ContainerAppEnvironmentModel;
  DecodeDiffError : option error;
  ResourceDiff_GetOk : string -> any * bool }.

(** [metadata.DecodeDiff(&model)] *)
Definition DecodeDiff {R} : M DiffMetaData R (option error * CAE.ContainerAppEnvironmentModel) :=
  metadata ← get;
  match DecodeDiffError metadata with
  | Some err => mret (Some err, CAE.zero_Model)
  | None => mret (None, ResourceDiff metadata)
  end.

Definition CustomizeDiff : M DiffMetaData (option error) Empty_set :=
  metadata ← get;
  '(err, model) ← DecodeDiff;
  if_err err (fun err => return_ (Some (Errorf "DecodeDiff: %+v" [ArgError err])));;
  let '(log_destination, exists_) := ResourceDiff_GetOk metadata "log_destination" in
  when (exists_
        && negb (String.eqb (CAE.LogAnalyticsWorkspaceId model) "")
        && any_neq_string log_destination CAE.LogDestinationLogAnalytics)
    (return_ (Some (Errorf "log_analytics_workspace_id is set for %s but log_destination is set to '%s' instead of 'log-analytics'"
                      [ArgString (CAE.Name model); ArgString (CAE.LogDestination model)])));;
  return_ None.

End Diff.

End ContainerAppEnvironmentDiff.

(** ** Requests that follow one another *)

Module Sequence.

(** The metadata of a later request on the same resource: the state as the
    earlier request left it, with a client that answers as the remote service
    does by then. *)
Definition later (c : CR.Client) (md : CR.ResourceMetaData) : CR.ResourceMetaData :=
  {| CR.client := c;
     CR.ResourceData_Id := CR.ResourceData_Id md;
     CR.ResourceData_fields := CR.ResourceData_fields md;
     CR.Gone := CR.Gone md;
     CR.Calls := CR.Calls md;
     CR.Sets := CR.Sets md |}.

(** The same request with another configuration. *)
Definition configured (fields : gmap string CR.Value) (md : CR.ResourceMetaData)
  : CR.ResourceMetaData :=
  {| CR.client := CR.client md;
     CR.ResourceData_Id := CR.ResourceData_Id md;
     CR.ResourceData_fields := fields;
     CR.Gone := CR.Gone md;
     CR.Calls := CR.Calls md;
     CR.Sets := CR.Sets md |}.

End Sequence.

(** Unfolds the statement monad, so that a function body runs on a state. *)
Ltac unfold_go :=
  cbv beta iota delta
    [mbind M_bind bind get modify mret M_ret ret return_ panic if_err when call run deref
     MarkAsGone ResourceRequiresImport].

(** * Properties of the adapters *)

(** ** The unimplemented credential set *)

(** C8: every lifecycle function of the container registry credential set
    (Create, Read, Update, Delete), on every metadata, panics with
    "unimplemented" and leaves the metadata as it was; in particular it never
    returns, neither nil nor an error value. *)
Theorem credential_set_lifecycle_panics :
  forall (ResourceMetaData : Type) (metadata : ResourceMetaData),
    Forall (fun lifecycle : M ResourceMetaData (option error) Empty_set =>
              run lifecycle metadata = (Panicked "unimplemented", metadata) /\
              forall err metadata', run lifecycle metadata <> (Returned err, metadata'))
      [ ContainerRegistryCredentialSet.Create; ContainerRegistryCredentialSet.Read;
        ContainerRegistryCredentialSet.Update; ContainerRegistryCredentialSet.Delete ].
Proof.
  intros S md.
  repeat constructor; intros; discriminate.
Qed.

(** ** The cache rule adapter *)

Section CacheRuleTheory.
Import ids ContainerRegistryCacheRule.
Context `{IdFunctions}.

Lemma cache_rule_Create_existing (md : ResourceMetaData) raw name registryId registry
  existing err :
  ResourceData_fields md !! "container_registry_id" = Some (VString raw) ->
  ResourceData_fields md !! "name" = Some (VString name) ->
  ParseRegistryID raw = inr registryId ->
  registries_Get (client md) registryId = (registry, None) ->
  let id := NewCacheRuleID (Account_SubscriptionId (client md))
              (Registry_ResourceGroupName registryId) (Registry_RegistryName registryId) name in
  cacheRules_Get (client md) id = (existing, err) ->
  WasNotFound (HttpResponse existing) = false ->
  run Create md =
    (Returned (Some match err with
                    | None => ImportRequired ResourceType (OfCacheRule id)
                    | Some cause =>
                      Errorf "checking for presence of existing %s: %s"
                        [ArgId (OfCacheRule id); ArgError cause]
                    end),
     with_Call (CacheRules_Get id) (with_Call (Registries_Get registryId) md)).
Proof.
  intros Hraw Hname Hparse Hregistry id Hget Hfound.
  unfold Create, ResourceData_Get_string, registryClient_Get, cacheRulesClient_Get.
  unfold_go.
  rewrite Hraw, Hparse, Hregistry. cbn. rewrite Hname. fold id. cbn.
  rewrite Hget, Hfound. cbn.
  destruct err; reflexivity.
Qed.

Lemma cache_rule_Create_absent (md : ResourceMetaData) raw name targetRepo sourceRepo
  registryId registry existing err :
  ResourceData_fields md !! "container_registry_id" = Some (VString raw) ->
  ResourceData_fields md !! "name" = Some (VString name) ->
  ResourceData_fields md !! "target_repo" = Some (VString targetRepo) ->
  ResourceData_fields md !! "source_repo" = Some (VString sourceRepo) ->
  ParseRegistryID raw = inr registryId ->
  registries_Get (client md) registryId = (registry, None) ->
  let id := NewCacheRuleID (Account_SubscriptionId (client md))
              (Registry_ResourceGroupName registryId) (Registry_RegistryName registryId) name in
  cacheRules_Get (client md) id = (existing, err) ->
  WasNotFound (HttpResponse existing) = true ->
  Calls (snd (run Create md)) =
    Calls md ++ [Registries_Get registryId; CacheRules_Get id;
                 CacheRules_CreateThenPoll id
                   {| Name := Some name;
                      Properties := Some {| SourceRepository := Some sourceRepo;
                                            TargetRepository := Some targetRepo |} |}].
Proof.
  intros Hraw Hname Htarget Hsource Hparse Hregistry id Hget Hfound.
  unfold Create, ResourceData_Get_string, registryClient_Get, cacheRulesClient_Get,
    cacheRulesClient_CreateThenPoll, SetID.
  unfold_go.
  rewrite Hraw, Hparse, Hregistry. cbn. rewrite Hname. fold id. cbn.
  rewrite Hget, Hfound. cbn.
  destruct err; cbn; rewrite Htarget; cbn; rewrite Hsource; cbn;
    destruct (cacheRules_CreateThenPoll _ _ _); cbn;
    rewrite <- !app_assoc; reflexivity.
Qed.

Lemma cache_rule_Read_failure (md : ResourceMetaData) id resp cause :
  ParseCacheRuleID (ResourceData_Id md) = inr id ->
  cacheRules_Get (client md) id = (resp, Some cause) ->
  run Read md =
    if WasNotFound (HttpResponse resp)
    then (Returned None, with_Gone (with_Call (CacheRules_Get id) md))
    else (Returned (Some (Errorf "retrieving Container Registry Cache Rule %s: %+v"
                            [ArgId (OfCacheRule id); ArgError cause])),
          with_Call (CacheRules_Get id) md).
Proof.
  intros Hparse Hget.
  unfold Read, cacheRulesClient_Get. unfold_go.
  rewrite Hparse. cbn. rewrite Hget. cbn.
  destruct (WasNotFound (HttpResponse resp)); reflexivity.
Qed.

(** Every field [Read] sets is declared a string by the schema. *)
Lemma Arguments_string_fields :
  Forall (fun k => pluginsdk.Type_ <$> Arguments !! k = Some pluginsdk.TypeString)
    ["name"; "container_registry_id"; "source_repo"; "target_repo"; "credential_set_id"].
Proof. repeat constructor. Qed.

Lemma ResourceData_Set_run {R} (k : string) (v : Value) (md : ResourceMetaData) :
  pluginsdk.Type_ <$> Arguments !! k = Some pluginsdk.TypeString ->
  ResourceData_Set (R := R) k v md =
    match v with
    | VString s | VStringPtr (Some s) =>
      (Next None, with_field k (VString s) (with_Set k v md))
    | VStringPtr None => (Next None, without_field k (with_Set k v md))
    | VRegistryId _ =>
      (Next (Some (Errorf "%s: expected type 'string', got unconvertible type 'registries.RegistryId'"
                     [ArgString k])),
       with_Set k v md)
    end.
Proof.
  intros Htype. unfold ResourceData_Set. unfold_go. rewrite Htype.
  destruct v as [s|[s|]|registryId]; reflexivity.
Qed.

Lemma cache_rule_Read_found (md : ResourceMetaData) id resp :
  ParseCacheRuleID (ResourceData_Id md) = inr id ->
  cacheRules_Get (client md) id = (resp, None) ->
  exists md',
    run Read md = (Returned None, md') /\
    ResourceData_Id md' = ResourceData_Id md /\
    Gone md' = Gone md /\
    Calls md' = Calls md ++ [CacheRules_Get id] /\
    Sets md' =
      Sets md ++
      [("name", VString (CacheRule_CacheRuleName id));
       ("container_registry_id",
        VRegistryId (NewRegistryID (CacheRule_SubscriptionId id)
                       (CacheRule_SubscriptionId id) (CacheRule_RegistryName id)))] ++
      match Model resp ≫= Properties with
      | Some properties =>
        [("source_repo", VStringPtr (SourceRepository properties));
         ("target_repo", VStringPtr (TargetRepository properties))]
      | None => []
      end /\
    ResourceData_fields md' !! "name" = Some (VString (CacheRule_CacheRuleName id)) /\
    (match Model resp ≫= Properties with
     | Some properties =>
       ResourceData_fields md' !! "source_repo" = VString <$> SourceRepository properties /\
       ResourceData_fields md' !! "target_repo" = VString <$> TargetRepository properties
     | None =>
       ResourceData_fields md' !! "source_repo" = ResourceData_fields md !! "source_repo" /\
       ResourceData_fields md' !! "target_repo" = ResourceData_fields md !! "target_repo"
     end) /\
    forall field,
      field <> "name"%string -> field <> "source_repo"%string -> field <> "target_repo"%string ->
      ResourceData_fields md' !! field = ResourceData_fields md !! field.
Proof.
  intros Hparse Hget.
  pose proof Arguments_string_fields as Hfields.
  rewrite !Forall_cons in Hfields.
  destruct Hfields as (Hname & Hregistry & Hsource & Htarget & _).
  unfold Read, cacheRulesClient_Get. unfold_go.
  rewrite Hparse. cbn. rewrite Hget. cbn.
  rewrite (ResourceData_Set_run _ _ _ Hname).
  rewrite (ResourceData_Set_run _ _ _ Hregistry).
  destruct (Model resp) as [model|]; cbn; [destruct (Properties model) as [properties|]; cbn|].
  - rewrite (ResourceData_Set_run _ _ _ Hsource).
    destruct (SourceRepository properties) as [source|];
      rewrite (ResourceData_Set_run _ _ _ Htarget);
      destruct (TargetRepository properties) as [target|];
      eexists; (split; [reflexivity|]); cbn; rewrite <- ?app_assoc;
      repeat split; intros; simplify_map_eq; reflexivity.
  - eexists; (split; [reflexivity|]); cbn; rewrite <- ?app_assoc;
      repeat split; intros; simplify_map_eq; reflexivity.
  - eexists; (split; [reflexivity|]); cbn; rewrite <- ?app_assoc;
      repeat split; intros; simplify_map_eq; reflexivity.
Qed.

Lemma cache_rule_Update_run (md : ResourceMetaData) id :
  ParseCacheRuleID (ResourceData_Id md) = inr id ->
  let parameters := {| UpdateProperties := Some {| CredentialSetResourceId := None |} |} in
  run Update md =
    match cacheRules_UpdateThenPoll (client md) id parameters with
    | Some cause =>
      (Returned (Some (Errorf "updating %s: %+v" [ArgId (OfCacheRule id); ArgError cause])),
       with_Call (CacheRules_UpdateThenPoll id parameters) md)
    | None =>
      (Returned None,
       with_Id (ID (OfCacheRule id)) (with_Call (CacheRules_UpdateThenPoll id parameters) md))
    end.
Proof.
  intros Hparse parameters.
  unfold Update, cacheRulesClient_UpdateThenPoll, SetID. unfold_go.
  rewrite Hparse. cbn. fold parameters.
  destruct (cacheRules_UpdateThenPoll (client md) id parameters); reflexivity.
Qed.

Lemma cache_rule_Delete_run (md : ResourceMetaData) id :
  ParseCacheRuleID (ResourceData_Id md) = inr id ->
  run Delete md =
    (Returned match cacheRules_DeleteThenPoll (client md) id with
              | Some cause =>
                Some (Errorf "deleting Container Registry Cache Rule %s: %+v"
                        [ArgId (OfCacheRule id); ArgError cause])
              | None => None
              end,
     with_Call (CacheRules_DeleteThenPoll id) md).
Proof.
  intros Hparse.
  unfold Delete, cacheRulesClient_DeleteThenPoll. unfold_go.
  rewrite Hparse. cbn.
  destruct (cacheRules_DeleteThenPoll (client md) id); reflexivity.
Qed.

Lemma cache_rule_parse_failure (md : ResourceMetaData) err :
  ParseCacheRuleID (ResourceData_Id md) = inl err ->
  run Read md = (Returned (Some err), md) /\
  run Update md = (Returned (Some err), md) /\
  run Delete md = (Returned (Some err), md).
Proof.
  intros Hparse.
  unfold Read, Update, Delete. unfold_go.
  rewrite Hparse. auto.
Qed.

(** On a state whose stored values are strings, reading a field as a string
    does not panic. *)
Lemma ResourceData_Get_string_returns {R} (k : string) (md : ResourceMetaData) :
  string_fields md ->
  exists s, ResourceData_Get_string (R := R) k md = (Next s, md).
Proof.
  intros Hstrings. unfold ResourceData_Get_string. unfold_go.
  destruct (ResourceData_fields md !! k) as [v|] eqn:Hk; [|eexists; reflexivity].
  destruct (Hstrings k v Hk) as [s ->]. eexists; reflexivity.
Qed.

(** [Read] leaves a state whose stored values are strings: what [Set] does
    not store as a string it does not store. *)
Lemma cache_rule_Read_keeps_string_fields (md : ResourceMetaData) :
  string_fields md -> string_fields (snd (run Read md)).
Proof.
  intros Hstrings.
  destruct (ParseCacheRuleID (ResourceData_Id md)) as [err|id] eqn:Hparse.
  { destruct (cache_rule_parse_failure md err Hparse) as [-> _]. exact Hstrings. }
  destruct (cacheRules_Get (client md) id) as [resp [cause|]] eqn:Hget.
  { rewrite (cache_rule_Read_failure md id resp cause Hparse Hget).
    destruct (WasNotFound (HttpResponse resp)); destruct md; exact Hstrings. }
  destruct (cache_rule_Read_found md id resp Hparse Hget)
    as (md' & -> & _ & _ & _ & _ & Hname & Hrepos & Hframe).
  intros k v Hk. cbn [snd] in Hk.
  destruct (decide (k = "name"%string)) as [->|Hn].
  { rewrite Hname in Hk. injection Hk as <-. eexists; reflexivity. }
  destruct (decide (k = "source_repo"%string)) as [->|Hs].
  { destruct (Model resp ≫= Properties) as [properties|];
      destruct Hrepos as [Hsource _]; rewrite Hsource in Hk.
    - destruct (SourceRepository properties); [|discriminate].
      injection Hk as <-. eexists; reflexivity.
    - exact (Hstrings _ _ Hk). }
  destruct (decide (k = "target_repo"%string)) as [->|Ht].
  { destruct (Model resp ≫= Properties) as [properties|];
      destruct Hrepos as [_ Htarget]; rewrite Htarget in Hk.
    - destruct (TargetRepository properties); [|discriminate].
      injection Hk as <-. eexists; reflexivity.
    - exact (Hstrings _ _ Hk). }
  rewrite (Hframe k Hn Hs Ht) in Hk. exact (Hstrings _ _ Hk).
Qed.

End CacheRuleTheory.

(** ** The container app environment adapter *)

Section ContainerAppEnvironmentTheory.
Import ids ContainerAppEnvironment.
Context `{IdFunctions} `{Helpers}.

Lemma with_Call_client c (md : ResourceMetaData) : client (with_Call c md) = client md.
Proof. destruct md; reflexivity. Qed.

Lemma with_Call_Calls c (md : ResourceMetaData) : Calls (with_Call c md) = Calls md ++ [c].
Proof. destruct md; reflexivity. Qed.

Lemma with_Id_Calls v (md : ResourceMetaData) : Calls (with_Id v md) = Calls md.
Proof. destruct md; reflexivity. Qed.

Lemma env_Create_existing (md : ResourceMetaData) existing err :
  DecodeError md = None ->
  let id := NewManagedEnvironmentID (Account_SubscriptionId (client md))
              (ResourceGroup (ResourceData md)) (Name (ResourceData md)) in
  managedEnvironments_Get (client md) id = (existing, err) ->
  WasNotFound (HttpResponse existing) = false ->
  run Create md =
    (Returned (Some match err with
                    | None => ImportRequired ResourceType (OfManagedEnvironment id)
                    | Some cause =>
                      Errorf "checking for presence of existing %s: %+v"
                        [ArgId (OfManagedEnvironment id); ArgError cause]
                    end),
     with_Call (ManagedEnvironments_Get id) md).
Proof.
  intros Hdecode id Hget Hfound.
  unfold Create, Decode, client_Get. unfold_go.
  rewrite Hdecode. cbn. fold id. rewrite Hget, Hfound. cbn.
  destruct err; reflexivity.
Qed.

Lemma env_Create_absent (md : ResourceMetaData) existing err :
  DecodeError md = None ->
  let id := NewManagedEnvironmentID (Account_SubscriptionId (client md))
              (ResourceGroup (ResourceData md)) (Name (ResourceData md)) in
  managedEnvironments_Get (client md) id = (existing, err) ->
  WasNotFound (HttpResponse existing) = true ->
  LogDestination (ResourceData md) = LogDestinationNone ->
  exists input,
    Calls (snd (run Create md)) =
      Calls md ++ [ManagedEnvironments_Get id;
                   ManagedEnvironments_CreateOrUpdateThenPoll id input] /\
    Env_Name input = Some (Name (ResourceData md)) /\
    Env_Properties input ≫= AppLogsConfiguration_ = None.
Proof.
  intros Hdecode id Hget Hfound Hnone.
  unfold Create, Decode, client_Get, client_CreateOrUpdateThenPoll,
    constructAppLogsConfigurationFromModel, SetID.
  unfold_go.
  rewrite Hdecode. cbn. fold id. rewrite Hget, Hfound. cbn. rewrite Hnone. cbn.
  destruct err; cbn; rewrite !with_Call_client;
    match goal with
    | |- context [managedEnvironments_CreateOrUpdateThenPoll _ _ ?p] =>
      exists p; destruct (managedEnvironments_CreateOrUpdateThenPoll (client md) id p)
    end; cbn; rewrite ?with_Id_Calls, !with_Call_Calls, <- ?app_assoc; auto.
Qed.

Lemma env_Read_failure (md : ResourceMetaData) id existing cause :
  ParseManagedEnvironmentID (ResourceData_Id md) = inr id ->
  managedEnvironments_Get (client md) id = (existing, Some cause) ->
  run Read md =
    if WasNotFound (HttpResponse existing)
    then (Returned None, with_Gone (with_Call (ManagedEnvironments_Get id) md))
    else (Returned (Some (Errorf "reading %s: %+v"
                            [ArgId (OfManagedEnvironment id); ArgError cause])),
          with_Call (ManagedEnvironments_Get id) md).
Proof.
  intros Hparse Hget.
  unfold Read, client_Get. unfold_go.
  rewrite Hparse. cbn. rewrite Hget. cbn.
  destruct (WasNotFound (HttpResponse existing)); reflexivity.
Qed.

Lemma env_Delete_run (md : ResourceMetaData) id :
  ParseManagedEnvironmentID (ResourceData_Id md) = inr id ->
  run Delete md =
    (Returned (wrapped "deleting %s: %+v" id (managedEnvironments_DeleteThenPoll (client md) id)),
     with_Call (ManagedEnvironments_DeleteThenPoll id) md).
Proof.
  intros Hparse.
  unfold Delete, client_DeleteThenPoll. unfold_go.
  rewrite Hparse. cbn.
  destruct (managedEnvironments_DeleteThenPoll (client md) id); reflexivity.
Qed.

(** [Update] when the desired destination is the one the remote
    representation has: the logs configuration is removed from the request. *)
Lemma env_Update_same_destination (md : ResourceMetaData) id existing model properties :
  ParseManagedEnvironmentID (ResourceData_Id md) = inr id ->
  DecodeError md = None ->
  managedEnvironments_Get (client md) id = (existing, None) ->
  Model existing = Some model ->
  Env_Properties model = Some properties ->
  LogDestination (desired_LogDestination (ResourceData md)) =
    remote_LogDestination (AppLogsConfiguration_ properties) ->
  let input := Update_input md model properties None in
  run Update md =
    (Returned (wrapped "updating %s: %+v" id
                 (managedEnvironments_CreateOrUpdateThenPoll (client md) id input)),
     with_Call (ManagedEnvironments_CreateOrUpdateThenPoll id input)
       (with_Call (ManagedEnvironments_Get id) md)).
Proof.
  intros Hparse Hdecode Hget Hmodel Hprops Hsame input.
  unfold Update, Decode, client_Get, client_CreateOrUpdateThenPoll. unfold_go.
  rewrite Hparse. cbn. rewrite Hdecode. cbn. rewrite Hget. cbn. rewrite Hmodel.
  subst input. unfold Update_input.
  destruct model as [location name ? tags]; cbn in Hprops; subst.
  destruct (HasChange md "tags"); cbn;
    rewrite Hsame, String.eqb_refl; destruct properties;
    destruct (String.eqb _ LogDestinationLogAnalytics); cbn;
    rewrite !with_Call_client;
    match goal with
    | |- context [managedEnvironments_CreateOrUpdateThenPoll _ _ ?p] =>
      destruct (managedEnvironments_CreateOrUpdateThenPoll (client md) id p)
    end; reflexivity.
Qed.

(** [Update] when the desired destination is none and the remote
    representation has another: a logs configuration with no destination. *)
Lemma env_Update_to_none (md : ResourceMetaData) id existing model properties :
  ParseManagedEnvironmentID (ResourceData_Id md) = inr id ->
  DecodeError md = None ->
  managedEnvironments_Get (client md) id = (existing, None) ->
  Model existing = Some model ->
  Env_Properties model = Some properties ->
  LogDestination (desired_LogDestination (ResourceData md)) <>
    remote_LogDestination (AppLogsConfiguration_ properties) ->
  LogDestination (desired_LogDestination (ResourceData md)) = LogDestinationNone ->
  let input := Update_input md model properties
                 (Some {| Destination := None; LogAnalyticsConfiguration_ := None |}) in
  run Update md =
    (Returned (wrapped "updating %s: %+v" id
                 (managedEnvironments_CreateOrUpdateThenPoll (client md) id input)),
     with_Call (ManagedEnvironments_CreateOrUpdateThenPoll id input)
       (with_Call (ManagedEnvironments_Get id) md)).
Proof.
  intros Hparse Hdecode Hget Hmodel Hprops Hdiff Hnone input.
  apply String.eqb_neq in Hdiff.
  unfold Update, Decode, client_Get, client_CreateOrUpdateThenPoll. unfold_go.
  rewrite Hparse. cbn. rewrite Hdecode. cbn. rewrite Hget. cbn. rewrite Hmodel.
  subst input. unfold Update_input.
  destruct model as [location name ? tags]; cbn in Hprops; subst.
  destruct (HasChange md "tags"); cbn;
    rewrite Hdiff, Hnone; destruct properties; cbn;
    rewrite !with_Call_client;
    match goal with
    | |- context [managedEnvironments_CreateOrUpdateThenPoll _ _ ?p] =>
      destruct (managedEnvironments_CreateOrUpdateThenPoll (client md) id p)
    end; reflexivity.
Qed.

(** [Update] when the desired destination differs from the remote one and is
    not none: the logs configuration is the one constructed from the model;
    an error of that construction ends the update before any update call. *)
Lemma env_Update_other_destination (md : ResourceMetaData) id existing model properties
  appLogs err md' :
  ParseManagedEnvironmentID (ResourceData_Id md) = inr id ->
  DecodeError md = None ->
  managedEnvironments_Get (client md) id = (existing, None) ->
  Model existing = Some model ->
  Env_Properties model = Some properties ->
  LogDestination (desired_LogDestination (ResourceData md)) <>
    remote_LogDestination (AppLogsConfiguration_ properties) ->
  LogDestination (desired_LogDestination (ResourceData md)) <> LogDestinationNone ->
  run (constructAppLogsConfigurationFromModel id (desired_LogDestination (ResourceData md)))
    (with_Call (ManagedEnvironments_Get id) md) = (Returned (appLogs, err), md') ->
  let input := Update_input md model properties appLogs in
  run Update md =
    match err with
    | Some err => (Returned (Some err), md')
    | None =>
      (Returned (wrapped "updating %s: %+v" id
                   (managedEnvironments_CreateOrUpdateThenPoll (client md') id input)),
       with_Call (ManagedEnvironments_CreateOrUpdateThenPoll id input) md')
    end.
Proof.
  intros Hparse Hdecode Hget Hmodel Hprops Hdiff Hnone Hconstruct input.
  apply String.eqb_neq in Hdiff. apply String.eqb_neq in Hnone.
  unfold run in Hconstruct.
  unfold Update, Decode, client_Get, client_CreateOrUpdateThenPoll. unfold_go.
  rewrite Hparse. cbn. rewrite Hdecode. cbn. rewrite Hget. cbn. rewrite Hmodel.
  subst input. unfold Update_input.
  destruct model as [location name ? tags]; cbn in Hprops; subst.
  destruct (HasChange md "tags"); cbn;
    rewrite Hdiff, Hnone; destruct properties; cbn;
    destruct (constructAppLogsConfigurationFromModel _ _ _) as [[[]|r|msg] s];
    try discriminate; injection Hconstruct as -> ->;
    destruct err; cbn; try reflexivity;
    match goal with
    | |- context [managedEnvironments_CreateOrUpdateThenPoll _ _ ?p] =>
      destruct (managedEnvironments_CreateOrUpdateThenPoll (client md') id p)
    end; reflexivity.
Qed.

(** The construction of the logs configuration only talks to the workspace
    client. *)
Lemma constructAppLogsConfigurationFromModel_frame (md : ResourceMetaData) id model out md' :
  run (constructAppLogsConfigurationFromModel id model) md = (out, md') ->
  client md' = client md /\
  exists calls, Calls md' = Calls md ++ calls /\ forallb is_workspace_call calls = true.
Proof.
  unfold constructAppLogsConfigurationFromModel, logAnalyticsClient_Get,
    logAnalyticsClient_SharedKeysGetSharedKeys.
  unfold_go.
  intros Hrun.
  repeat (match type of Hrun with
          | context [if ?b then _ else _] => destruct b
          | context [match ?x with _ => _ end] =>
            lazymatch x with
            | context [match _ with _ => _ end] => fail
            | _ => destruct x eqn:?
            end
          end; cbn in Hrun);
    injection Hrun as <- <-;
    rewrite ?with_Call_client, ?with_Call_Calls; (split; [reflexivity|]);
    rewrite <- ?app_assoc; cbn;
    first [ (exists []; rewrite app_nil_r; split; reflexivity)
          | (eexists; split; [reflexivity|reflexivity]) ].
Qed.

(** A panic while the logs configuration is constructed is a panic of
    [Update]: no update call is issued. *)
Lemma env_Update_other_destination_panics (md : ResourceMetaData) id existing model
  properties msg md' :
  ParseManagedEnvironmentID (ResourceData_Id md) = inr id ->
  DecodeError md = None ->
  managedEnvironments_Get (client md) id = (existing, None) ->
  Model existing = Some model ->
  Env_Properties model = Some properties ->
  LogDestination (desired_LogDestination (ResourceData md)) <>
    remote_LogDestination (AppLogsConfiguration_ properties) ->
  LogDestination (desired_LogDestination (ResourceData md)) <> LogDestinationNone ->
  run (constructAppLogsConfigurationFromModel id (desired_LogDestination (ResourceData md)))
    (with_Call (ManagedEnvironments_Get id) md) = (Panicked msg, md') ->
  run Update md = (Panicked msg, md').
Proof.
  intros Hparse Hdecode Hget Hmodel Hprops Hdiff Hnone Hconstruct.
  apply String.eqb_neq in Hdiff. apply String.eqb_neq in Hnone.
  unfold run in Hconstruct.
  unfold Update, Decode, client_Get, client_CreateOrUpdateThenPoll. unfold_go.
  rewrite Hparse. cbn. rewrite Hdecode. cbn. rewrite Hget. cbn. rewrite Hmodel.
  destruct model as [location name ? tags]; cbn in Hprops; subst.
  destruct (HasChange md "tags"); cbn;
    rewrite Hdiff, Hnone; destruct properties; cbn;
    destruct (constructAppLogsConfigurationFromModel _ _ _) as [[[]|r|msg'] s];
    try discriminate; injection Hconstruct as -> ->; reflexivity.
Qed.

(** A logs configuration constructed without error for a destination other
    than none names that destination. *)
Lemma constructAppLogsConfigurationFromModel_destination (md : ResourceMetaData) id model
  appLogs md' :
  run (constructAppLogsConfigurationFromModel id model) md = (Returned (appLogs, None), md') ->
  LogDestination model <> LogDestinationNone ->
  exists configuration,
    appLogs = Some configuration /\ Destination configuration = Some (LogDestination model).
Proof.
  unfold constructAppLogsConfigurationFromModel, logAnalyticsClient_Get,
    logAnalyticsClient_SharedKeysGetSharedKeys.
  unfold_go.
  intros Hrun Hnone. apply String.eqb_neq in Hnone. rewrite Hnone in Hrun.
  destruct (String.eqb (LogDestination model) LogDestinationAzureMonitor) eqn:Hmonitor.
  { apply String.eqb_eq in Hmonitor. cbn in Hrun. injection Hrun as <- <-.
    eexists. split; [reflexivity|]. cbn. congruence. }
  destruct (String.eqb (LogDestination model) LogDestinationLogAnalytics) eqn:Hanalytics;
    [|cbn in Hrun; discriminate].
  apply String.eqb_eq in Hanalytics.
  repeat (match type of Hrun with
          | context [if ?b then _ else _] => destruct b
          | context [match ?x with _ => _ end] =>
            lazymatch x with
            | context [match _ with _ => _ end] => fail
            | _ => destruct x eqn:?
            end
          end; cbn in Hrun);
    try discriminate;
    injection Hrun as <- <-; eexists; (split; [reflexivity|]); cbn; congruence.
Qed.

Lemma desired_LogDestination_answers (state : ContainerAppEnvironmentModel) :
  LogDestination (desired_LogDestination state) =
    if String.eqb (LogDestination state) "" then
      if String.eqb (LogAnalyticsWorkspaceId state) "" then LogDestinationNone
      else LogDestinationLogAnalytics
    else LogDestination state.
Proof.
  unfold desired_LogDestination, LogDestinationMissing. destruct state; cbn.
  repeat match goal with |- context [String.eqb ?a ?b] => destruct (String.eqb a b) end;
    reflexivity.
Qed.

End ContainerAppEnvironmentTheory.

(** ** The lifecycle contract, across both adapters *)

Section LifecycleContract.
Import ids.
Context `{IdFunctions} `{CAE.Helpers}.

(** C1: when Create reaches its existence check and the Get on the computed
    identifier does not answer not-found, Create fails and issues no
    create-and-poll call: the calls of the run end with that Get, and no
    identifier is set.  With no error from the Get (the resource exists) the
    failure is the import-required error; with an error that is no not-found
    the failure wraps that error.  A not-found answer is accepted: the
    create-and-poll call is issued.  Both adapters (for the environment the
    accepted case is shown for a configuration without logs). *)
Theorem Create_existing_requires_import :
  (forall (md : CR.ResourceMetaData) raw name targetRepo sourceRepo registryId registry
          existing err,
      CR.ResourceData_fields md !! "container_registry_id" = Some (CR.VString raw) ->
      CR.ResourceData_fields md !! "name" = Some (CR.VString name) ->
      CR.ResourceData_fields md !! "target_repo" = Some (CR.VString targetRepo) ->
      CR.ResourceData_fields md !! "source_repo" = Some (CR.VString sourceRepo) ->
      ParseRegistryID raw = inr registryId ->
      CR.registries_Get (CR.client md) registryId = (registry, None) ->
      let id := NewCacheRuleID (CR.Account_SubscriptionId (CR.client md))
                  (Registry_ResourceGroupName registryId)
                  (Registry_RegistryName registryId) name in
      CR.cacheRules_Get (CR.client md) id = (existing, err) ->
      (WasNotFound (HttpResponse existing) = false ->
       exists failure md',
         run CR.Create md = (Returned (Some failure), md') /\
         failure = match err with
                   | None => ImportRequired CR.ResourceType (OfCacheRule id)
                   | Some cause =>
                     Errorf "checking for presence of existing %s: %s"
                       [ArgId (OfCacheRule id); ArgError cause]
                   end /\
         CR.Calls md' = CR.Calls md ++ [CR.Registries_Get registryId; CR.CacheRules_Get id] /\
         CR.ResourceData_Id md' = CR.ResourceData_Id md) /\
      (WasNotFound (HttpResponse existing) = true ->
       CR.Calls (snd (run CR.Create md)) =
         CR.Calls md ++
           [CR.Registries_Get registryId; CR.CacheRules_Get id;
            CR.CacheRules_CreateThenPoll id
              {| CR.Name := Some name;
                 CR.Properties := Some {| CR.SourceRepository := Some sourceRepo;
                                          CR.TargetRepository := Some targetRepo |} |}])) /\
  (forall (md : CAE.ResourceMetaData) existing err,
      CAE.DecodeError md = None ->
      let id := NewManagedEnvironmentID (CAE.Account_SubscriptionId (CAE.client md))
                  (CAE.ResourceGroup (CAE.ResourceData md)) (CAE.Name (CAE.ResourceData md)) in
      CAE.managedEnvironments_Get (CAE.client md) id = (existing, err) ->
      (WasNotFound (HttpResponse existing) = false ->
       exists failure md',
         run CAE.Create md = (Returned (Some failure), md') /\
         failure = match err with
                   | None => ImportRequired CAE.ResourceType (OfManagedEnvironment id)
                   | Some cause =>
                     Errorf "checking for presence of existing %s: %+v"
                       [ArgId (OfManagedEnvironment id); ArgError cause]
                   end /\
         CAE.Calls md' = CAE.Calls md ++ [CAE.ManagedEnvironments_Get id] /\
         CAE.ResourceData_Id md' = CAE.ResourceData_Id md) /\
      (WasNotFound (HttpResponse existing) = true ->
       CAE.LogDestination (CAE.ResourceData md) = CAE.LogDestinationNone ->
       exists input,
         CAE.Calls (snd (run CAE.Create md)) =
           CAE.Calls md ++ [CAE.ManagedEnvironments_Get id;
                            CAE.ManagedEnvironments_CreateOrUpdateThenPoll id input])).
Proof.
  split.
  - intros md raw name targetRepo sourceRepo registryId registry existing err
      Hraw Hname Htarget Hsource Hparse Hregistry id Hget.
    split; intros Hfound.
    + do 2 eexists. split.
      * eapply cache_rule_Create_existing; eassumption.
      * destruct md; cbn. rewrite <- app_assoc. auto.
    + eapply cache_rule_Create_absent; eassumption.
  - intros md existing err Hdecode id Hget.
    split; intros Hfound.
    + do 2 eexists. split.
      * eapply env_Create_existing; eassumption.
      * destruct md; cbn. auto.
    + intros Hnone.
      destruct (env_Create_absent md existing err Hdecode Hget Hfound Hnone)
        as (input & Hcalls & _).
      exists input. exact Hcalls.
Qed.

(** C2: when Read has parsed the identifier and its Get fails, a not-found
    response makes Read mark the resource as gone and return no error; any
    other failure makes Read return an error that wraps the remote one, and
    the resource is not marked gone.  Both adapters. *)
Theorem Read_not_found_marks_gone :
  (forall (md : CR.ResourceMetaData) id resp cause,
      ParseCacheRuleID (CR.ResourceData_Id md) = inr id ->
      CR.cacheRules_Get (CR.client md) id = (resp, Some cause) ->
      (WasNotFound (HttpResponse resp) = true ->
       exists md', run CR.Read md = (Returned None, md') /\ CR.Gone md' = true) /\
      (WasNotFound (HttpResponse resp) = false ->
       exists failure md',
         run CR.Read md = (Returned (Some failure), md') /\
         failure = Errorf "retrieving Container Registry Cache Rule %s: %+v"
                     [ArgId (OfCacheRule id); ArgError cause] /\
         wraps cause failure /\
         CR.Gone md' = CR.Gone md)) /\
  (forall (md : CAE.ResourceMetaData) id existing cause,
      ParseManagedEnvironmentID (CAE.ResourceData_Id md) = inr id ->
      CAE.managedEnvironments_Get (CAE.client md) id = (existing, Some cause) ->
      (WasNotFound (HttpResponse existing) = true ->
       exists md', run CAE.Read md = (Returned None, md') /\ CAE.Gone md' = true) /\
      (WasNotFound (HttpResponse existing) = false ->
       exists failure md',
         run CAE.Read md = (Returned (Some failure), md') /\
         failure = Errorf "reading %s: %+v" [ArgId (OfManagedEnvironment id); ArgError cause] /\
         wraps cause failure /\
         CAE.Gone md' = CAE.Gone md)).
Proof.
  split.
  - intros md id resp cause Hparse Hget.
    pose proof (cache_rule_Read_failure md id resp cause Hparse Hget) as Hrun.
    split; intros Hfound; rewrite Hfound in Hrun.
    + eexists. split; [exact Hrun|]. destruct md; reflexivity.
    + do 2 eexists. split; [exact Hrun|].
      split; [reflexivity|]. split; [cbn; auto|destruct md; reflexivity].
  - intros md id existing cause Hparse Hget.
    pose proof (env_Read_failure md id existing cause Hparse Hget) as Hrun.
    split; intros Hfound; rewrite Hfound in Hrun.
    + eexists. split; [exact Hrun|]. destruct md; reflexivity.
    + do 2 eexists. split; [exact Hrun|].
      split; [reflexivity|]. split; [cbn; auto|destruct md; reflexivity].
Qed.

(** C3, as the code has it: when Delete has parsed the identifier, it issues
    the delete-and-poll call and returns no error exactly when that call
    returns none; any error of the call, a not-found one included, makes
    Delete return an error that wraps it.  Both adapters. *)
Theorem Delete_any_error_is_fatal :
  (forall (md : CR.ResourceMetaData) id,
      ParseCacheRuleID (CR.ResourceData_Id md) = inr id ->
      exists result md',
        run CR.Delete md = (Returned result, md') /\
        CR.Calls md' = CR.Calls md ++ [CR.CacheRules_DeleteThenPoll id] /\
        (result = None <-> CR.cacheRules_DeleteThenPoll (CR.client md) id = None) /\
        (forall cause,
            CR.cacheRules_DeleteThenPoll (CR.client md) id = Some cause ->
            result = Some (Errorf "deleting Container Registry Cache Rule %s: %+v"
                             [ArgId (OfCacheRule id); ArgError cause]))) /\
  (forall (md : CAE.ResourceMetaData) id,
      ParseManagedEnvironmentID (CAE.ResourceData_Id md) = inr id ->
      exists result md',
        run CAE.Delete md = (Returned result, md') /\
        CAE.Calls md' = CAE.Calls md ++ [CAE.ManagedEnvironments_DeleteThenPoll id] /\
        (result = None <-> CAE.managedEnvironments_DeleteThenPoll (CAE.client md) id = None) /\
        (forall cause,
            CAE.managedEnvironments_DeleteThenPoll (CAE.client md) id = Some cause ->
            result = Some (Errorf "deleting %s: %+v"
                             [ArgId (OfManagedEnvironment id); ArgError cause]))).
Proof.
  split.
  - intros md id Hparse.
    do 2 eexists. split; [apply cache_rule_Delete_run; exact Hparse|].
    split; [destruct md; reflexivity|].
    destruct (CR.cacheRules_DeleteThenPoll (CR.client md) id); split;
      try (split; congruence); intros cause' [= <-]; reflexivity.
  - intros md id Hparse.
    do 2 eexists. split; [apply env_Delete_run; exact Hparse|].
    split; [destruct md; reflexivity|].
    unfold CAE.wrapped.
    destruct (CAE.managedEnvironments_DeleteThenPoll (CAE.client md) id); split;
      try (split; congruence); intros cause' [= <-]; reflexivity.
Qed.

(** Update of the container app environment: when it has parsed the
    identifier, decoded the configuration and re-read the environment (the
    Get answers a model with properties), it issues one
    create-or-update-and-poll call after the Get and returns what that call
    answers.  The request is the re-read model, field by field, with the tags
    of the configuration when the host reports the tags changed, and with a
    logs configuration that is: absent when the desired destination is the
    remote one; without destination when the desired destination is none and
    the remote one is not; the one constructed from the configuration
    otherwise, when that construction succeeds. *)
Theorem environment_Update_applies_changes_to_reread_model :
  forall (md : CAE.ResourceMetaData) id existing model properties,
    ParseManagedEnvironmentID (CAE.ResourceData_Id md) = inr id ->
    CAE.DecodeError md = None ->
    CAE.managedEnvironments_Get (CAE.client md) id = (existing, None) ->
    Model existing = Some model ->
    CAE.Env_Properties model = Some properties ->
    let desired := CAE.desired_LogDestination (CAE.ResourceData md) in
    let remote := CAE.remote_LogDestination (CAE.AppLogsConfiguration_ properties) in
    let reread := CAE.with_Call (CAE.ManagedEnvironments_Get id) md in
    let updated appLogs after :=
      (Returned (CAE.wrapped "updating %s: %+v" id
                   (CAE.managedEnvironments_CreateOrUpdateThenPoll (CAE.client md) id
                      (CAE.Update_input md model properties appLogs))),
       CAE.with_Call
         (CAE.ManagedEnvironments_CreateOrUpdateThenPoll id
            (CAE.Update_input md model properties appLogs)) after) in
    (CAE.LogDestination desired = remote ->
     run CAE.Update md = updated None reread) /\
    (CAE.LogDestination desired <> remote ->
     CAE.LogDestination desired = CAE.LogDestinationNone ->
     run CAE.Update md =
       updated (Some {| CAE.Destination := None; CAE.LogAnalyticsConfiguration_ := None |})
         reread) /\
    (CAE.LogDestination desired <> remote ->
     CAE.LogDestination desired <> CAE.LogDestinationNone ->
     forall appLogs md',
       run (CAE.constructAppLogsConfigurationFromModel id desired) reread =
         (Returned (appLogs, None), md') ->
       run CAE.Update md = updated appLogs md').
Proof.
  intros md id existing model properties Hparse Hdecode Hget Hmodel Hprops
    desired remote reread updated.
  split; [|split].
  - intros Hsame. eapply env_Update_same_destination; eassumption.
  - intros Hdiff Hnone. eapply env_Update_to_none; eassumption.
  - intros Hdiff Hnone appLogs md' Hconstruct.
    destruct (constructAppLogsConfigurationFromModel_frame _ _ _ _ _ Hconstruct)
      as [Hclient _].
    subst updated. cbn beta. rewrite <- (with_Call_client (CAE.ManagedEnvironments_Get id) md).
    fold reread. rewrite <- Hclient.
    exact (env_Update_other_destination md id existing model properties appLogs None md'
             Hparse Hdecode Hget Hmodel Hprops Hdiff Hnone Hconstruct).
Qed.

(** C6, as the code has it: when Update of a container app environment has
    parsed the identifier, decoded the configuration and re-read the
    environment, the request of an update call switches the logs off (carries
    a logs configuration without destination) only when the configured
    log_destination is none, or the configuration is silent on logs
    (log_destination and log_analytics_workspace_id both unset, which Update
    takes for none), while the remote environment has another destination.
    When the configuration names the destination the remote environment has
    (explicitly; or by a workspace with log_destination unset, against a
    remote log-analytics destination; or by naming none, or nothing, against
    a remote environment without destination), Update issues one update
    call whose request carries no logs configuration at all: it neither
    sends again the configuration whose shared key cannot be read back, nor
    switches the logs off; the connection string of the request is the one
    re-read. *)
Theorem Update_clears_logs_only_for_destination_none :
  forall (md : CAE.ResourceMetaData) id existing model properties,
    ParseManagedEnvironmentID (CAE.ResourceData_Id md) = inr id ->
    CAE.DecodeError md = None ->
    CAE.managedEnvironments_Get (CAE.client md) id = (existing, None) ->
    Model existing = Some model ->
    CAE.Env_Properties model = Some properties ->
    let configured := CAE.LogDestination (CAE.ResourceData md) in
    let workspace := CAE.LogAnalyticsWorkspaceId (CAE.ResourceData md) in
    let remote := CAE.AppLogsConfiguration_ properties ≫= CAE.Destination in
    ((configured <> ""%string /\ remote = Some configured) \/
     (configured = "none"%string /\ remote = None) \/
     (configured = ""%string /\ workspace <> ""%string /\
      remote = Some "log-analytics"%string) \/
     (configured = ""%string /\ workspace = ""%string /\
      (remote = None \/ remote = Some "none"%string)) ->
     exists input result md',
       run CAE.Update md = (Returned result, md') /\
       CAE.Calls md' =
         CAE.Calls md ++ [CAE.ManagedEnvironments_Get id;
                          CAE.ManagedEnvironments_CreateOrUpdateThenPoll id input] /\
       CAE.Env_Properties input ≫= CAE.AppLogsConfiguration_ = None /\
       ~ CAE.clears_AppLogs input /\
       ~ CAE.resends_AppLogs input /\
       CAE.Env_Properties input ≫= CAE.DaprAIConnectionString =
         CAE.DaprAIConnectionString properties) /\
    (forall issued input,
        CAE.Calls (snd (run CAE.Update md)) = CAE.Calls md ++ issued ->
        In (CAE.ManagedEnvironments_CreateOrUpdateThenPoll id input) issued ->
        CAE.clears_AppLogs input ->
        (configured = "none"%string \/ (configured = ""%string /\ workspace = ""%string)) /\
        remote <> None /\ remote <> Some "none"%string).
Proof.
  intros md id existing model properties Hparse Hdecode Hget Hmodel Hprops
    configured workspace remote.
  pose proof (desired_LogDestination_answers (CAE.ResourceData md)) as Hdesired.
  fold configured workspace in Hdesired.
  assert (Hremote : CAE.remote_LogDestination (CAE.AppLogsConfiguration_ properties) =
                    default CAE.LogDestinationNone remote).
  { subst remote. unfold CAE.remote_LogDestination.
    destruct (CAE.AppLogsConfiguration_ properties) as [appLogs|]; [|reflexivity].
    cbn. destruct (CAE.Destination appLogs); reflexivity. }
  split.
  - intros Hnamed.
    assert (Hsame : CAE.LogDestination (CAE.desired_LogDestination (CAE.ResourceData md)) =
                    CAE.remote_LogDestination (CAE.AppLogsConfiguration_ properties)).
    { rewrite Hdesired, Hremote.
      destruct Hnamed as [[Hset ->]|[[-> ->]|[(-> & Hworkspace & ->)|(-> & -> & [-> | ->])]]];
        cbn; try reflexivity.
      - apply String.eqb_neq in Hset. rewrite Hset. reflexivity.
      - apply String.eqb_neq in Hworkspace. rewrite Hworkspace. reflexivity. }
    exists (CAE.Update_input md model properties None).
    do 2 eexists. split.
    + eapply env_Update_same_destination; eassumption.
    + rewrite !with_Call_Calls, <- app_assoc. split; [reflexivity|].
      split; [reflexivity|].
      split; [|split; [|reflexivity]].
      * intros (p & a & [= <-] & [=] & _).
      * intros (p & a & [= <-] & [=]).
  - intros issued input Hcalls Hin Hclears.
    destruct (decide (CAE.LogDestination (CAE.desired_LogDestination (CAE.ResourceData md)) =
                      CAE.remote_LogDestination (CAE.AppLogsConfiguration_ properties)))
      as [Hsame|Hdiff].
    { rewrite (env_Update_same_destination md id existing model properties
                 Hparse Hdecode Hget Hmodel Hprops Hsame) in Hcalls.
      cbn [snd] in Hcalls. rewrite !with_Call_Calls, <- app_assoc in Hcalls.
      apply app_inv_head in Hcalls. subst issued.
      destruct Hin as [[=]|[[= <-]|[]]].
      destruct Hclears as (p & a & [= <-] & [=] & _). }
    destruct (decide (CAE.LogDestination (CAE.desired_LogDestination (CAE.ResourceData md)) =
                      CAE.LogDestinationNone)) as [Hnone|Hother].
    { rewrite Hnone, Hremote in Hdiff. rewrite Hdesired in Hnone.
      unfold CAE.LogDestinationNone, CAE.LogDestinationLogAnalytics in *.
      split; [|split].
      - destruct (String.eqb_spec configured ""); [|left; exact Hnone].
        destruct (String.eqb_spec workspace ""); [right; split; assumption|discriminate].
      - intros Hnil. rewrite Hnil in Hdiff. apply Hdiff. reflexivity.
      - intros Hnil. rewrite Hnil in Hdiff. apply Hdiff. reflexivity. }
    exfalso.
    destruct (run (CAE.constructAppLogsConfigurationFromModel id
                     (CAE.desired_LogDestination (CAE.ResourceData md)))
                (CAE.with_Call (CAE.ManagedEnvironments_Get id) md))
      as [[[appLogs err]|msg] md'] eqn:Hconstruct.
    + destruct (constructAppLogsConfigurationFromModel_frame _ _ _ _ _ Hconstruct)
        as (_ & calls & Hframe & Hworkspace).
      rewrite with_Call_Calls, <- app_assoc in Hframe.
      rewrite (env_Update_other_destination md id existing model properties appLogs err md'
                 Hparse Hdecode Hget Hmodel Hprops Hdiff Hother Hconstruct) in Hcalls.
      rewrite forallb_forall in Hworkspace.
      destruct err as [err|]; cbn [snd] in Hcalls.
      * rewrite Hframe in Hcalls. apply app_inv_head in Hcalls. subst issued.
        destruct Hin as [[=]|Hin]. apply Hworkspace in Hin. discriminate.
      * rewrite with_Call_Calls, Hframe, <- app_assoc in Hcalls.
        apply app_inv_head in Hcalls. subst issued.
        destruct Hin as [[=]|Hin]. apply in_app_or in Hin.
        destruct Hin as [Hin|[[= <-]|[]]]; [apply Hworkspace in Hin; discriminate|].
        destruct (constructAppLogsConfigurationFromModel_destination _ _ _ _ _
                    Hconstruct Hother) as (configuration & -> & Hdestination).
        destruct Hclears as (p & a & [= <-] & [= <-] & Hcleared).
        congruence.
    + destruct (constructAppLogsConfigurationFromModel_frame _ _ _ _ _ Hconstruct)
        as (_ & calls & Hframe & Hworkspace).
      rewrite with_Call_Calls, <- app_assoc in Hframe.
      rewrite (env_Update_other_destination_panics md id existing model properties msg md'
                 Hparse Hdecode Hget Hmodel Hprops Hdiff Hother Hconstruct) in Hcalls.
      rewrite forallb_forall in Hworkspace.
      cbn [snd] in Hcalls. rewrite Hframe in Hcalls. apply app_inv_head in Hcalls.
      subst issued.
      destruct Hin as [[=]|Hin]. apply Hworkspace in Hin. discriminate.
Qed.


End LifecycleContract.

Lemma Create_existing_requires_import_witness :
  fst (run (@CR.Create Example.idFunctions) Scenario.cacheRule_exists) =
    Returned (Some (ImportRequired CR.ResourceType (ids.OfCacheRule Example.cacheRuleId))) /\
  fst (run (@CAE.Create Example.idFunctions Example.helpers) Scenario.environment_exists) =
    Returned (Some (ImportRequired CAE.ResourceType
                      (ids.OfManagedEnvironment Example.environmentId))).
Proof.
  split.
  - edestruct (proj1 (@Create_existing_requires_import Example.idFunctions Example.helpers)
                 Scenario.cacheRule_exists) as [Hexists _]; [reflexivity..|].
    destruct (Hexists eq_refl) as (failure & md' & Hrun & Hfailure & _).
    rewrite Hrun, Hfailure. reflexivity.
  - edestruct (proj2 (@Create_existing_requires_import Example.idFunctions Example.helpers)
                 Scenario.environment_exists) as [Hexists _]; [reflexivity..|].
    destruct (Hexists eq_refl) as (failure & md' & Hrun & Hfailure & _).
    rewrite Hrun, Hfailure. reflexivity.
Defined.

Lemma Read_not_found_marks_gone_witness :
  (exists md', run (@CR.Read Example.idFunctions)
                 (Scenario.cacheRule_persisted Example.notFound None) = (Returned None, md') /\
               CR.Gone md' = true) /\
  (exists failure md', run (@CAE.Read Example.idFunctions Example.helpers)
                 (Scenario.environment_persisted Example.serverError None
                    (Example.environmentConfig "" "")) = (Returned (Some failure), md') /\
               wraps (RemoteError 500 "InternalServerError") failure).
Proof.
  split.
  - eapply (proj1 (@Read_not_found_marks_gone Example.idFunctions Example.helpers));
      reflexivity.
  - edestruct (proj2 (@Read_not_found_marks_gone Example.idFunctions Example.helpers)
                 (Scenario.environment_persisted Example.serverError None
                    (Example.environmentConfig "" ""))) as [_ Hother]; [reflexivity..|].
    destruct (Hother eq_refl) as (failure & md' & Hrun & _ & Hwraps & _).
    exists failure, md'. split; assumption.
Defined.

(** C3 as claimed fails: the delete-and-poll call of a cache rule answers
    with a not-found error, and Delete returns an error, not nil. *)
Lemma Delete_not_found_is_an_error :
  CR.cacheRules_DeleteThenPoll
    (CR.client (Scenario.cacheRule_persisted Example.notFound
                  (Some (RemoteError 404 "ResourceNotFound"))))
    Example.cacheRuleId = Some (RemoteError 404 "ResourceNotFound") /\
  ErrorWasNotFound (RemoteError 404 "ResourceNotFound") = true /\
  fst (run (@CR.Delete Example.idFunctions)
         (Scenario.cacheRule_persisted Example.notFound
            (Some (RemoteError 404 "ResourceNotFound")))) =
    Returned (Some (Errorf "deleting Container Registry Cache Rule %s: %+v"
                      [ArgId (ids.OfCacheRule Example.cacheRuleId);
                       ArgError (RemoteError 404 "ResourceNotFound")])).
Proof. repeat split. Qed.

Lemma Delete_any_error_is_fatal_witness :
  (exists md', run (@CR.Delete Example.idFunctions)
                 (Scenario.cacheRule_persisted Example.notFound None) = (Returned None, md')) /\
  (exists md', run (@CAE.Delete Example.idFunctions Example.helpers)
                 (Scenario.environment_persisted Example.notFound
                    (Some (RemoteError 404 "ResourceNotFound"))
                    (Example.environmentConfig "" "")) =
               (Returned (Some (Errorf "deleting %s: %+v"
                                  [ArgId (ids.OfManagedEnvironment Example.environmentId);
                                   ArgError (RemoteError 404 "ResourceNotFound")])), md')).
Proof.
  split.
  - edestruct (proj1 (@Delete_any_error_is_fatal Example.idFunctions Example.helpers)
                 (Scenario.cacheRule_persisted Example.notFound None))
      as (result & md' & Hrun & _ & Hnil & _); [reflexivity|].
    exists md'. rewrite Hrun. f_equal. f_equal. apply Hnil. reflexivity.
  - edestruct (proj2 (@Delete_any_error_is_fatal Example.idFunctions Example.helpers)
                 (Scenario.environment_persisted Example.notFound
                    (Some (RemoteError 404 "ResourceNotFound"))
                    (Example.environmentConfig "" "")))
      as (result & md' & Hrun & _ & _ & Herr); [reflexivity|].
    exists md'. rewrite Hrun. f_equal. f_equal. apply Herr. reflexivity.
Defined.

(** C4, where the code departs from it: the Update of a cache rule whose
    configuration now names a credential set returns nil after a single
    update-and-poll call whose properties are empty: the configured
    credential set is not applied, nothing is decoded and no Get re-reads
    the remote cache rule. *)
Lemma cache_rule_Update_skips_reread :
  CR.ResourceData_fields Scenario.cacheRule_update !! "credential_set_id" =
    Some (CR.VString "/subscriptions/12345678-1234-5678-1234-123456789012/resourceGroups/group1/providers/Microsoft.ContainerRegistry/registries/testacccr123/credentialSets/cs1") /\
  fst (run (@CR.Update Example.idFunctions) Scenario.cacheRule_update) = Returned None /\
  CR.Calls (snd (run (@CR.Update Example.idFunctions) Scenario.cacheRule_update)) =
    [CR.CacheRules_UpdateThenPoll Example.cacheRuleId
       {| CR.UpdateProperties := Some {| CR.CredentialSetResourceId := None |} |}] /\
  ~ In (CR.CacheRules_Get Example.cacheRuleId)
      (CR.Calls (snd (run (@CR.Update Example.idFunctions) Scenario.cacheRule_update))).
Proof.
  repeat split. cbn. intros [[=]|[]].
Qed.

Lemma environment_Update_applies_changes_to_reread_model_witness :
  exists md',
    run (@CAE.Update Example.idFunctions Example.helpers)
      (Scenario.environment_persisted
         (Example.ok (Example.remoteEnvironment (Some (Example.remoteAppLogs "log-analytics"))))
         None (Example.environmentConfig "log-analytics" Example.workspaceId)) =
    (Returned None, md') /\
    CAE.Calls md' =
      [CAE.ManagedEnvironments_Get Example.environmentId;
       CAE.ManagedEnvironments_CreateOrUpdateThenPoll Example.environmentId
         (Example.remoteEnvironment None)].
Proof.
  edestruct (@environment_Update_applies_changes_to_reread_model
               Example.idFunctions Example.helpers
               (Scenario.environment_persisted
                  (Example.ok (Example.remoteEnvironment
                                 (Some (Example.remoteAppLogs "log-analytics"))))
                  None (Example.environmentConfig "log-analytics" Example.workspaceId)))
    as [Hsame _]; [reflexivity..|].
  eexists. split; [apply Hsame; reflexivity|reflexivity].
Defined.

Lemma Update_clears_logs_only_for_destination_none_witness :
  exists input result md',
    run (@CAE.Update Example.idFunctions Example.helpers)
      (Scenario.environment_persisted
         (Example.ok (Example.remoteEnvironment (Some (Example.remoteAppLogs "log-analytics"))))
         None (Example.environmentConfig "" Example.workspaceId)) = (Returned result, md') /\
    CAE.Calls md' =
      [CAE.ManagedEnvironments_Get Example.environmentId;
       CAE.ManagedEnvironments_CreateOrUpdateThenPoll Example.environmentId input] /\
    CAE.Env_Properties input ≫= CAE.AppLogsConfiguration_ = None.
Proof.
  edestruct (@Update_clears_logs_only_for_destination_none
               Example.idFunctions Example.helpers
               (Scenario.environment_persisted
                  (Example.ok (Example.remoteEnvironment
                                 (Some (Example.remoteAppLogs "log-analytics"))))
                  None (Example.environmentConfig "" Example.workspaceId)))
    as [Hnamed _]; [reflexivity..|].
  destruct Hnamed as (input & result & md' & Hrun & Hcalls & Hlogs & _).
  { right. right. left. split; [reflexivity|]. split; [discriminate|reflexivity]. }
  exists input, result, md'. auto.
Defined.

(** C6 as claimed fails: a configuration silent on logs (log_destination and
    log_analytics_workspace_id both unset) changes no log setting
    explicitly, and still Update of an environment whose remote destination
    is log-analytics returns nil after an update call whose request carries a
    logs configuration without destination, which switches the logs off. *)
Lemma Update_silent_on_logs_clears_remote_configuration :
  let md := Scenario.environment_persisted
              (Example.ok (Example.remoteEnvironment
                             (Some (Example.remoteAppLogs "log-analytics"))))
              None (Example.environmentConfig "" "") in
  let input := Example.remoteEnvironment
                 (Some {| CAE.Destination := None; CAE.LogAnalyticsConfiguration_ := None |}) in
  CAE.LogDestination (CAE.ResourceData md) = ""%string /\
  CAE.LogAnalyticsWorkspaceId (CAE.ResourceData md) = ""%string /\
  fst (run (@CAE.Update Example.idFunctions Example.helpers) md) = Returned None /\
  CAE.Calls (snd (run (@CAE.Update Example.idFunctions Example.helpers) md)) =
    [CAE.ManagedEnvironments_Get Example.environmentId;
     CAE.ManagedEnvironments_CreateOrUpdateThenPoll Example.environmentId input] /\
  CAE.clears_AppLogs input.
Proof.
  cbv zeta. split; [reflexivity|]. split; [reflexivity|].
  split; [vm_compute; reflexivity|]. split; [vm_compute; reflexivity|].
  do 2 eexists. split; [reflexivity|]. split; reflexivity.
Qed.



(** ** The managed HSM URI helper *)

Section CutTheory.
Import strings.
Variable c : ascii.

Lemma Cut_cons (c' : ascii) (s : string) :
  Cut (String c' s) (String c "") =
    if Ascii.eqb c c' then (EmptyString, s, true)
    else let '(before, after, found) := Cut s (String c "") in
         if found then (String c' before, after, true)
         else (String c' s, EmptyString, false).
Proof.
  cbn. rewrite andb_true_r. destruct (Ascii.eqb c c'); reflexivity.
Qed.

(** A found (String c "")arator splits the string at its first occurrence. *)
Lemma Cut_found (s before after : string) :
  Cut s (String c "") = (before, after, true) ->
  s = before +:+ (String c "") +:+ after /\ Contains c before = false.
Proof.
  revert before after. induction s as [|c' s IH]; intros before after.
  - cbn. discriminate.
  - rewrite Cut_cons. destruct (Ascii.eqb c c') eqn:Hc.
    + intros [= <- <-]. apply Ascii.eqb_eq in Hc as ->. split; reflexivity.
    + destruct (Cut s (String c "")) as [[b a] [|]]; [|discriminate].
      intros [= <- <-]. destruct (IH b a eq_refl) as [-> Hb].
      split; [reflexivity|]. cbn. rewrite Hb, Ascii.eqb_sym, Hc. reflexivity.
Qed.

(** The first occurrence of the (String c "")arator is where the string is cut. *)
Lemma Cut_first (before after : string) :
  Contains c before = false ->
  Cut (before +:+ (String c "") +:+ after) (String c "") = (before, after, true).
Proof.
  induction before as [|c' before IH]; intros Hfree.
  - change (Cut (String c after) (String c "") = (EmptyString, after, true)).
    rewrite Cut_cons, Ascii.eqb_refl. reflexivity.
  - cbn in Hfree. apply orb_false_iff in Hfree as [Hc Hfree].
    change (String c' before +:+ (String c "") +:+ after)
      with (String c' (before +:+ (String c "") +:+ after)).
    rewrite Cut_cons, Ascii.eqb_sym, Hc, (IH Hfree). reflexivity.
Qed.

(** Nothing is found exactly when the (String c "")arator does not occur. *)
Lemma Cut_not_found (s : string) :
  snd (Cut s (String c "")) = false <-> Contains c s = false.
Proof.
  induction s as [|c' s IH].
  - cbn. tauto.
  - rewrite Cut_cons. cbn [Contains]. rewrite Ascii.eqb_sym.
    destruct (Ascii.eqb c' c); cbn; [split; discriminate|].
    destruct (Cut s (String c "")) as [[b a] [|]]; cbn in *; exact IH.
Qed.

End CutTheory.

Section ManagedHSMTheory.
Import strings ManagedHSM.
Variable URL : Type.
Variable url_Parse : string -> error + URL.
Variable Hostname : URL -> string.

(** C10: [IsManagedHSMURI] answers (true, nil, instanceName, domainSuffix)
    exactly when the URI parses and its hostname is instanceName, a dot and
    domainSuffix, with no dot in instanceName and domainSuffix the managed
    HSM domain suffix of the environment, which is "managedhsm.azure.net"
    when the environment defines none; on another suffix it answers
    (false, nil, "", ""); and it answers an error exactly when the URI does
    not parse or the hostname has no dot. *)
Theorem IsManagedHSMURI_answers :
  forall (env : Environment) (uri : string),
    let answer := IsManagedHSMURI URL url_Parse Hostname env uri in
    let expected := DomainSuffixForManagedHSM env in
    (expected = default "managedhsm.azure.net"%string (ManagedHSM_DomainSuffix env)) /\
    (forall instanceName domainSuffix,
        answer = (true, None, instanceName, domainSuffix) <->
        exists url,
          url_Parse uri = inr url /\
          Hostname url = instanceName +:+ "." +:+ domainSuffix /\
          Contains "." instanceName = false /\
          domainSuffix = expected) /\
    (forall url instanceName domainSuffix,
        url_Parse uri = inr url ->
        Hostname url = instanceName +:+ "." +:+ domainSuffix ->
        Contains "." instanceName = false ->
        domainSuffix <> expected ->
        answer = (false, None, ""%string, ""%string)) /\
    ((exists err, answer.1.1.2 = Some err) <->
     (exists err, url_Parse uri = inl err) \/
     (exists url, url_Parse uri = inr url /\ Contains "." (Hostname url) = false)).
Proof.
  intros env uri answer expected.
  split; [unfold expected, DomainSuffixForManagedHSM;
          destruct (ManagedHSM_DomainSuffix env); reflexivity|].
  subst answer. unfold IsManagedHSMURI. fold expected.
  destruct (url_Parse uri) as [err|url] eqn:Hparse.
  - split; [|split].
    + intros instanceName domainSuffix. split; [discriminate|].
      intros (url & [=] & _).
    + intros url ? ? [=].
    + cbn. split; eauto.
  - destruct (Cut (Hostname url) ".") as [[before after] found] eqn:Hcut.
    destruct found; cbn [negb].
    + apply Cut_found in Hcut as Hshape. destruct Hshape as [Hhost Hfree].
      assert (Hunique : forall i d,
                 Hostname url = i +:+ "." +:+ d -> Contains "." i = false ->
                 i = before /\ d = after).
      { intros i d Hi Hfreei. pose proof (Cut_first "." i d Hfreei) as Hcut'.
        rewrite <- Hi, Hcut in Hcut'. injection Hcut' as -> ->. auto. }
      split; [|split].
      * intros instanceName domainSuffix.
        destruct (String.eqb after expected) eqn:Hsuffix.
        -- apply String.eqb_eq in Hsuffix. split.
           ++ intros [= <- <-]. exists url. auto.
           ++ intros (url' & [= <-] & Hi & Hfreei & ->).
              destruct (Hunique _ _ Hi Hfreei) as [-> <-]. reflexivity.
        -- apply String.eqb_neq in Hsuffix. split; [discriminate|].
           intros (url' & [= <-] & Hi & Hfreei & ->).
           destruct (Hunique _ _ Hi Hfreei) as [_ Heq]. congruence.
      * intros url' instanceName domainSuffix [= <-] Hi Hfreei Hother.
        destruct (Hunique _ _ Hi Hfreei) as [_ <-].
        apply String.eqb_neq in Hother. rewrite Hother. reflexivity.
      * split.
        -- destruct (String.eqb after expected); cbn; intros [err [=]].
        -- intros [[err [=]]|(url' & [= <-] & Hnone)].
           apply (Cut_not_found "." (Hostname url)) in Hnone.
           rewrite Hcut in Hnone. discriminate.
    + assert (Hnone : Contains "." (Hostname url) = false).
      { apply (Cut_not_found "."). rewrite Hcut. reflexivity. }
      split; [|split].
      * intros instanceName domainSuffix. split; [discriminate|].
        intros (url' & [= <-] & Hi & Hfreei & _).
        pose proof (Cut_first "." instanceName domainSuffix Hfreei) as Hcut'.
        rewrite <- Hi, Hcut in Hcut'. discriminate.
      * intros url' instanceName domainSuffix [= <-] Hi Hfreei _.
        pose proof (Cut_first "." instanceName domainSuffix Hfreei) as Hcut'.
        rewrite <- Hi, Hcut in Hcut'. discriminate.
      * cbn. split; eauto.
Qed.

End ManagedHSMTheory.

(** The helper on the URI of a managed HSM in the public cloud, with a URL
    parser that takes the whole string as the hostname. *)
Example IsManagedHSMURI_public_cloud :
  ManagedHSM.IsManagedHSMURI string inr id {| ManagedHSM.ManagedHSM_DomainSuffix := None |}
    "myhsm.managedhsm.azure.net" =
  (true, None, "myhsm"%string, "managedhsm.azure.net"%string).
Proof. reflexivity. Qed.

(** ** The identifier codec *)

Section CodecTheory.
Import strings resourceid.

Lemma append_cons (c : ascii) (s t : string) : String c s +:+ t = String c (s +:+ t).
Proof. reflexivity. Qed.

Lemma append_empty_r (s : string) : s +:+ "" = s.
Proof. induction s as [|c s IH]; [reflexivity|]. rewrite append_cons, IH. reflexivity. Qed.

Lemma Split_nonempty (s : string) : Split s <> [].
Proof.
  induction s as [|c s IH]; cbn; [discriminate|].
  destruct (Ascii.eqb c "/"); [discriminate|].
  destruct (Split s); discriminate.
Qed.

(** A segment without separator stays whole in front of what follows. *)
Lemma Split_segment (segment rest : string) (first : string) (others : list string) :
  Contains "/" segment = false ->
  Split rest = first :: others ->
  Split (segment +:+ rest) = (segment +:+ first) :: others.
Proof.
  intros Hfree Hrest.
  induction segment as [|c segment IH]; [exact Hrest|].
  cbn in Hfree. apply orb_false_iff in Hfree as [Hc Hfree].
  change (String c segment +:+ rest) with (String c (segment +:+ rest)).
  cbn [Split]. rewrite Hc, (IH Hfree). reflexivity.
Qed.

Lemma Split_Format (shape : list Segment) (components : list string) :
  wf_shape shape = true ->
  forallb valid_component components = true ->
  Split (Format shape components) = EmptyString :: parts shape components.
Proof.
  revert components. induction shape as [|segment shape IH]; intros components Hwf Hvalid.
  - reflexivity.
  - cbn in Hwf. apply andb_true_iff in Hwf as [Hsegment Hwf].
    destruct segment as [token|name].
    + cbn [Format parts].
      change ("/" +:+ token +:+ Format shape components)
        with (String "/" (token +:+ Format shape components)).
      cbn [Split]. cbn [Ascii.eqb Bool.eqb]. f_equal.
      rewrite (Split_segment token _ EmptyString (parts shape components)).
      * rewrite append_empty_r. reflexivity.
      * apply negb_true_iff. exact Hsegment.
      * apply IH; assumption.
    + destruct components as [|value components].
      * cbn [Format parts].
        change ("/" +:+ Format shape []) with (String "/" (Format shape [])).
        cbn [Split]. cbn [Ascii.eqb Bool.eqb]. f_equal. apply IH; [assumption|reflexivity].
      * cbn in Hvalid. apply andb_true_iff in Hvalid as [Hvalue Hvalid].
        unfold valid_component in Hvalue. apply andb_true_iff in Hvalue as [_ Hfree].
        cbn [Format parts].
        change ("/" +:+ value +:+ Format shape components)
          with (String "/" (value +:+ Format shape components)).
        cbn [Split]. cbn [Ascii.eqb Bool.eqb]. f_equal.
        rewrite (Split_segment value _ EmptyString (parts shape components)).
        -- rewrite append_empty_r. reflexivity.
        -- apply negb_true_iff. exact Hfree.
        -- apply IH; assumption.
Qed.

Lemma match_segments_parts (shape : list Segment) (components : list string) :
  valid_components shape components = true ->
  match_segments shape (parts shape components) = Some components.
Proof.
  unfold valid_components, user_segments.
  revert components. induction shape as [|segment shape IH]; intros components Hvalid.
  - destruct components; [reflexivity|discriminate].
  - destruct segment as [token|name].
    + cbn [parts match_segments]. rewrite String.eqb_refl. apply IH. exact Hvalid.
    + destruct components as [|value components]; [discriminate|].
      cbn in Hvalid. apply andb_true_iff in Hvalid as [Hlength Hvalid].
      apply andb_true_iff in Hvalid as [Hvalue Hvalid].
      unfold valid_component in Hvalue. apply andb_true_iff in Hvalue as [Hnonempty _].
      apply negb_true_iff in Hnonempty.
      cbn [parts match_segments]. rewrite Hnonempty, IH; [reflexivity|].
      apply andb_true_iff. split; assumption.
Qed.

(** C7: for every identifier shape whose literal tokens hold no separator
    and every tuple of valid components for it (one per variable segment,
    each not empty and without separator), parsing the formatted string
    returns exactly the components. *)
Theorem Parse_Format_round_trip :
  forall (shape : list Segment) (components : list string),
    wf_shape shape = true ->
    valid_components shape components = true ->
    Parse shape (Format shape components) = Some components.
Proof.
  intros shape components Hwf Hvalid.
  unfold Parse. rewrite Split_Format.
  - apply match_segments_parts. exact Hvalid.
  - exact Hwf.
  - unfold valid_components in Hvalid. apply andb_true_iff in Hvalid as [_ Hvalid].
    exact Hvalid.
Qed.

(** The round trip of the firewall policy identifier: the subscription is
    given to the formatter and is no component of the parsed identifier. *)
Lemma FirewallPolicyID_ID (subscriptionId resourceGroup name : string) :
  forallb valid_component [subscriptionId; resourceGroup; name] = true ->
  FirewallPolicy.FirewallPolicyID
    (FirewallPolicy.ID (FirewallPolicy.NewFirewallPolicyID resourceGroup name) subscriptionId) =
  Some (FirewallPolicy.NewFirewallPolicyID resourceGroup name).
Proof.
  intros Hvalid.
  unfold FirewallPolicy.FirewallPolicyID, FirewallPolicy.ID, Parse,
    FirewallPolicy.NewFirewallPolicyID.
  cbn [FirewallPolicy.ResourceGroup FirewallPolicy.Name].
  rewrite Split_Format; [|reflexivity|exact Hvalid].
  rewrite match_segments_parts; [reflexivity|].
  unfold valid_components. rewrite Hvalid. reflexivity.
Qed.

End CodecTheory.

Lemma Parse_Format_round_trip_witness :
  FirewallPolicy.ID (FirewallPolicy.NewFirewallPolicyID "group1" "policy1")
    "12345678-1234-5678-1234-123456789012" =
    "/subscriptions/12345678-1234-5678-1234-123456789012/resourceGroups/group1/providers/Microsoft.Network/firewallPolicies/policy1"%string /\
  resourceid.Parse FirewallPolicy.shape
    (resourceid.Format FirewallPolicy.shape
       ["12345678-1234-5678-1234-123456789012"; "group1"; "policy1"]%string) =
    Some ["12345678-1234-5678-1234-123456789012"; "group1"; "policy1"]%string.
Proof.
  split; [reflexivity|].
  apply Parse_Format_round_trip; reflexivity.
Defined.

(** Literal tokens must match exactly: another casing of a token is refused. *)
Example FirewallPolicyID_literal_casing :
  FirewallPolicy.FirewallPolicyID
    "/subscriptions/00000000-0000-0000-0000-000000000000/resourcegroups/group1/providers/Microsoft.Network/firewallPolicies/policy1" =
  None.
Proof. reflexivity. Qed.

(** The codec on the cases of [TestFirewallPolicyID]. *)
Example FirewallPolicyID_testData :
  Forall (fun case => FirewallPolicy.FirewallPolicyID case.1 = case.2) FirewallPolicy.testData.
Proof. repeat constructor. Qed.

(** ** The name validation of the cache rule schema *)

Section NameValidationTheory.
Import NameValidation.
Context `{IdFunctions}.

Lemma Arguments_name_validator :
  validator_of CR.Arguments "name" = Some (validation.StringLenBetween 5 40).
Proof. reflexivity. Qed.

(** The validator the schema declares for the name only measures it: no
    error for 5 to 40 characters, one error otherwise. *)
Lemma StringLenBetween_ErrCount (min max : nat) (value : string) :
  ErrCount (validation.StringLenBetween min max) value =
    if (String.length value <? min) || (max <? String.length value) then 1 else 0.
Proof.
  unfold ErrCount, validation.StringLenBetween.
  destruct ((String.length value <? min) || (max <? String.length value)); reflexivity.
Qed.

(** C5 on the code: the validator that the schema of the cache rule declares
    for the name reports one error for the 49 character name of the
    validation test, for which the test expects none, and no error for the
    name with an underscore, for which the test expects one. *)
Theorem cache_rule_name_validator_against_test_cases :
  exists validate,
    validator_of CR.Arguments "name" = Some validate /\
    ErrCount validate "qfvbdsbvipqdbwsbddbdcwqffewsqwcdw21ddwqwd33241202" = 1 /\
    In ("qfvbdsbvipqdbwsbddbdcwqffewsqwcdw21ddwqwd33241202"%string, 0) cases /\
    ErrCount validate "hello_world" = 0 /\
    In ("hello_world"%string, 1) cases.
Proof.
  exists (validation.StringLenBetween 5 40).
  split; [exact Arguments_name_validator|].
  repeat split; cbn; tauto.
Qed.

(** The cases of the validation test on which the declared validator
    reports another number of errors than the test expects. *)
Lemma declared_validator_differs_on :
  map fst (List.filter (fun case => negb (ErrCount (validation.StringLenBetween 5 40) case.1 =? case.2))
             cases) =
  [ ""%string; "hello_world"%string; "hello@world"%string;
    "qfvbdsbvipqdbwsbddbdcwqffewsqwcdw21ddwqwd3324120"%string;
    "qfvbdsbvipqdbwsbddbdcwqffewsqwcdw21ddwqwd33241202"%string ].
Proof. reflexivity. Qed.

End NameValidationTheory.

(** * Further properties of the adapters *)

(** ** The cache rule adapter *)

Section CacheRuleFurther.
Import ids.
Context `{IdFunctions}.

(** Create persists the identifier exactly when create-and-poll succeeded:
    once the registry is readable and the rule is not found, a successful
    create-and-poll makes Create return nil with the formatted identifier
    as the state handle, while a failing one makes Create return the wrapped
    error and leaves the state handle as it was.  The configuration is not
    touched either way. *)
Theorem cache_rule_Create_persists_identifier_on_success :
  forall (md : CR.ResourceMetaData) raw name targetRepo sourceRepo registryId registry
         existing err,
    CR.ResourceData_fields md !! "container_registry_id" = Some (CR.VString raw) ->
    CR.ResourceData_fields md !! "name" = Some (CR.VString name) ->
    CR.ResourceData_fields md !! "target_repo" = Some (CR.VString targetRepo) ->
    CR.ResourceData_fields md !! "source_repo" = Some (CR.VString sourceRepo) ->
    ParseRegistryID raw = inr registryId ->
    CR.registries_Get (CR.client md) registryId = (registry, None) ->
    let id := NewCacheRuleID (CR.Account_SubscriptionId (CR.client md))
                (Registry_ResourceGroupName registryId)
                (Registry_RegistryName registryId) name in
    let parameters :=
      {| CR.Name := Some name;
         CR.Properties := Some {| CR.SourceRepository := Some sourceRepo;
                                  CR.TargetRepository := Some targetRepo |} |} in
    CR.cacheRules_Get (CR.client md) id = (existing, err) ->
    WasNotFound (HttpResponse existing) = true ->
    exists md',
      run CR.Create md =
        (Returned match CR.cacheRules_CreateThenPoll (CR.client md) id parameters with
                  | Some cause =>
                    Some (Errorf "creating Container Registry Cache Rule %s: %+v"
                            [ArgId (OfCacheRule id); ArgError cause])
                  | None => None
                  end, md') /\
      CR.ResourceData_Id md' =
        match CR.cacheRules_CreateThenPoll (CR.client md) id parameters with
        | Some _ => CR.ResourceData_Id md
        | None => ID (OfCacheRule id)
        end /\
      CR.ResourceData_fields md' = CR.ResourceData_fields md /\
      CR.Gone md' = CR.Gone md.
Proof.
  intros md raw name targetRepo sourceRepo registryId registry existing err
    Hraw Hname Htarget Hsource Hparse Hregistry id parameters Hget Hfound.
  unfold CR.Create, CR.ResourceData_Get_string, CR.registryClient_Get,
    CR.cacheRulesClient_Get, CR.cacheRulesClient_CreateThenPoll, CR.SetID.
  unfold_go.
  rewrite Hraw, Hparse, Hregistry. cbn. rewrite Hname. fold id. cbn.
  rewrite Hget, Hfound. cbn.
  destruct err; cbn; rewrite Htarget; cbn; rewrite Hsource; cbn; fold parameters;
    destruct (CR.cacheRules_CreateThenPoll (CR.client md) id parameters); cbn;
    eexists; (split; [reflexivity|]); destruct md; cbn; auto.
Qed.

(** Create checks the parent registry first: when the configured registry
    identifier does not parse, Create returns the parse error and issues no
    call; when the registry cannot be read, Create returns an error wrapping
    the cause and has issued the registry Get only, so neither the existence
    check nor the create call reaches the cache rule client. *)
Theorem cache_rule_Create_requires_readable_registry :
  forall (md : CR.ResourceMetaData) raw,
    CR.ResourceData_fields md !! "container_registry_id" = Some (CR.VString raw) ->
    (forall err, ParseRegistryID raw = inl err ->
                 run CR.Create md = (Returned (Some err), md)) /\
    (forall registryId registry cause,
        ParseRegistryID raw = inr registryId ->
        CR.registries_Get (CR.client md) registryId = (registry, Some cause) ->
        exists md',
          run CR.Create md =
            (Returned (Some (Errorf "getting registry %s: %+v"
                               [ArgId (OfRegistry registryId); ArgError cause])), md') /\
          CR.Calls md' = CR.Calls md ++ [CR.Registries_Get registryId] /\
          CR.ResourceData_Id md' = CR.ResourceData_Id md).
Proof.
  intros md raw Hraw. split.
  - intros err Hparse.
    unfold CR.Create, CR.ResourceData_Get_string. unfold_go.
    rewrite Hraw, Hparse. reflexivity.
  - intros registryId registry cause Hparse Hregistry.
    unfold CR.Create, CR.ResourceData_Get_string, CR.registryClient_Get. unfold_go.
    rewrite Hraw, Hparse, Hregistry. cbn.
    eexists. split; [reflexivity|]. destruct md; cbn; auto.
Qed.

(** A successful Read maps the response onto the state and nothing else: the
    name is the one of the parsed identifier, the repositories are the ones
    of the response when it has properties (a nil pointer removes the value)
    and stay as they were when it has none, every other field,
    container_registry_id among them, keeps its value, the state handle is
    not changed, and the one call issued is the Get. *)
Theorem cache_rule_Read_maps_response_onto_state :
  forall (md : CR.ResourceMetaData) id resp,
    ParseCacheRuleID (CR.ResourceData_Id md) = inr id ->
    CR.cacheRules_Get (CR.client md) id = (resp, None) ->
    exists md',
      run CR.Read md = (Returned None, md') /\
      CR.Calls md' = CR.Calls md ++ [CR.CacheRules_Get id] /\
      CR.ResourceData_Id md' = CR.ResourceData_Id md /\
      CR.ResourceData_fields md' !! "name" = Some (CR.VString (CacheRule_CacheRuleName id)) /\
      (forall properties,
          Model resp ≫= CR.Properties = Some properties ->
          CR.ResourceData_fields md' !! "source_repo" =
            CR.VString <$> CR.SourceRepository properties /\
          CR.ResourceData_fields md' !! "target_repo" =
            CR.VString <$> CR.TargetRepository properties) /\
      (Model resp ≫= CR.Properties = None ->
       CR.ResourceData_fields md' !! "source_repo" = CR.ResourceData_fields md !! "source_repo" /\
       CR.ResourceData_fields md' !! "target_repo" = CR.ResourceData_fields md !! "target_repo") /\
      (forall field,
          field <> "name"%string ->
          field <> "source_repo"%string -> field <> "target_repo"%string ->
          CR.ResourceData_fields md' !! field = CR.ResourceData_fields md !! field).
Proof.
  intros md id resp Hparse Hget.
  destruct (cache_rule_Read_found md id resp Hparse Hget)
    as (md' & Hrun & Hid & _ & Hcalls & _ & Hname & Hrepos & Hframe).
  exists md'. split; [exact Hrun|]. split; [exact Hcalls|]. split; [exact Hid|].
  split; [exact Hname|].
  destruct (Model resp ≫= CR.Properties) as [properties|].
  - split; [intros p [= <-]; exact Hrepos|]. split; [discriminate|exact Hframe].
  - split; [discriminate|]. split; [intros _; exact Hrepos|exact Hframe].
Qed.

(** Update of the cache rule does not depend on the configuration: whatever
    fields the metadata holds, once the identifier parses the one call
    issued is update-and-poll with empty properties, and the result and the
    new state handle are the same. *)
Theorem cache_rule_Update_ignores_configuration :
  forall (md : CR.ResourceMetaData) id (fields : gmap string CR.Value),
    ParseCacheRuleID (CR.ResourceData_Id md) = inr id ->
    let changed := Sequence.configured fields md in
    fst (run CR.Update changed) = fst (run CR.Update md) /\
    CR.Calls (snd (run CR.Update changed)) =
      CR.Calls md ++
        [CR.CacheRules_UpdateThenPoll id
           {| CR.UpdateProperties := Some {| CR.CredentialSetResourceId := None |} |}] /\
    CR.ResourceData_Id (snd (run CR.Update changed)) =
      CR.ResourceData_Id (snd (run CR.Update md)) /\
    CR.ResourceData_fields (snd (run CR.Update changed)) = fields.
Proof.
  intros md id fields Hparse changed.
  rewrite (cache_rule_Update_run md id Hparse).
  rewrite (cache_rule_Update_run changed id Hparse).
  subst changed. destruct md as [c i f g calls]; cbn.
  destruct (CR.cacheRules_UpdateThenPoll c id _); cbn; auto.
Qed.

(** Read after Create: when the identifier functions round-trip the cache
    rule identifier, the Read that follows a successful Create asks the
    remote client for the identifier Create created; when the remote service
    then holds what Create sent, Read returns nil and the state has the
    configured name and repositories; container_registry_id still is the
    configured string, since Set refuses the registry identifier rebuilt by
    Read, a struct, for the string field. *)
Theorem cache_rule_Read_after_Create :
  forall (md : CR.ResourceMetaData) raw name targetRepo sourceRepo registryId registry
         existing err (remote : CR.Client) response,
    CR.ResourceData_fields md !! "container_registry_id" = Some (CR.VString raw) ->
    CR.ResourceData_fields md !! "name" = Some (CR.VString name) ->
    CR.ResourceData_fields md !! "target_repo" = Some (CR.VString targetRepo) ->
    CR.ResourceData_fields md !! "source_repo" = Some (CR.VString sourceRepo) ->
    ParseRegistryID raw = inr registryId ->
    CR.registries_Get (CR.client md) registryId = (registry, None) ->
    let id := NewCacheRuleID (CR.Account_SubscriptionId (CR.client md))
                (Registry_ResourceGroupName registryId)
                (Registry_RegistryName registryId) name in
    let parameters :=
      {| CR.Name := Some name;
         CR.Properties := Some {| CR.SourceRepository := Some sourceRepo;
                                  CR.TargetRepository := Some targetRepo |} |} in
    CR.cacheRules_Get (CR.client md) id = (existing, err) ->
    WasNotFound (HttpResponse existing) = true ->
    CR.cacheRules_CreateThenPoll (CR.client md) id parameters = None ->
    ParseCacheRuleID (ID (OfCacheRule id)) = inr id ->
    CR.cacheRules_Get remote id = ({| HttpResponse := response; Model := Some parameters |}, None) ->
    exists created read,
      run CR.Create md = (Returned None, created) /\
      run CR.Read (Sequence.later remote created) = (Returned None, read) /\
      CR.Calls read =
        CR.Calls md ++ [CR.Registries_Get registryId; CR.CacheRules_Get id;
                        CR.CacheRules_CreateThenPoll id parameters; CR.CacheRules_Get id] /\
      CR.ResourceData_fields read !! "name" = Some (CR.VString name) /\
      CR.ResourceData_fields read !! "source_repo" = Some (CR.VString sourceRepo) /\
      CR.ResourceData_fields read !! "target_repo" = Some (CR.VString targetRepo) /\
      CR.ResourceData_fields read !! "container_registry_id" = Some (CR.VString raw) /\
      In ("container_registry_id"%string,
          CR.VRegistryId
            (NewRegistryID (CR.Account_SubscriptionId (CR.client md))
               (CR.Account_SubscriptionId (CR.client md))
               (Registry_RegistryName registryId)))
         (CR.Sets read).
Proof.
  intros md raw name targetRepo sourceRepo registryId registry existing err remote response
    Hraw Hname Htarget Hsource Hparse Hregistry id parameters Hget Hfound Hcreate
    Hround Hremote.
  assert (Hcreated : exists created,
             run CR.Create md = (Returned None, created) /\
             CR.ResourceData_Id created = ID (OfCacheRule id) /\
             CR.ResourceData_fields created = CR.ResourceData_fields md /\
             CR.Calls created =
               CR.Calls md ++ [CR.Registries_Get registryId; CR.CacheRules_Get id;
                               CR.CacheRules_CreateThenPoll id parameters]).
  { unfold CR.Create, CR.ResourceData_Get_string, CR.registryClient_Get,
      CR.cacheRulesClient_Get, CR.cacheRulesClient_CreateThenPoll, CR.SetID.
    unfold_go.
    rewrite Hraw, Hparse, Hregistry. cbn. rewrite Hname. fold id. cbn.
    rewrite Hget, Hfound. cbn.
    destruct err; cbn; rewrite Htarget; cbn; rewrite Hsource; cbn; fold parameters;
      rewrite Hcreate; cbn; eexists; (split; [reflexivity|]); destruct md; cbn;
      rewrite <- !app_assoc; auto. }
  destruct Hcreated as (created & Hrun & Hid & Hfields & Hcalls).
  exists created.
  destruct (cache_rule_Read_found (Sequence.later remote created) id
              {| HttpResponse := response; Model := Some parameters |})
    as (read & Hread & _ & _ & Hreadcalls & Hsets & Hreadname & Hrepos & Hframe).
  { cbn. rewrite Hid. exact Hround. }
  { exact Hremote. }
  exists read. split; [exact Hrun|]. split; [exact Hread|].
  cbn in Hreadcalls, Hrepos, Hframe. destruct Hrepos as [Hs Ht].
  split; [rewrite Hreadcalls, Hcalls, <- app_assoc; reflexivity|].
  split; [exact Hreadname|]. split; [exact Hs|]. split; [exact Ht|]. split.
  - rewrite Hframe by discriminate. rewrite Hfields. exact Hraw.
  - rewrite Hsets. apply in_or_app. right. cbn. auto.
Qed.

(** The existence check of the acceptance test always returns, with a
    boolean or an error and never both; it answers false only when the Get
    succeeded with a response that has no model; a failing Get, a not-found
    one included, is answered with an error and no boolean. *)
Theorem cache_rule_Exists_is_false_only_without_model :
  forall (state : CR.ResourceMetaData),
    exists answer err,
      fst (run ContainerRegistryCacheRuleTest.Exists state) = Returned (answer, err) /\
      (answer = None <-> err <> None) /\
      (answer = Some false ->
       exists id resp,
         ParseCacheRuleID (CR.ResourceData_Id state) = inr id /\
         CR.cacheRules_Get (CR.client state) id = (resp, None) /\
         Model resp = None) /\
      (forall id resp cause,
          ParseCacheRuleID (CR.ResourceData_Id state) = inr id ->
          CR.cacheRules_Get (CR.client state) id = (resp, Some cause) ->
          answer = None /\
          err = Some (Errorf "retrieving %s: %+v" [ArgId (OfCacheRule id); ArgError cause])).
Proof.
  intros state.
  unfold ContainerRegistryCacheRuleTest.Exists, CR.cacheRulesClient_Get. unfold_go.
  destruct (ParseCacheRuleID (CR.ResourceData_Id state)) as [failure|id]; cbn.
  - do 2 eexists. split; [reflexivity|]. repeat split; try discriminate; congruence.
  - destruct (CR.cacheRules_Get (CR.client state) id) as [resp [cause|]] eqn:Hget; cbn.
    + do 2 eexists. split; [reflexivity|].
      repeat split; try discriminate; try congruence.
    + do 2 eexists. split; [reflexivity|].
      split; [split; [discriminate|congruence]|].
      split.
      * intros [= Hfalse]. exists id, resp.
        split; [reflexivity|]. split; [exact Hget|].
        destruct (Model resp); [discriminate|reflexivity].
      * intros id' resp' cause' [= <-]. congruence.
Qed.

End CacheRuleFurther.

(** ** The container app environment adapter *)

Section EnvironmentFurther.
Import ids.
Context `{IdFunctions} `{CAE.Helpers}.

Ltac run_Read_state :=
  unfold CAE.Read_state, CAE.zero_Model, CAE.remote_LogDestination;
  repeat match goal with
         | |- context [match ?x with _ => _ end] =>
           lazymatch x with
           | context [match _ with _ => _ end] => fail
           | _ => destruct x eqn:?
           end
         | |- context [if ?b then _ else _] =>
           lazymatch b with
           | context [if _ then _ else _] => fail
           | _ => destruct b eqn:?
           end
         end; cbn in *; simplify_eq; try reflexivity.

Lemma Read_state_Dapr id model prior :
  CAE.DaprApplicationInsightsConnectionString (CAE.Read_state id model prior) =
  CAE.DaprApplicationInsightsConnectionString prior.
Proof.
  run_Read_state;
    match goal with
    | E : String.eqb _ "" = true |- _ => apply String.eqb_eq in E; congruence
    end.
Qed.

Lemma Read_state_identity id model prior :
  CAE.Name (CAE.Read_state id (Some model) prior) = Env_ManagedEnvironmentName id /\
  CAE.ResourceGroup (CAE.Read_state id (Some model) prior) = Env_ResourceGroupName id.
Proof. split; run_Read_state. Qed.

Lemma Read_state_LogDestination id model properties prior :
  CAE.Env_Properties model = Some properties ->
  CAE.LogDestination (CAE.Read_state id (Some model) prior) =
  CAE.remote_LogDestination (CAE.AppLogsConfiguration_ properties).
Proof.
  intros Hproperties. run_Read_state;
    repeat match goal with
           | E : CAE.AppLogsConfiguration_ _ = _, E' : _ ≫= _ = _ |- _ =>
             rewrite E in E'; cbn in E'
           end; congruence.
Qed.

Lemma Read_state_LogAnalyticsWorkspaceId id model properties prior :
  CAE.Env_Properties model = Some properties ->
  CAE.LogAnalyticsWorkspaceId (CAE.Read_state id (Some model) prior) =
  if String.eqb (CAE.remote_LogDestination (CAE.AppLogsConfiguration_ properties))
       CAE.LogDestinationLogAnalytics
  then CAE.LogAnalyticsWorkspaceId prior
  else ""%string.
Proof.
  intros Hproperties. run_Read_state;
    repeat match goal with
           | E : CAE.AppLogsConfiguration_ _ = _, E' : _ ≫= _ = _ |- _ =>
             rewrite E in E'; cbn in E'
           end;
    repeat match goal with
           | E : String.eqb _ _ = true |- _ => apply String.eqb_eq in E
           | E : String.eqb _ _ = false |- _ => apply String.eqb_neq in E
           end; simplify_eq; try congruence; try reflexivity.
Qed.

Lemma env_Read_found (md : CAE.ResourceMetaData) id existing :
  ParseManagedEnvironmentID (CAE.ResourceData_Id md) = inr id ->
  CAE.managedEnvironments_Get (CAE.client md) id = (existing, None) ->
  let state := CAE.Read_state id (Model existing) (CAE.ResourceData md) in
  run CAE.Read md =
    match CAE.EncodeError md with
    | Some cause =>
      (Returned (Some (Errorf "encoding: %+v" [ArgError cause])),
       CAE.with_Call (CAE.ManagedEnvironments_Get id) md)
    | None =>
      (Returned None,
       CAE.with_ResourceData state (CAE.with_Call (CAE.ManagedEnvironments_Get id) md))
    end.
Proof.
  intros Hparse Hget state.
  unfold CAE.Read, CAE.client_Get, CAE.Encode. unfold_go.
  rewrite Hparse. cbn. rewrite Hget. cbn.
  destruct md as [c i d de ee hc g calls]; cbn.
  destruct ee; reflexivity.
Qed.

(** A successful Read of an environment keeps what the API does not return:
    the connection string of the state is the one the state had, whatever
    the response holds; the name and the resource group are those of the
    parsed identifier, the log destination is the remote one (none when the
    response has no destination), and the workspace is the one the state had
    when the response names the log analytics destination and is emptied
    otherwise.  The one call issued is the Get and the state handle stays. *)
Theorem environment_Read_keeps_what_the_API_does_not_return :
  forall (md : CAE.ResourceMetaData) id existing,
    ParseManagedEnvironmentID (CAE.ResourceData_Id md) = inr id ->
    CAE.managedEnvironments_Get (CAE.client md) id = (existing, None) ->
    CAE.EncodeError md = None ->
    exists md',
      run CAE.Read md = (Returned None, md') /\
      CAE.Calls md' = CAE.Calls md ++ [CAE.ManagedEnvironments_Get id] /\
      CAE.ResourceData_Id md' = CAE.ResourceData_Id md /\
      CAE.Gone md' = CAE.Gone md /\
      CAE.DaprApplicationInsightsConnectionString (CAE.ResourceData md') =
        CAE.DaprApplicationInsightsConnectionString (CAE.ResourceData md) /\
      (forall model,
          Model existing = Some model ->
          CAE.Name (CAE.ResourceData md') = Env_ManagedEnvironmentName id /\
          CAE.ResourceGroup (CAE.ResourceData md') = Env_ResourceGroupName id) /\
      (forall model properties,
          Model existing = Some model ->
          CAE.Env_Properties model = Some properties ->
          let remote := CAE.remote_LogDestination (CAE.AppLogsConfiguration_ properties) in
          CAE.LogDestination (CAE.ResourceData md') = remote /\
          CAE.LogAnalyticsWorkspaceId (CAE.ResourceData md') =
            if String.eqb remote CAE.LogDestinationLogAnalytics
            then CAE.LogAnalyticsWorkspaceId (CAE.ResourceData md)
            else ""%string).
Proof.
  intros md id existing Hparse Hget Hencode.
  pose proof (env_Read_found md id existing Hparse Hget) as Hrun.
  cbv zeta in Hrun. rewrite Hencode in Hrun.
  eexists. split; [exact Hrun|].
  destruct md as [c i d de ee hc g calls]; cbn.
  split; [reflexivity|]. split; [reflexivity|]. split; [reflexivity|].
  split; [apply Read_state_Dapr|].
  split.
  - intros model ->. apply Read_state_identity.
  - intros model properties -> Hproperties. split.
    + apply Read_state_LogDestination. exact Hproperties.
    + apply Read_state_LogAnalyticsWorkspaceId. exact Hproperties.
Qed.

(** Read then Update without a change: when Read succeeded on a response
    with properties whose destination is not the empty string, the Update
    that runs on the state Read left (same remote answers) sends a request
    without logs configuration, whatever the log settings of the state were
    before the Read; the three calls of the two runs are Get, Get and
    create-or-update-and-poll. *)
Theorem environment_Read_then_Update_sends_no_logs_configuration :
  forall (md : CAE.ResourceMetaData) id existing model properties,
    ParseManagedEnvironmentID (CAE.ResourceData_Id md) = inr id ->
    CAE.managedEnvironments_Get (CAE.client md) id = (existing, None) ->
    Model existing = Some model ->
    CAE.Env_Properties model = Some properties ->
    CAE.EncodeError md = None ->
    CAE.DecodeError md = None ->
    CAE.remote_LogDestination (CAE.AppLogsConfiguration_ properties) <> ""%string ->
    exists read input result updated,
      run CAE.Read md = (Returned None, read) /\
      run CAE.Update read = (Returned result, updated) /\
      CAE.Calls updated =
        CAE.Calls md ++ [CAE.ManagedEnvironments_Get id; CAE.ManagedEnvironments_Get id;
                         CAE.ManagedEnvironments_CreateOrUpdateThenPoll id input] /\
      CAE.Env_Properties input ≫= CAE.AppLogsConfiguration_ = None /\
      CAE.Env_Location input = CAE.Env_Location model /\
      (CAE.HasChange md "tags" = false -> CAE.Env_Tags input = CAE.Env_Tags model).
Proof.
  intros md id existing model properties Hparse Hget Hmodel Hproperties Hencode Hdecode
    Hremote.
  pose proof (env_Read_found md id existing Hparse Hget) as Hread.
  cbv zeta in Hread. rewrite Hencode, Hmodel in Hread.
  destruct md as [c i d de ee hc g calls]; cbn in *.
  set (read := CAE.mkMetaData c i (CAE.Read_state id (Some model) d) de ee hc g
                 (calls ++ [CAE.ManagedEnvironments_Get id])) in *.
  assert (Hsame : CAE.LogDestination (CAE.desired_LogDestination (CAE.ResourceData read)) =
                  CAE.remote_LogDestination (CAE.AppLogsConfiguration_ properties)).
  { subst read. cbn. unfold CAE.desired_LogDestination.
    rewrite (Read_state_LogDestination id model properties _ Hproperties).
    apply String.eqb_neq in Hremote. unfold CAE.LogDestinationMissing. rewrite Hremote.
    apply Read_state_LogDestination. exact Hproperties. }
  pose proof (env_Update_same_destination read id existing model properties
                Hparse Hdecode Hget Hmodel Hproperties Hsame) as Hupdate.
  cbv zeta in Hupdate.
  exists read, (CAE.Update_input read model properties None).
  do 2 eexists. split; [exact Hread|]. split; [exact Hupdate|].
  subst read. cbn. rewrite <- !app_assoc.
  split; [reflexivity|]. split; [reflexivity|]. split; [reflexivity|].
  intros ->. reflexivity.
Qed.

(** Update stops when it cannot read: a configuration that does not decode
    ends Update with the wrapped decoding error before any call; a failing
    Get, a not-found one like any other, ends it with an error wrapping the
    cause after that one call, and the resource is not marked as gone. *)
Theorem environment_Update_stops_when_reading_fails :
  forall (md : CAE.ResourceMetaData) id,
    ParseManagedEnvironmentID (CAE.ResourceData_Id md) = inr id ->
    (forall cause,
        CAE.DecodeError md = Some cause ->
        run CAE.Update md = (Returned (Some (Errorf "decoding: %+v" [ArgError cause])), md)) /\
    (forall existing cause,
        CAE.DecodeError md = None ->
        CAE.managedEnvironments_Get (CAE.client md) id = (existing, Some cause) ->
        exists md',
          run CAE.Update md =
            (Returned (Some (Errorf "reading %s: %+v"
                               [ArgId (OfManagedEnvironment id); ArgError cause])), md') /\
          CAE.Calls md' = CAE.Calls md ++ [CAE.ManagedEnvironments_Get id] /\
          CAE.Gone md' = CAE.Gone md).
Proof.
  intros md id Hparse. split.
  - intros cause Hdecode.
    unfold CAE.Update, CAE.Decode. unfold_go.
    rewrite Hparse. cbn. rewrite Hdecode. reflexivity.
  - intros existing cause Hdecode Hget.
    unfold CAE.Update, CAE.Decode, CAE.client_Get. unfold_go.
    rewrite Hparse. cbn. rewrite Hdecode. cbn. rewrite Hget. cbn.
    eexists. split; [reflexivity|]. destruct md; cbn; auto.
Qed.

(** Update panics on a response without model or without properties: when
    the Get returns no error but the response lacks the model, or the model
    lacks its properties, Update dereferences a nil pointer; no update call
    has been issued by then. *)
Theorem environment_Update_panics_without_model :
  forall (md : CAE.ResourceMetaData) id existing,
    ParseManagedEnvironmentID (CAE.ResourceData_Id md) = inr id ->
    CAE.DecodeError md = None ->
    CAE.managedEnvironments_Get (CAE.client md) id = (existing, None) ->
    Model existing ≫= CAE.Env_Properties = None ->
    run CAE.Update md =
      (Panicked "invalid memory address or nil pointer dereference",
       CAE.with_Call (CAE.ManagedEnvironments_Get id) md).
Proof.
  intros md id existing Hparse Hdecode Hget Hnil.
  unfold CAE.Update, CAE.Decode, CAE.client_Get. unfold_go.
  rewrite Hparse. cbn. rewrite Hdecode. cbn. rewrite Hget. cbn.
  destruct (Model existing) as [[location name properties tags]|]; cbn in Hnil.
  - subst properties. destruct (CAE.HasChange md "tags"); reflexivity.
  - destruct (CAE.HasChange md "tags"); reflexivity.
Qed.

Ltac run_construct :=
  unfold CAE.constructAppLogsConfigurationFromModel, CAE.logAnalyticsClient_Get,
    CAE.logAnalyticsClient_SharedKeysGetSharedKeys;
  unfold_go;
  repeat match goal with
         | |- context [if ?b then _ else _] =>
           lazymatch b with
           | context [if _ then _ else _] => fail
           | context [match _ with _ => _ end] => fail
           | _ => destruct b eqn:?
           end
         | |- context [match ?x with _ => _ end] =>
           lazymatch x with
           | context [match _ with _ => _ end] => fail
           | context [if _ then _ else _] => fail
           | _ => destruct x eqn:?
           end
         end; cbn in *;
  repeat match goal with
         | E : String.eqb _ _ = true |- _ => apply String.eqb_eq in E
         | E : String.eqb _ _ = false |- _ => apply String.eqb_neq in E
         | E : bool_decide _ = true |- _ => apply bool_decide_eq_true in E
         | E : bool_decide _ = false |- _ => apply bool_decide_eq_false in E
         end.

(** What the construction of the logs configuration answers: never both a
    configuration and an error; no configuration and no error exactly for
    the destination none, without a call; a configuration always names the
    destination of the model, which is then azure-monitor (no call, no
    workspace part) or log-analytics, and for log-analytics the workspace
    part carries both the customer ID and the shared key; and a panic can
    only happen on the log-analytics path. *)
Theorem constructAppLogsConfigurationFromModel_answers :
  forall (md : CAE.ResourceMetaData) id model,
    match run (CAE.constructAppLogsConfigurationFromModel id model) md with
    | (Returned (Some appLogs, None), md') =>
      CAE.Destination appLogs = Some (CAE.LogDestination model) /\
      ((CAE.LogDestination model = CAE.LogDestinationAzureMonitor /\
        CAE.LogAnalyticsConfiguration_ appLogs = None /\ md' = md) \/
       (CAE.LogDestination model = CAE.LogDestinationLogAnalytics /\
        exists customerId sharedKey,
          CAE.LogAnalyticsConfiguration_ appLogs =
            Some {| CAE.CustomerId := Some customerId; CAE.SharedKey := Some sharedKey |}))
    | (Returned (None, None), md') =>
      CAE.LogDestination model = CAE.LogDestinationNone /\ md' = md
    | (Returned (Some _, Some _), _) => False
    | (Returned (None, Some _), _) =>
      CAE.LogDestination model <> CAE.LogDestinationNone /\
      CAE.LogDestination model <> CAE.LogDestinationAzureMonitor
    | (Panicked _, _) => CAE.LogDestination model = CAE.LogDestinationLogAnalytics
    end.
Proof.
  intros md id model.
  run_construct; try (split; [congruence|congruence]); try congruence; try tauto.
  - split; [congruence|]. left. auto.
  - split; [congruence|]. right. split; [assumption|].
    match goal with
    | Hc : CAE.Workspace_CustomerId ?w <> None, Hk : CAE.PrimarySharedKey ?k <> None |- _ =>
      destruct (CAE.Workspace_CustomerId w) as [customerId|]; [|congruence];
      destruct (CAE.PrimarySharedKey k) as [sharedKey|]; [|congruence]
    end.
    eauto.
Qed.

(** The construction of the logs configuration only reads: the calls it
    issues go to the workspace client, at most the workspace Get followed by
    the shared keys call, and only for the log-analytics destination; the
    client, the configuration, the state handle and the gone mark stay as
    they were. *)
Theorem constructAppLogsConfigurationFromModel_only_reads_the_workspace :
  forall (md : CAE.ResourceMetaData) id model,
    let md' := snd (run (CAE.constructAppLogsConfigurationFromModel id model) md) in
    CAE.client md' = CAE.client md /\
    CAE.ResourceData md' = CAE.ResourceData md /\
    CAE.ResourceData_Id md' = CAE.ResourceData_Id md /\
    CAE.Gone md' = CAE.Gone md /\
    exists calls,
      CAE.Calls md' = CAE.Calls md ++ calls /\
      (calls = [] \/
       exists workspace,
         ParseWorkspaceID (CAE.LogAnalyticsWorkspaceId model) = inr workspace /\
         CAE.LogDestination model = CAE.LogDestinationLogAnalytics /\
         (calls = [CAE.Workspaces_Get workspace] \/
          calls = [CAE.Workspaces_Get workspace;
                   CAE.Workspaces_SharedKeysGetSharedKeys workspace])).
Proof.
  intros md id model md'. subst md'.
  destruct md as [c i d de ee hc g calls0].
  run_construct; (split; [reflexivity|]); (split; [reflexivity|]);
    (split; [reflexivity|]); (split; [reflexivity|]);
    rewrite <- ?app_assoc;
    first [ (exists []; split; [symmetry; apply app_nil_r|left; reflexivity])
          | (eexists; split; [reflexivity|]; right; eexists;
             split; [reflexivity|]; split; [assumption|]; auto) ].
Qed.

Lemma env_Create_invalid_destination (md : CAE.ResourceMetaData) existing err :
  CAE.DecodeError md = None ->
  let id := NewManagedEnvironmentID (CAE.Account_SubscriptionId (CAE.client md))
              (CAE.ResourceGroup (CAE.ResourceData md)) (CAE.Name (CAE.ResourceData md)) in
  CAE.managedEnvironments_Get (CAE.client md) id = (existing, err) ->
  WasNotFound (HttpResponse existing) = true ->
  CAE.LogDestination (CAE.ResourceData md) <> CAE.LogDestinationNone ->
  CAE.LogDestination (CAE.ResourceData md) <> CAE.LogDestinationAzureMonitor ->
  CAE.LogDestination (CAE.ResourceData md) <> CAE.LogDestinationLogAnalytics ->
  run CAE.Create md =
    (Returned (Some (Errorf "invalid log destination %s"
                       [ArgString (CAE.LogDestination (CAE.ResourceData md))])),
     CAE.with_Call (CAE.ManagedEnvironments_Get id) md).
Proof.
  intros Hdecode id Hget Hfound Hnone Hmonitor Hanalytics.
  apply String.eqb_neq in Hnone, Hmonitor, Hanalytics.
  unfold CAE.Create, CAE.Decode, CAE.client_Get, CAE.constructAppLogsConfigurationFromModel.
  unfold_go.
  rewrite Hdecode. cbn. fold id. rewrite Hget, Hfound. cbn.
  destruct md as [c i d de ee hc g calls]; cbn in *.
  rewrite Hnone, Hmonitor, Hanalytics.
  destruct err; reflexivity.
Qed.

(** Create needs a known log destination: when the environment does not
    exist yet and the configured destination is none of none, azure-monitor
    and log-analytics, an unset destination included, Create fails with the
    invalid-destination error after the existence check; no create call is
    issued and no identifier is persisted. *)
Theorem environment_Create_rejects_unknown_log_destination :
  forall (md : CAE.ResourceMetaData) existing err,
    CAE.DecodeError md = None ->
    let id := NewManagedEnvironmentID (CAE.Account_SubscriptionId (CAE.client md))
                (CAE.ResourceGroup (CAE.ResourceData md)) (CAE.Name (CAE.ResourceData md)) in
    CAE.managedEnvironments_Get (CAE.client md) id = (existing, err) ->
    WasNotFound (HttpResponse existing) = true ->
    CAE.LogDestination (CAE.ResourceData md) <> CAE.LogDestinationNone ->
    CAE.LogDestination (CAE.ResourceData md) <> CAE.LogDestinationAzureMonitor ->
    CAE.LogDestination (CAE.ResourceData md) <> CAE.LogDestinationLogAnalytics ->
    exists md',
      run CAE.Create md =
        (Returned (Some (Errorf "invalid log destination %s"
                           [ArgString (CAE.LogDestination (CAE.ResourceData md))])), md') /\
      CAE.Calls md' = CAE.Calls md ++ [CAE.ManagedEnvironments_Get id] /\
      CAE.ResourceData_Id md' = CAE.ResourceData_Id md.
Proof.
  intros md existing err Hdecode id Hget Hfound Hnone Hmonitor Hanalytics.
  eexists. split.
  - apply (env_Create_invalid_destination md existing err); assumption.
  - destruct md; cbn; auto.
Qed.

(** The request of Create, for the destinations that need no workspace: the
    environment is sent under its configured name and location, always with
    a network configuration, which names the subnet and the load balancer
    mode together when a subnet is configured and neither when it is not;
    the connection string is sent only when it is not empty; the logs
    configuration is absent for none and names azure-monitor otherwise.  The
    identifier becomes the state handle exactly when the call succeeded. *)
Theorem environment_Create_request :
  forall (md : CAE.ResourceMetaData) existing err,
    CAE.DecodeError md = None ->
    let config := CAE.ResourceData md in
    let id := NewManagedEnvironmentID (CAE.Account_SubscriptionId (CAE.client md))
                (CAE.ResourceGroup config) (CAE.Name config) in
    CAE.managedEnvironments_Get (CAE.client md) id = (existing, err) ->
    WasNotFound (HttpResponse existing) = true ->
    CAE.LogDestination config = CAE.LogDestinationNone \/
    CAE.LogDestination config = CAE.LogDestinationAzureMonitor ->
    exists input properties vnet md',
      run CAE.Create md =
        (Returned (CAE.wrapped "creating %s: %+v" id
                     (CAE.managedEnvironments_CreateOrUpdateThenPoll (CAE.client md) id input)),
         md') /\
      CAE.Calls md' =
        CAE.Calls md ++ [CAE.ManagedEnvironments_Get id;
                         CAE.ManagedEnvironments_CreateOrUpdateThenPoll id input] /\
      CAE.ResourceData_Id md' =
        match CAE.managedEnvironments_CreateOrUpdateThenPoll (CAE.client md) id input with
        | Some _ => CAE.ResourceData_Id md
        | None => ID (OfManagedEnvironment id)
        end /\
      CAE.Env_Name input = Some (CAE.Name config) /\
      CAE.Env_Location input = CAE.Location config /\
      CAE.Env_Tags input = Some (CAE.Tags config) /\
      CAE.Env_Properties input = Some properties /\
      CAE.VnetConfiguration_ properties = Some vnet /\
      (CAE.Vnet_InfrastructureSubnetId vnet =
         if String.eqb (CAE.InfrastructureSubnetId config) ""
         then None else Some (CAE.InfrastructureSubnetId config)) /\
      (CAE.Vnet_Internal vnet =
         if String.eqb (CAE.InfrastructureSubnetId config) ""
         then None else Some (CAE.InternalLoadBalancerEnabled config)) /\
      (CAE.DaprAIConnectionString properties =
         if String.eqb (CAE.DaprApplicationInsightsConnectionString config) ""
         then None else Some (CAE.DaprApplicationInsightsConnectionString config)) /\
      CAE.Props_ZoneRedundant properties = Some (CAE.ZoneRedundant config) /\
      CAE.AppLogsConfiguration_ properties =
        (if String.eqb (CAE.LogDestination config) CAE.LogDestinationNone
         then None
         else Some {| CAE.Destination := Some CAE.LogDestinationAzureMonitor;
                      CAE.LogAnalyticsConfiguration_ := None |}).
Proof.
  intros md existing err Hdecode config id Hget Hfound Hdestination.
  unfold CAE.Create, CAE.Decode, CAE.client_Get, CAE.client_CreateOrUpdateThenPoll,
    CAE.constructAppLogsConfigurationFromModel, CAE.SetID.
  unfold_go.
  rewrite Hdecode. cbn. fold config. fold id. rewrite Hget, Hfound. cbn.
  destruct md as [c i d de ee hc g calls]; cbn in *. subst config.
  destruct Hdestination as [-> | ->]; cbn;
    destruct err; cbn;
    match goal with
    | |- context [CAE.managedEnvironments_CreateOrUpdateThenPoll c id ?p] =>
      exists p; destruct (CAE.managedEnvironments_CreateOrUpdateThenPoll c id p)
    end; cbn; do 3 eexists; (split; [reflexivity|]); cbn;
    rewrite <- ?app_assoc; repeat (split; [reflexivity|]);
    destruct (String.eqb (CAE.InfrastructureSubnetId d) ""); cbn;
    repeat (split; [reflexivity|]); reflexivity.
Qed.

End EnvironmentFurther.

(** ** The plan-time check *)

Section DiffFurther.
Import ids ContainerAppEnvironmentDiff.
Context `{IdFunctions} `{CAE.Helpers}.

(** The plan-time check rejects a plan exactly when the log destination is
    explicitly set, a workspace is configured and the destination is not
    log-analytics; it accepts every other plan that decodes, and it leaves
    the metadata as it was. *)
Theorem CustomizeDiff_rejects_exactly :
  forall (metadata : DiffMetaData),
    DecodeDiffError metadata = None ->
    exists result,
      run CustomizeDiff metadata = (Returned result, metadata) /\
      (result = None <->
       snd (ResourceDiff_GetOk metadata "log_destination") = false \/
       CAE.LogAnalyticsWorkspaceId (ResourceDiff metadata) = ""%string \/
       fst (ResourceDiff_GetOk metadata "log_destination") =
         AnyString CAE.LogDestinationLogAnalytics).
Proof.
  intros metadata Hdecode.
  unfold CustomizeDiff, DecodeDiff. unfold_go.
  rewrite Hdecode. cbn.
  destruct (ResourceDiff_GetOk metadata "log_destination") as [value [|]]; cbn.
  - destruct (String.eqb (CAE.LogAnalyticsWorkspaceId (ResourceDiff metadata)) "")
      eqn:Hworkspace; cbn.
    + apply String.eqb_eq in Hworkspace.
      eexists. split; [reflexivity|]. split; auto.
    + apply String.eqb_neq in Hworkspace.
      destruct value as [s| |]; cbn.
      * destruct (String.eqb s CAE.LogDestinationLogAnalytics) eqn:Hvalue; cbn.
        -- apply String.eqb_eq in Hvalue as ->.
           eexists. split; [reflexivity|]. split; auto.
        -- apply String.eqb_neq in Hvalue.
           eexists. split; [reflexivity|].
           split; [discriminate|]. intros [[=]|[?|[= ?]]]; congruence.
      * eexists. split; [reflexivity|].
        split; [discriminate|]. intros [[=]|[?|[=]]]; congruence.
      * eexists. split; [reflexivity|].
        split; [discriminate|]. intros [[=]|[?|[=]]]; congruence.
  - eexists. split; [reflexivity|]. split; auto.
Qed.

(** The plan-time check accepts what Create rejects: a configuration whose
    log destination is unset passes the check, whatever workspace it names,
    and the Create of that configuration, once the environment is found
    absent, fails with the invalid-destination error without a create call. *)
Theorem CustomizeDiff_accepts_what_Create_rejects :
  forall (plan : DiffMetaData) (md : CAE.ResourceMetaData) value existing err,
    DecodeDiffError plan = None ->
    ResourceDiff plan = CAE.ResourceData md ->
    ResourceDiff_GetOk plan "log_destination" = (value, false) ->
    CAE.LogDestination (CAE.ResourceData md) = CAE.LogDestinationMissing ->
    CAE.DecodeError md = None ->
    let id := NewManagedEnvironmentID (CAE.Account_SubscriptionId (CAE.client md))
                (CAE.ResourceGroup (CAE.ResourceData md)) (CAE.Name (CAE.ResourceData md)) in
    CAE.managedEnvironments_Get (CAE.client md) id = (existing, err) ->
    WasNotFound (HttpResponse existing) = true ->
    run CustomizeDiff plan = (Returned None, plan) /\
    run CAE.Create md =
      (Returned (Some (Errorf "invalid log destination %s" [ArgString ""])),
       CAE.with_Call (CAE.ManagedEnvironments_Get id) md).
Proof.
  intros plan md value existing err Hdecodediff Hsame Hunset Hmissing Hdecode id Hget Hfound.
  split.
  - unfold CustomizeDiff, DecodeDiff. unfold_go.
    rewrite Hdecodediff. cbn. rewrite Hunset. reflexivity.
  - rewrite (env_Create_invalid_destination md existing err Hdecode Hget Hfound);
      rewrite Hmissing; [reflexivity|discriminate..].
Qed.

End DiffFurther.

(** ** Requests that cannot be read *)

Section UnreadableRequests.
Import ids.
Context `{IdFunctions} `{CAE.Helpers}.

(** A request that cannot be read stops before any remote call: a state
    handle that does not parse makes Read, Update and Delete of both
    adapters return the parse error as it is, and a configuration that does
    not decode makes Create of the environment return the decoding error as
    it is; the metadata, its call log included, is left untouched. *)
Theorem unreadable_request_stops_before_any_call :
  (forall (md : CR.ResourceMetaData) err,
      ParseCacheRuleID (CR.ResourceData_Id md) = inl err ->
      Forall (fun lifecycle => run lifecycle md = (Returned (Some err), md))
        [CR.Read; CR.Update; CR.Delete]) /\
  (forall (md : CAE.ResourceMetaData) err,
      ParseManagedEnvironmentID (CAE.ResourceData_Id md) = inl err ->
      Forall (fun lifecycle => run lifecycle md = (Returned (Some err), md))
        [CAE.Read; CAE.Update; CAE.Delete]) /\
  (forall (md : CAE.ResourceMetaData) err,
      CAE.DecodeError md = Some err ->
      run CAE.Create md = (Returned (Some err), md)).
Proof.
  split; [|split].
  - intros md err Hparse.
    destruct (cache_rule_parse_failure md err Hparse) as (Hread & Hupdate & Hdelete).
    repeat constructor; assumption.
  - intros md err Hparse.
    repeat constructor; unfold CAE.Read, CAE.Update, CAE.Delete; unfold_go;
      rewrite Hparse; reflexivity.
  - intros md err Hdecode.
    unfold CAE.Create, CAE.Decode. unfold_go. rewrite Hdecode. reflexivity.
Qed.

End UnreadableRequests.

(** ** The further properties on concrete requests *)

Lemma cache_rule_Create_persists_identifier_on_success_witness :
  exists md',
    run (@CR.Create Example.idFunctions)
      (Example.cacheRuleMetaData (Example.cacheRuleClient Example.notFound None) "") =
    (Returned None, md') /\
    CR.ResourceData_Id md' =
      "/subscriptions/12345678-1234-5678-1234-123456789012/resourceGroups/group1/providers/Microsoft.ContainerRegistry/registries/testacccr123/cacheRules/testacc-cr-cache-rule-123"%string.
Proof.
  edestruct (@cache_rule_Create_persists_identifier_on_success Example.idFunctions
               (Example.cacheRuleMetaData (Example.cacheRuleClient Example.notFound None) ""))
    as (md' & Hrun & Hid & _); [reflexivity..|].
  exists md'. split; [exact Hrun|exact Hid].
Defined.

Lemma cache_rule_Create_requires_readable_registry_witness :
  run (@CR.Create Example.idFunctions)
    (Sequence.configured {[ "container_registry_id" := CR.VString "registries/testacccr123" ]}
       Scenario.cacheRule_exists) =
  (Returned (Some (LocalError "parsing the identifier")),
   Sequence.configured {[ "container_registry_id" := CR.VString "registries/testacccr123" ]}
     Scenario.cacheRule_exists).
Proof.
  edestruct (@cache_rule_Create_requires_readable_registry Example.idFunctions
               (Sequence.configured
                  {[ "container_registry_id" := CR.VString "registries/testacccr123" ]}
                  Scenario.cacheRule_exists)) as [Hparse _]; [reflexivity|].
  apply Hparse. reflexivity.
Defined.

Lemma cache_rule_Read_maps_response_onto_state_witness :
  exists md',
    run (@CR.Read Example.idFunctions)
      (Scenario.cacheRule_persisted (Example.ok Example.cacheRule) None) =
    (Returned None, md') /\
    CR.ResourceData_fields md' !! "source_repo" =
      Some (CR.VString "docker.io/hello-world").
Proof.
  edestruct (@cache_rule_Read_maps_response_onto_state Example.idFunctions
               (Scenario.cacheRule_persisted (Example.ok Example.cacheRule) None))
    as (md' & Hrun & _ & _ & _ & Hrepos & _); [reflexivity..|].
  exists md'. split; [exact Hrun|]. apply (Hrepos _ eq_refl).
Defined.

Lemma cache_rule_Update_ignores_configuration_witness :
  fst (run (@CR.Update Example.idFunctions) Scenario.cacheRule_update) =
  fst (run (@CR.Update Example.idFunctions)
         (Scenario.cacheRule_persisted (Example.ok Example.cacheRule) None)).
Proof.
  edestruct (@cache_rule_Update_ignores_configuration Example.idFunctions
               (Scenario.cacheRule_persisted (Example.ok Example.cacheRule) None)
               Example.cacheRuleId (CR.ResourceData_fields Scenario.cacheRule_update))
    as [Hresult _]; [reflexivity|].
  exact Hresult.
Defined.

Lemma cache_rule_Read_after_Create_witness :
  exists created read,
    run (@CR.Create Example.idFunctions)
      (Example.cacheRuleMetaData (Example.cacheRuleClient Example.notFound None) "") =
    (Returned None, created) /\
    run (@CR.Read Example.idFunctions)
      (Sequence.later (Example.cacheRuleClient (Example.ok Example.cacheRule) None) created) =
    (Returned None, read) /\
    CR.ResourceData_fields read !! "target_repo" = Some (CR.VString "target") /\
    CR.ResourceData_fields read !! "container_registry_id" =
      Some (CR.VString (@ID Example.idFunctions (ids.OfRegistry Example.registryId))).
Proof.
  edestruct (@cache_rule_Read_after_Create Example.idFunctions
               (Example.cacheRuleMetaData (Example.cacheRuleClient Example.notFound None) ""))
    with (remote := Example.cacheRuleClient (Example.ok Example.cacheRule) None)
    as (created & read & Hcreate & Hread & _ & _ & _ & Htarget & Hregistry & _);
    [reflexivity..|].
  exists created, read. auto.
Defined.

Lemma environment_Read_keeps_what_the_API_does_not_return_witness :
  exists md',
    run (@CAE.Read Example.idFunctions Example.helpers)
      (Scenario.environment_persisted
         (Example.ok (Example.remoteEnvironment (Some (Example.remoteAppLogs "log-analytics"))))
         None (Example.environmentConfig "" Example.workspaceId)) = (Returned None, md') /\
    CAE.LogDestination (CAE.ResourceData md') = "log-analytics"%string /\
    CAE.LogAnalyticsWorkspaceId (CAE.ResourceData md') = Example.workspaceId.
Proof.
  edestruct (@environment_Read_keeps_what_the_API_does_not_return
               Example.idFunctions Example.helpers
               (Scenario.environment_persisted
                  (Example.ok (Example.remoteEnvironment
                                 (Some (Example.remoteAppLogs "log-analytics"))))
                  None (Example.environmentConfig "" Example.workspaceId)))
    as (md' & Hrun & _ & _ & _ & _ & _ & Hlogs); [reflexivity..|].
  exists md'. split; [exact Hrun|]. exact (Hlogs _ _ eq_refl eq_refl).
Defined.

Lemma environment_Read_then_Update_sends_no_logs_configuration_witness :
  exists read input result updated,
    run (@CAE.Read Example.idFunctions Example.helpers)
      (Scenario.environment_persisted
         (Example.ok (Example.remoteEnvironment (Some (Example.remoteAppLogs "azure-monitor"))))
         None (Example.environmentConfig "none" "")) = (Returned None, read) /\
    run (@CAE.Update Example.idFunctions Example.helpers) read = (Returned result, updated) /\
    CAE.Calls updated =
      [CAE.ManagedEnvironments_Get Example.environmentId;
       CAE.ManagedEnvironments_Get Example.environmentId;
       CAE.ManagedEnvironments_CreateOrUpdateThenPoll Example.environmentId input] /\
    CAE.Env_Properties input ≫= CAE.AppLogsConfiguration_ = None.
Proof.
  edestruct (@environment_Read_then_Update_sends_no_logs_configuration
               Example.idFunctions Example.helpers
               (Scenario.environment_persisted
                  (Example.ok (Example.remoteEnvironment
                                 (Some (Example.remoteAppLogs "azure-monitor"))))
                  None (Example.environmentConfig "none" "")))
    as (read & input & result & updated & Hread & Hupdate & Hcalls & Hlogs & _);
    [reflexivity..|discriminate|].
  exists read, input, result, updated. auto.
Defined.

Lemma environment_Update_stops_when_reading_fails_witness :
  exists md',
    run (@CAE.Update Example.idFunctions Example.helpers)
      (Scenario.environment_persisted Example.notFound None
         (Example.environmentConfig "none" "")) =
    (Returned (Some (Errorf "reading %s: %+v"
                       [ArgId (ids.OfManagedEnvironment Example.environmentId);
                        ArgError (RemoteError 404 "ResourceNotFound")])), md') /\
    CAE.Gone md' = false.
Proof.
  edestruct (@environment_Update_stops_when_reading_fails
               Example.idFunctions Example.helpers
               (Scenario.environment_persisted Example.notFound None
                  (Example.environmentConfig "none" ""))) as [_ Hget]; [reflexivity|].
  edestruct Hget as (md' & Hrun & _ & Hgone); [reflexivity..|].
  exists md'. split; [exact Hrun|exact Hgone].
Defined.

Lemma environment_Update_panics_without_model_witness :
  fst (run (@CAE.Update Example.idFunctions Example.helpers)
         (Scenario.environment_persisted
            ({| HttpResponse := Some {| StatusCode := 200 |}; Model := None |}, None) None
            (Example.environmentConfig "none" ""))) =
  Panicked "invalid memory address or nil pointer dereference".
Proof.
  erewrite (@environment_Update_panics_without_model Example.idFunctions Example.helpers);
    reflexivity.
Defined.

Lemma environment_Create_rejects_unknown_log_destination_witness :
  exists md',
    run (@CAE.Create Example.idFunctions Example.helpers)
      (Example.environmentMetaData (Example.environmentClient Example.notFound None) ""
         (Example.environmentConfig "" Example.workspaceId) false) =
    (Returned (Some (Errorf "invalid log destination %s" [ArgString ""])), md') /\
    CAE.Calls md' = [CAE.ManagedEnvironments_Get Example.environmentId].
Proof.
  edestruct (@environment_Create_rejects_unknown_log_destination
               Example.idFunctions Example.helpers
               (Example.environmentMetaData (Example.environmentClient Example.notFound None) ""
                  (Example.environmentConfig "" Example.workspaceId) false))
    as (md' & Hrun & Hcalls & _); [reflexivity..|discriminate|discriminate|discriminate|].
  exists md'. split; [exact Hrun|exact Hcalls].
Defined.

Lemma environment_Create_request_witness :
  exists input md',
    run (@CAE.Create Example.idFunctions Example.helpers)
      (Example.environmentMetaData (Example.environmentClient Example.notFound None) ""
         (Example.environmentConfig "none" "") false) = (Returned None, md') /\
    CAE.Calls md' =
      [CAE.ManagedEnvironments_Get Example.environmentId;
       CAE.ManagedEnvironments_CreateOrUpdateThenPoll Example.environmentId input] /\
    CAE.Env_Name input = Some "env1"%string.
Proof.
  edestruct (@environment_Create_request Example.idFunctions Example.helpers
               (Example.environmentMetaData (Example.environmentClient Example.notFound None) ""
                  (Example.environmentConfig "none" "") false))
    as (input & properties & vnet & md' & Hrun & Hcalls & _ & Hname & _);
    [reflexivity..|left; reflexivity|].
  exists input, md'. auto.
Defined.

Lemma CustomizeDiff_rejects_exactly_witness :
  exists result,
    fst (run (@ContainerAppEnvironmentDiff.CustomizeDiff Example.helpers)
           {| ContainerAppEnvironmentDiff.ResourceDiff :=
                Example.environmentConfig "azure-monitor" Example.workspaceId;
              ContainerAppEnvironmentDiff.DecodeDiffError := None;
              ContainerAppEnvironmentDiff.ResourceDiff_GetOk := fun _ =>
                (ContainerAppEnvironmentDiff.AnyString "azure-monitor", true) |}) =
      Returned result /\
    result <> None.
Proof.
  edestruct (@CustomizeDiff_rejects_exactly Example.helpers
               {| ContainerAppEnvironmentDiff.ResourceDiff :=
                    Example.environmentConfig "azure-monitor" Example.workspaceId;
                  ContainerAppEnvironmentDiff.DecodeDiffError := None;
                  ContainerAppEnvironmentDiff.ResourceDiff_GetOk := fun _ =>
                    (ContainerAppEnvironmentDiff.AnyString "azure-monitor", true) |})
    as (result & Hrun & Hiff); [reflexivity|].
  exists result. rewrite Hrun. split; [reflexivity|].
  intros Hnone. apply Hiff in Hnone. destruct Hnone as [Hunset|[Hworkspace|Hvalue]];
    discriminate.
Defined.

Lemma CustomizeDiff_accepts_what_Create_rejects_witness :
  fst (run (@ContainerAppEnvironmentDiff.CustomizeDiff Example.helpers)
         {| ContainerAppEnvironmentDiff.ResourceDiff :=
              Example.environmentConfig "" Example.workspaceId;
            ContainerAppEnvironmentDiff.DecodeDiffError := None;
            ContainerAppEnvironmentDiff.ResourceDiff_GetOk := fun _ =>
              (ContainerAppEnvironmentDiff.AnyString "", false) |}) = Returned None /\
  fst (run (@CAE.Create Example.idFunctions Example.helpers)
         (Example.environmentMetaData (Example.environmentClient Example.notFound None) ""
            (Example.environmentConfig "" Example.workspaceId) false)) =
    Returned (Some (Errorf "invalid log destination %s" [ArgString ""])).
Proof.
  edestruct (@CustomizeDiff_accepts_what_Create_rejects Example.idFunctions Example.helpers
               {| ContainerAppEnvironmentDiff.ResourceDiff :=
                    Example.environmentConfig "" Example.workspaceId;
                  ContainerAppEnvironmentDiff.DecodeDiffError := None;
                  ContainerAppEnvironmentDiff.ResourceDiff_GetOk := fun _ =>
                    (ContainerAppEnvironmentDiff.AnyString "", false) |}
               (Example.environmentMetaData (Example.environmentClient Example.notFound None) ""
                  (Example.environmentConfig "" Example.workspaceId) false))
    as [Hdiff Hcreate]; [reflexivity..|].
  rewrite Hdiff, Hcreate. split; reflexivity.
Defined.
